(** * Sensitivity engine: [calculateSensitivity] and [generateExplanation]

    A shallow embedding of [src/lib/sensitivity-calculator.ts].

    A TypeScript [number] is an IEEE 754 binary64 value.  It is modelled by
    [spec_float] of the Standard Library with precision 53 and maximal
    exponent 1024; products, quotients and differences are the correctly
    rounded [SFmul], [SFdiv] and [SFsub], comparisons are [SFcompare] (every
    comparison with NaN is false). *)

From Stdlib Require Import ZArith Bool List String Ascii Lia.
From Stdlib Require Import SpecFloat.
Import ListNotations.

Local Open Scope Z_scope.

(** ** Numbers *)

Module Num.

Definition number : Type := spec_float.

Definition mul : number -> number -> number := SFmul 53 1024.
Definition div : number -> number -> number := SFdiv 53 1024.
Definition sub : number -> number -> number := SFsub 53 1024.

(** [a <= b], [a < b], [a >= b] and [a > b] of the language. *)
Definition le (a b : number) : bool := SFleb a b.
Definition lt (a b : number) : bool := SFltb a b.
Definition ge (a b : number) : bool := SFleb b a.
Definition gt (a b : number) : bool := SFltb b a.

(** The number denoted by an integer literal. *)
Definition of_Z (z : Z) : number := binary_normalize 53 1024 z 0 false.

(** The number denoted by the decimal literal [n / d], [d] a power of ten:
    [n] and [d] are represented exactly and the quotient is rounded once to
    the nearest binary64 value, which is how a decimal literal is read. *)
Definition lit (n d : Z) : number := div (of_Z n) (of_Z d).

Definition is_nan (x : number) : bool :=
  match x with S754_nan => true | _ => false end.

(** [Math.max] and [Math.min] on two arguments: NaN if either is NaN, and
    [+0] is larger than [-0]. *)
Definition Math_max (a b : number) : number :=
  match SFcompare a b with
  | None => S754_nan
  | Some Lt => b
  | Some Gt => a
  | Some Eq => match a with S754_zero true => b | _ => a end
  end.

Definition Math_min (a b : number) : number :=
  match SFcompare a b with
  | None => S754_nan
  | Some Lt => a
  | Some Gt => b
  | Some Eq => match a with S754_zero false => b | _ => a end
  end.

(** [floor (n * 2^e + 1/2)] for [e < 0]. *)
Definition round_half_up (n e : Z) : Z :=
  (2 * n + 2 ^ (- e)) / 2 ^ (- e + 1).

(** [Math.round]: NaN, the infinities and the zeros are returned unchanged,
    a number that is already an integer too; otherwise the nearest integer,
    a tie going towards +infinity, and a result of zero keeps the sign of
    the argument. *)
Definition Math_round (x : number) : number :=
  match x with
  | S754_finite s m e =>
      if 0 <=? e then x
      else
        let z := round_half_up (cond_Zopp s (Zpos m)) e in
        if z =? 0 then S754_zero s else of_Z z
  | _ => x
  end.

(** Truthiness of a number: [0], [-0] and NaN are falsy. *)
Definition truthy (x : number) : bool :=
  match x with
  | S754_zero _ | S754_nan => false
  | _ => true
  end.

End Num.

Import Num.

(** ** Data model *)

Inductive Playstyle : Type :=
  freestyle | instaplayer | rusher | balanced | onetap | sniper.
Inductive PingLevel : Type := low | medium | high.
Inductive Platform : Type := android | ios | unknown.

Record SensitivityResult : Type := mkResult {
  general : number;
  redDot : number;
  scope2x : number;
  scope4x : number;
  awmScope : number;
  freeLook : number
}.

(** [dpi : number | null] is an [option]. *)
Record CalculationInput : Type := mkInput {
  platform : Platform;
  playstyle : Playstyle;
  pingLevel : PingLevel;
  screenSize : number;
  refreshRate : number;
  dpi : option number;
  useCustomDpi : bool
}.

(** ** Constants of the source, as binary64 values *)

Definition n0 : number := S754_zero false.
Definition n1 : number := Eval vm_compute in of_Z 1.
Definition n200 : number := Eval vm_compute in of_Z 200.

(** ** The calculator *)

Definition clamp (value : number) : number :=
  Math_min n200 (Math_max n1 (Math_round value)).

(** The constant tables have the six keys of a result, so they reuse its
    record type. *)
Definition BASE_SENSITIVITIES : SensitivityResult := Eval vm_compute in
  {| general := of_Z 165; redDot := of_Z 160; scope2x := of_Z 145;
     scope4x := of_Z 130; awmScope := of_Z 110; freeLook := of_Z 185 |}.

Definition PLAYSTYLE_MODIFIERS (p : Playstyle) : SensitivityResult :=
  Eval vm_compute in
  match p with
  | freestyle =>
      {| general := lit 122 100; redDot := lit 120 100; scope2x := lit 115 100;
         scope4x := lit 110 100; awmScope := lit 105 100; freeLook := lit 108 100 |}
  | instaplayer =>
      {| general := lit 118 100; redDot := lit 115 100; scope2x := lit 110 100;
         scope4x := lit 105 100; awmScope := lit 10 10; freeLook := lit 105 100 |}
  | rusher =>
      {| general := lit 112 100; redDot := lit 108 100; scope2x := lit 105 100;
         scope4x := lit 102 100; awmScope := lit 98 100; freeLook := lit 103 100 |}
  | balanced =>
      {| general := lit 103 100; redDot := lit 103 100; scope2x := lit 103 100;
         scope4x := lit 103 100; awmScope := lit 103 100; freeLook := lit 103 100 |}
  | onetap =>
      {| general := lit 10 10; redDot := lit 97 100; scope2x := lit 94 100;
         scope4x := lit 90 100; awmScope := lit 85 100; freeLook := lit 10 10 |}
  | sniper =>
      {| general := lit 95 100; redDot := lit 92 100; scope2x := lit 88 100;
         scope4x := lit 82 100; awmScope := lit 75 100; freeLook := lit 95 100 |}
  end.

Definition PING_MODIFIERS (p : PingLevel) : number := Eval vm_compute in
  match p with
  | low => lit 95 100
  | medium => lit 10 10
  | high => lit 108 100
  end.

Definition n5_5 : number := Eval vm_compute in lit 55 10.
Definition n6_0 : number := Eval vm_compute in lit 60 10.
Definition n6_5 : number := Eval vm_compute in lit 65 10.
Definition n7_0 : number := Eval vm_compute in lit 70 10.
Definition n1_08 : number := Eval vm_compute in lit 108 100.
Definition n1_04 : number := Eval vm_compute in lit 104 100.
Definition n1_0 : number := Eval vm_compute in lit 10 10.
Definition n0_96 : number := Eval vm_compute in lit 96 100.
Definition n0_92 : number := Eval vm_compute in lit 92 100.
Definition n0_95 : number := Eval vm_compute in lit 95 100.
Definition n1_05 : number := Eval vm_compute in lit 105 100.
Definition n0_85 : number := Eval vm_compute in lit 85 100.
Definition n1_15 : number := Eval vm_compute in lit 115 100.
Definition n60 : number := Eval vm_compute in of_Z 60.
Definition n90 : number := Eval vm_compute in of_Z 90.
Definition n120 : number := Eval vm_compute in of_Z 120.
Definition n420 : number := Eval vm_compute in of_Z 420.

Definition getScreenSizeModifier (screenSize : number) : number :=
  if le screenSize n5_5 then n1_08
  else if le screenSize n6_0 then n1_04
  else if le screenSize n6_5 then n1_0
  else if le screenSize n7_0 then n0_96
  else n0_92.

Definition getRefreshRateModifier (refreshRate : number) : number :=
  if le refreshRate n60 then n0_95
  else if le refreshRate n90 then n1_0
  else if le refreshRate n120 then n1_05
  else n1_08.

Definition getDpiModifier (dpi : number) : number :=
  let standardDpi := n420 in
  let ratio := div standardDpi dpi in
  Math_max n0_85 (Math_min n1_15 ratio).

Definition getiOSModifier : number := n0_92.

(** The condition [platform === "android" && dpi && (useCustomDpi || dpi > 0)]
    and the number it leaves in [dpi] when it holds. *)
Definition androidDpi (platform : Platform) (dpi : option number)
    (useCustomDpi : bool) : option number :=
  match platform, dpi with
  | android, Some d =>
      if truthy d && (useCustomDpi || gt d n0) then Some d else None
  | _, _ => None
  end.

Definition platformModifierOf (platform : Platform) (dpi : option number)
    (useCustomDpi : bool) : number :=
  match platform with
  | ios => getiOSModifier
  | _ =>
      match androidDpi platform dpi useCustomDpi with
      | Some d => getDpiModifier d
      | None => n1_0
      end
  end.

(** One channel before the ordering pass: the left-to-right product of the
    base value and the five modifiers, rounded and clamped. *)
Definition channel (base playstyleModifier pingModifier screenModifier
    refreshModifier platformModifier : number) : number :=
  clamp (mul (mul (mul (mul (mul base playstyleModifier) pingModifier)
                     screenModifier) refreshModifier) platformModifier).

(** The object literal of the source, before any adjustment. *)
Definition computed (input : CalculationInput) : SensitivityResult :=
  let playstyleModifiers := PLAYSTYLE_MODIFIERS (playstyle input) in
  let pingModifier := PING_MODIFIERS (pingLevel input) in
  let screenModifier := getScreenSizeModifier (screenSize input) in
  let refreshModifier := getRefreshRateModifier (refreshRate input) in
  let platformModifier :=
    platformModifierOf (platform input) (dpi input) (useCustomDpi input) in
  let ch (field : SensitivityResult -> number) :=
    channel (field BASE_SENSITIVITIES) (field playstyleModifiers)
            pingModifier screenModifier refreshModifier platformModifier in
  {| general := ch general; redDot := ch redDot; scope2x := ch scope2x;
     scope4x := ch scope4x; awmScope := ch awmScope; freeLook := ch freeLook |}.

(** The five assignments of the ordering pass, in the order of the source;
    each reads the fields as the previous assignments left them. *)
Definition repair (r : SensitivityResult) : SensitivityResult :=
  let g := general r in
  let rd := if ge (redDot r) g then sub g n1 else redDot r in
  let s2 := if ge (scope2x r) rd then sub rd n1 else scope2x r in
  let s4 := if ge (scope4x r) s2 then sub s2 n1 else scope4x r in
  let aw := if ge (awmScope r) s4 then sub s4 n1 else awmScope r in
  let fl := if gt (freeLook r) g then g else freeLook r in
  {| general := g; redDot := rd; scope2x := s2; scope4x := s4;
     awmScope := aw; freeLook := fl |}.

Definition finalClamp (r : SensitivityResult) : SensitivityResult :=
  {| general := clamp (general r); redDot := clamp (redDot r);
     scope2x := clamp (scope2x r); scope4x := clamp (scope4x r);
     awmScope := clamp (awmScope r); freeLook := clamp (freeLook r) |}.

Definition calculateSensitivity (input : CalculationInput) : SensitivityResult :=
  finalClamp (repair (computed input)).

(** ** The explanation *)

Local Open Scope string_scope.

Definition nl : string := String (ascii_of_nat 10) EmptyString.
Definition dquote : string := String (ascii_of_nat 34) EmptyString.

Section Explanation.

(** The conversion of a number to a string inside a template literal.  The
    text produced for a number is left open: what is proved below holds for
    every conversion, so also for the one of the language. *)
Variable toString : number -> string.

Definition dpiLevelOf (dpi : number) : string :=
  if gt dpi (of_Z 480) then "high"
  else if lt dpi (of_Z 360) then "low"
  else "standard".

Definition dpiCommentary (dpiLevel : string) : string :=
  if String.eqb dpiLevel "high"
  then "Higher DPI means touch input is more sensitive, so we've lowered the in-game sensitivity to compensate."
  else if String.eqb dpiLevel "low"
  then "Lower DPI means touch input is less responsive, so we've increased sensitivity slightly."
  else "This is a standard DPI range, providing balanced performance.".

(** The text appended by the block under "Device explanation". *)
Definition deviceSection (input : CalculationInput) : string :=
  match platform input with
  | ios =>
      "**iOS Optimization:** Your " ++ toString (screenSize input) ++ dquote ++
      " iOS device has excellent touch stability. Sensitivities are optimized for smooth, consistent tracking which is ideal for one-taps and drag shots."
      ++ nl ++ nl
  | android =>
      match dpi input with
      | Some d =>
          if truthy d then
            let dpiLevel := dpiLevelOf d in
            "**Android DPI Adjustment:** Your device runs at " ++ toString d ++
            " DPI (" ++ dpiLevel ++ "). " ++ dpiCommentary dpiLevel ++ nl ++ nl
          else ""
      | None => ""
      end
  | unknown => ""
  end.

Definition screenCommentary (screenSize : number) : string :=
  if lt screenSize (lit 60 10)
  then "Compact screen detected. Slightly higher sensitivity helps with quick movements in limited space."
  else if gt screenSize (lit 68 10)
  then "Large screen detected. Lower sensitivity provides better precision on bigger displays."
  else "Standard screen size provides balanced control.".

Definition screenSection (input : CalculationInput) : string :=
  "**Screen Size (" ++ toString (screenSize input) ++ dquote ++ "):** " ++
  screenCommentary (screenSize input) ++ nl ++ nl.

Definition refreshCommentary (refreshRate : number) : string :=
  if ge refreshRate (of_Z 120)
  then "High refresh rate allows for more responsive controls. You can handle slightly higher sensitivities with smoother tracking."
  else if ge refreshRate (of_Z 90)
  then "Good refresh rate provides smooth gameplay. Sensitivities are optimized for this range."
  else "Standard 60Hz display. Conservative sensitivities ensure consistent control.".

Definition refreshSection (input : CalculationInput) : string :=
  "**Refresh Rate (" ++ toString (refreshRate input) ++ "Hz):** " ++
  refreshCommentary (refreshRate input) ++ nl ++ nl.

Definition playstyleDescriptions (p : Playstyle) : string :=
  match p with
  | freestyle => "**Freestyle Profile:** Maximum sensitivity for flashy plays and extreme speed. Perfect for players who love 360 flicks, fast drag shots, and unpredictable movement. Requires excellent finger control."
  | instaplayer => "**Instaplayer Profile:** Very high sensitivity for instant reactions. Designed for aggressive close-combat dominators who need lightning-fast target acquisition and quick scope-ins."
  | rusher => "**Rusher Profile:** High sensitivity for fast aggressive gameplay. Quick flicks and aggressive pushes will feel natural. Good for players who like to rush and fight up close."
  | balanced => "**Balanced Profile:** Well-rounded sensitivities that work for all situations. Good for players who adapt their playstyle mid-match. Smooth drag shots and consistent one-taps."
  | onetap => "**One-Tap/Headshot Profile:** Controlled sensitivities optimized for precise headshots. Lower scope values help land consistent one-taps. Ideal for ranked and competitive play."
  | sniper => "**Sniper Profile:** Very controlled scope sensitivities, especially for AWM. Designed for patient, accurate long-range gameplay with maximum precision."
  end.

Definition pingDescriptions (p : PingLevel) : string :=
  match p with
  | low => "**Low Ping (0-40ms):** Excellent connection! Lower sensitivity compensation applied since your inputs register instantly."
  | medium => "**Medium Ping (41-80ms):** Moderate latency. Sensitivities are at baseline for this range."
  | high => "**High Ping (81+ms):** Higher latency detected. Slightly increased sensitivity helps compensate for delayed input registration."
  end.

(** The lines appended under "Result summary". *)
Definition summaryLines (result : SensitivityResult) : list string :=
  [ "- General: " ++ toString (general result) ++ " (highest for overall control)" ++ nl;
    "- Red Dot: " ++ toString (redDot result) ++ " (close to mid-range tracking)" ++ nl;
    "- 2x Scope: " ++ toString (scope2x result) ++ " (mid-range precision)" ++ nl;
    "- 4x Scope: " ++ toString (scope4x result) ++ " (long-range control)" ++ nl;
    "- AWM Scope: " ++ toString (awmScope result) ++ " (sniper precision)" ++ nl;
    "- Free Look: " ++ toString (freeLook result) ++ " (situational awareness)" ++ nl ++ nl ].

Definition summarySection (result : SensitivityResult) : string :=
  "---" ++ nl ++ nl ++ "**Your Sensitivity Summary:**" ++ nl ++
  String.concat "" (summaryLines result).

Definition testingGuide : string :=
  "**Testing Guide:** Head to the Training Ground and test these settings for 5-10 minutes. If movements feel too fast or slow, adjust each value by Â±2 until comfortable.".

(** [explanation] starts empty and every [+=] appends: the result is the
    concatenation of the appended texts in the order of the source. *)
Definition generateExplanation (input : CalculationInput)
    (result : SensitivityResult) : string :=
  deviceSection input ++ screenSection input ++ refreshSection input ++
  (playstyleDescriptions (playstyle input) ++ nl ++ nl) ++
  (pingDescriptions (pingLevel input) ++ nl ++ nl) ++
  summarySection result ++ testingGuide.

End Explanation.

(** ** The form and the page

    A shallow embedding of [handleSubmit] of
    [src/components/sensitivity-form.tsx] and of [handleGenerate] and
    [handleSavePreset] of the page component, which build the input of
    [calculateSensitivity] from the texts of the form and pass the result on.
    The fields of the records carry a prefix, as several objects of the
    source have fields of the same name. *)

(** [a || b] on numbers and on strings: the left operand when it is truthy,
    the right operand otherwise.  The empty string is the falsy string. *)
Definition or_number (a b : number) : number := if truthy a then a else b.

Definition or_string (a b : string) : string :=
  match a with EmptyString => b | _ => a end.

(** The state [formData] of the form. *)
Record FormData : Type := mkFormData {
  form_deviceName : string;
  form_platform : Platform;
  form_playstyle : Playstyle;
  form_pingLevel : PingLevel;
  form_screenSize : string;
  form_refreshRate : string;
  form_dpi : string;
  form_useCustomDpi : bool
}.

(** The argument of [onGenerate]. *)
Record GenerateData : Type := mkGenerateData {
  data_deviceName : string;
  data_platform : Platform;
  data_playstyle : Playstyle;
  data_pingLevel : PingLevel;
  data_screenSize : number;
  data_refreshRate : number;
  data_dpi : option number;
  data_useCustomDpi : bool
}.

Record DeviceInfo : Type := mkDeviceInfo {
  info_deviceName : string;
  info_platform : Platform;
  info_playstyle : Playstyle;
  info_pingLevel : PingLevel;
  info_dpi : option number
}.

(** The state [generatedResult] of the page, when it is not null. *)
Record GeneratedResult : Type := mkGeneratedResult {
  gen_result : SensitivityResult;
  gen_explanation : string;
  gen_deviceInfo : DeviceInfo;
  gen_input : CalculationInput
}.

(** The object that [handleSavePreset] sends to the preset store. *)
Record PresetRequest : Type := mkPresetRequest {
  req_name : string;
  req_device : string;
  req_platform : Platform;
  req_playstyle : Playstyle;
  req_ping : PingLevel;
  req_dpi : option number;
  req_sensitivities : SensitivityResult
}.

Section Page.

(** The conversions between texts and numbers of the language are left
    open: [parseFloat] and [parseInt] of a text, and the conversion of a
    number inside a template literal. *)
Variables parseFloat parseInt : string -> number.
Variable toString : number -> string.

(** [handleSubmit] calls [onGenerate] on the object built from the form. *)
Definition handleSubmit {R : Type} (onGenerate : GenerateData -> R)
    (formData : FormData) : R :=
  onGenerate
    {| data_deviceName := or_string (form_deviceName formData) "Unknown Device";
       data_platform := form_platform formData;
       data_playstyle := form_playstyle formData;
       data_pingLevel := form_pingLevel formData;
       data_screenSize := or_number (parseFloat (form_screenSize formData)) (lit 65 10);
       data_refreshRate := or_number (parseInt (form_refreshRate formData)) (of_Z 60);
       data_dpi :=
         match form_platform formData with
         | android => Some (or_number (parseInt (form_dpi formData)) (of_Z 440))
         | _ => None
         end;
       data_useCustomDpi := form_useCustomDpi formData |}.

(** [handleGenerate]: the value given to [setGeneratedResult]. *)
Definition handleGenerate (data : GenerateData) : GeneratedResult :=
  let input :=
    {| platform := data_platform data;
       playstyle := data_playstyle data;
       pingLevel := data_pingLevel data;
       screenSize := data_screenSize data;
       refreshRate := data_refreshRate data;
       dpi := data_dpi data;
       useCustomDpi := data_useCustomDpi data |} in
  let result := calculateSensitivity input in
  let explanation := generateExplanation toString input result in
  {| gen_result := result;
     gen_explanation := explanation;
     gen_deviceInfo :=
       {| info_deviceName := data_deviceName data;
          info_platform := data_platform data;
          info_playstyle := data_playstyle data;
          info_pingLevel := data_pingLevel data;
          info_dpi := data_dpi data |};
     gen_input := input |}.

(** [handleSavePreset]: nothing is sent while there is no generated result;
    otherwise the object that is sent. *)
Definition handleSavePreset (generatedResult : option GeneratedResult)
    (name : string) : option PresetRequest :=
  match generatedResult with
  | None => None
  | Some g =>
      Some {| req_name := name;
              req_device := info_deviceName (gen_deviceInfo g);
              req_platform := info_platform (gen_deviceInfo g);
              req_playstyle := info_playstyle (gen_deviceInfo g);
              req_ping := info_pingLevel (gen_deviceInfo g);
              req_dpi := info_dpi (gen_deviceInfo g);
              req_sensitivities := gen_result g |}
  end.

End Page.

Local Close Scope string_scope.

(** ** Definitions used in the statements and proofs *)

(** What a shift record knows of [M] after shifts by [P = 2^k] in all: the
    quotient of [M] by [P]; the round bit says whether the remainder reaches
    half of [P], the sticky bit whether anything is left beyond that. *)
Definition shr_inv (M : Z) (P : Z) (mrs : shr_record) : Prop :=
  shr_m mrs = M / P /\
  exists u, 2 * (M mod P) = (if shr_r mrs then P else 0) + u /\
            0 <= u < P /\ (shr_s mrs = false <-> u = 0).

(** The mantissa kept by the first shift of [binary_round_aux] and the
    mantissa after rounding to nearest, ties to even. *)
Definition shifted (M : positive) (l : location) : shr_record :=
  Nat.iter (Z.to_nat (Zpos (digits2_pos M) - 53)) shr_1
           (shr_record_of_loc (Zpos M) l).

Definition rounded (M : positive) (l : location) : Z :=
  round_nearest_even (shr_m (shifted M l)) (loc_of_shr_record (shifted M l)).

(** The result of [binary_round_aux] on a mantissa of at least 53 digits
    whose rounded exponent stays above the subnormal range. *)
Definition round_result (s : bool) (m1 e : Z) : number :=
  if m1 <? 2 ^ 53
  then (if e <=? 971 then S754_finite s (Z.to_pos m1) e else S754_infinity s)
  else (if e + 1 <=? 971 then S754_finite s (Z.to_pos (2 ^ 52)) (e + 1)
        else S754_infinity s).

(** A positive number in normal form: the mantissa has exactly 53 bits. *)
Definition normal (x : number) : Prop :=
  match x with
  | S754_finite false m _ => 2 ^ 52 <= Zpos m < 2 ^ 53
  | _ => False
  end.

(** Exponent and mantissa of a finite number, whose value is
    [mantissa * 2 ^ exponent]. *)
Definition exponent (x : number) : Z :=
  match x with S754_finite _ _ e => e | _ => 0 end.

Definition mantissa (x : number) : Z :=
  match x with S754_finite _ m _ => Zpos m | _ => 0 end.

Definition finite (x : number) : Prop :=
  match x with S754_finite _ _ _ => True | _ => False end.

(** The clamp of the calculator on integers. *)
Definition clampZ (z : Z) : Z := Z.min 200 (Z.max 1 z).

(** The [n] integers from [lo] on. *)
Definition Zrange (lo : Z) (n : nat) : list Z :=
  map (fun k => lo + Z.of_nat k) (seq 0 n).

(** Equality of representations, to compare computed numbers. *)
Definition num_eqb (x y : number) : bool :=
  match x, y with
  | S754_zero a, S754_zero b => Bool.eqb a b
  | S754_infinity a, S754_infinity b => Bool.eqb a b
  | S754_nan, S754_nan => true
  | S754_finite a m e, S754_finite b m' e' =>
      Bool.eqb a b && Pos.eqb m m' && Z.eqb e e'
  | _, _ => false
  end.

(** On the integers from -3 to 200 subtraction of 1, the clamp and the
    comparisons of numbers are those of integers: the check for one [a]. *)
Definition small_ok (a : Z) : bool :=
  num_eqb (sub (of_Z a) n1) (of_Z (a - 1)) &&
  num_eqb (clamp (of_Z a)) (of_Z (clampZ a)) &&
  forallb (fun b => Bool.eqb (SFleb (of_Z a) (of_Z b)) (a <=? b) &&
                    Bool.eqb (SFltb (of_Z a) (of_Z b)) (a <? b))
          (Zrange (-3) 204).

(** The six channels as integers. *)
Record Ints : Type := mkInts {
  i_general : Z; i_redDot : Z; i_scope2x : Z;
  i_scope4x : Z; i_awmScope : Z; i_freeLook : Z
}.

Definition to_result (t : Ints) : SensitivityResult :=
  {| general := of_Z (i_general t); redDot := of_Z (i_redDot t);
     scope2x := of_Z (i_scope2x t); scope4x := of_Z (i_scope4x t);
     awmScope := of_Z (i_awmScope t); freeLook := of_Z (i_freeLook t) |}.

Definition in_range (t : Ints) : Prop :=
  1 <= i_general t <= 200 /\ 1 <= i_redDot t <= 200 /\
  1 <= i_scope2x t <= 200 /\ 1 <= i_scope4x t <= 200 /\
  1 <= i_awmScope t <= 200 /\ 1 <= i_freeLook t <= 200.

(** The ordering pass and the final clamp on integers. *)
Definition repairZ (t : Ints) : Ints :=
  let g := i_general t in
  let rd := if g <=? i_redDot t then g - 1 else i_redDot t in
  let s2 := if rd <=? i_scope2x t then rd - 1 else i_scope2x t in
  let s4 := if s2 <=? i_scope4x t then s2 - 1 else i_scope4x t in
  let aw := if s4 <=? i_awmScope t then s4 - 1 else i_awmScope t in
  let fl := if g <? i_freeLook t then g else i_freeLook t in
  mkInts g rd s2 s4 aw fl.

Definition finalClampZ (t : Ints) : Ints :=
  mkInts (clampZ (i_general t)) (clampZ (i_redDot t)) (clampZ (i_scope2x t))
         (clampZ (i_scope4x t)) (clampZ (i_awmScope t)) (clampZ (i_freeLook t)).

Definition positive_finite (x : number) : Prop :=
  match x with S754_finite false _ _ => True | _ => False end.

(** The value of a finite number in units of [2^c]. *)
Definition scaled (c : Z) (x : number) : Z :=
  mantissa x * 2 ^ (exponent x - c).

(** A well-formed binary64 value.  Every number of the language is one;
    [spec_float] also has triples that are not normalised or out of range. *)
Definition wf_number (x : number) : Prop := valid_binary 53 1024 x = true.

Definition wf_dpi (dpi : option number) : Prop :=
  match dpi with Some d => wf_number d | None => True end.

(** The product of a channel before the platform modifier is applied. *)
Definition pre (field : SensitivityResult -> number) (ps : Playstyle)
    (ping : PingLevel) (sm rm : number) : number :=
  mul (mul (mul (mul (field BASE_SENSITIVITIES) (field (PLAYSTYLE_MODIFIERS ps)))
                (PING_MODIFIERS ping)) sm) rm.

Definition all_playstyles : list Playstyle :=
  [freestyle; instaplayer; rusher; balanced; onetap; sniper].
Definition screen_modifiers : list number := [n1_08; n1_04; n1_0; n0_96; n0_92].
Definition refresh_modifiers : list number := [n0_95; n1_0; n1_05; n1_08].

(** A positive normal number between [2^5] and [2^13], as a check. *)
Definition normalb (x : number) : bool :=
  match x with
  | S754_finite false m e =>
      (2 ^ 52 <=? Zpos m) && (Zpos m <? 2 ^ 53) && (-47 <=? e) && (e <=? -40)
  | _ => false
  end.

(** [w1 (1 + 2^-53) <= w2 (1 - 2^-53)], as a check. *)
Definition gapb (w1 w2 : number) : bool :=
  scaled (-47) w1 * (2 ^ 53 + 1) <=? scaled (-47) w2 * (2 ^ 53 - 1).

(** For one row of the tables: the three products of the general channel
    are normal, of moderate size, and ordered as the ping modifiers are. *)
Definition general_ok (ps : Playstyle) (sm rm : number) : bool :=
  let wl := pre general ps low sm rm in
  let wm := pre general ps medium sm rm in
  let wh := pre general ps high sm rm in
  normalb wl && normalb wm && normalb wh && gapb wl wm && gapb wm wh.

Definition table_ok : bool :=
  forallb (fun ps =>
    forallb (fun sm =>
      forallb (fun rm => general_ok ps sm rm) refresh_modifiers)
      screen_modifiers)
    all_playstyles.

(** [x] is the number of an integer between [lo] and [hi]. *)
Definition int_in (lo hi : Z) (x : number) : Prop :=
  exists z, lo <= z <= hi /\ x = of_Z z.

(** The contract on the input: its numbers are well-formed binary64
    values, the screen size and the refresh rate are positive, and [dpi] is
    null or positive. *)
Definition valid_input (input : CalculationInput) : Prop :=
  wf_number (screenSize input) /\ gt (screenSize input) n0 = true /\
  wf_number (refreshRate input) /\ gt (refreshRate input) n0 = true /\
  match dpi input with
  | Some d => wf_number d /\ gt d n0 = true
  | None => True
  end.

(** The input with one field replaced. *)
Definition withPing (input : CalculationInput) (p : PingLevel) : CalculationInput :=
  {| platform := platform input; playstyle := playstyle input; pingLevel := p;
     screenSize := screenSize input; refreshRate := refreshRate input;
     dpi := dpi input; useCustomDpi := useCustomDpi input |}.

Definition withRefreshRate (input : CalculationInput) (r : number) : CalculationInput :=
  {| platform := platform input; playstyle := playstyle input;
     pingLevel := pingLevel input; screenSize := screenSize input;
     refreshRate := r; dpi := dpi input; useCustomDpi := useCustomDpi input |}.

Definition withUseCustomDpi (input : CalculationInput) (u : bool) : CalculationInput :=
  {| platform := platform input; playstyle := playstyle input;
     pingLevel := pingLevel input; screenSize := screenSize input;
     refreshRate := refreshRate input; dpi := dpi input; useCustomDpi := u |}.

Definition withScreenSize (input : CalculationInput) (s : number) : CalculationInput :=
  {| platform := platform input; playstyle := playstyle input;
     pingLevel := pingLevel input; screenSize := s;
     refreshRate := refreshRate input; dpi := dpi input;
     useCustomDpi := useCustomDpi input |}.

Definition withDpi (input : CalculationInput) (d : option number) : CalculationInput :=
  {| platform := platform input; playstyle := playstyle input;
     pingLevel := pingLevel input; screenSize := screenSize input;
     refreshRate := refreshRate input; dpi := d;
     useCustomDpi := useCustomDpi input |}.

Definition withPlatform (input : CalculationInput) (p : Platform) : CalculationInput :=
  {| platform := p; playstyle := playstyle input;
     pingLevel := pingLevel input; screenSize := screenSize input;
     refreshRate := refreshRate input; dpi := dpi input;
     useCustomDpi := useCustomDpi input |}.

(** The inputs of the scenarios of the specification, and one whose general
    and redDot channels both reach 200 before the ordering pass. *)
Definition input_ios : CalculationInput :=
  mkInput ios balanced medium (lit 67 10) (of_Z 60) None false.
Definition input_tie : CalculationInput :=
  mkInput android balanced high (lit 55 10) (of_Z 144) (Some (of_Z 300)) false.
Definition input_android : CalculationInput :=
  mkInput android sniper low (lit 65 10) (of_Z 144) (Some (of_Z 440)) false.


(** [t] occurs in [s]. *)
Definition contains (s t : string) : Prop :=
  exists a b : string, s = (a ++ t ++ b)%string.

(** An input outside the contract, and one with a [dpi] of zero. *)
Definition input_negative_screen : CalculationInput :=
  mkInput unknown rusher high (of_Z (-3)) (of_Z 90) None false.

(** The falsy values of [dpi]: null, and the numbers 0, -0 and NaN. *)
Definition dpi_falsy (dpi : option number) : Prop :=
  match dpi with Some d => truthy d = false | None => True end.

Definition input_android_no_dpi : CalculationInput :=
  mkInput android balanced medium (lit 65 10) (of_Z 90) (Some n0) false.

(** The six fields of a result. *)
Definition fields : list (SensitivityResult -> number) :=
  [general; redDot; scope2x; scope4x; awmScope; freeLook].

(** Every field of [r1] is at most the same field of [r2]. *)
Definition result_le (r1 r2 : SensitivityResult) : Prop :=
  le (general r1) (general r2) = true /\ le (redDot r1) (redDot r2) = true /\
  le (scope2x r1) (scope2x r2) = true /\ le (scope4x r1) (scope4x r2) = true /\
  le (awmScope r1) (awmScope r2) = true /\ le (freeLook r1) (freeLook r2) = true.

(** Componentwise order of six integers. *)
Definition ints_le (t1 t2 : Ints) : Prop :=
  i_general t1 <= i_general t2 /\ i_redDot t1 <= i_redDot t2 /\
  i_scope2x t1 <= i_scope2x t2 /\ i_scope4x t1 <= i_scope4x t2 /\
  i_awmScope t1 <= i_awmScope t2 /\ i_freeLook t1 <= i_freeLook t2.

(** [w1] is [w2], or lies more than two rounding errors below it. *)
Definition leqb (w1 w2 : number) : bool := num_eqb w1 w2 || gapb w1 w2.

(** All pairs of an element of a list and a later or the same element. *)
Fixpoint ordered_pairs {A : Type} (l : list A) : list (A * A) :=
  match l with
  | [] => []
  | x :: l' => map (fun y => (x, y)) (x :: l') ++ ordered_pairs l'
  end.

Definition all_pings : list PingLevel := [low; medium; high].

(** Two numbers are the numbers of integers of [1, 200] in order. *)
Definition ints_in_order (x y : number) : Prop :=
  exists a b, x = of_Z a /\ y = of_Z b /\ 1 <= a <= b /\ b <= 200.

Definition ping_rank (p : PingLevel) : nat :=
  match p with low => 0 | medium => 1 | high => 2 end.

Definition playstyle_rank (p : Playstyle) : nat :=
  match p with
  | freestyle => 0 | instaplayer => 1 | rusher => 2
  | balanced => 3 | onetap => 4 | sniper => 5
  end.

Definition withPlaystyle (input : CalculationInput) (p : Playstyle) : CalculationInput :=
  {| platform := platform input; playstyle := p;
     pingLevel := pingLevel input; screenSize := screenSize input;
     refreshRate := refreshRate input; dpi := dpi input;
     useCustomDpi := useCustomDpi input |}.

(** The quotient of [N] by [P] rounded to the nearest integer, ties to
    even. *)
Definition rne (N P : Z) : Z :=
  match 2 * (N mod P) ?= P with
  | Lt => N / P
  | Eq => if Z.even (N / P) then N / P else N / P + 1
  | Gt => N / P + 1
  end.

(** The correctly rounded binary64 value of [N / D * 2 ^ E], for a quotient
    [N / D] of at least 53 digits and away from overflow. *)
Definition rnd (N D E : Z) : number :=
  round_result false (rne N (D * 2 ^ (Zdigits2 (N / D) - 53)))
               (E + (Zdigits2 (N / D) - 53)).

(** A form and conversions for the instances below. *)
Definition parse_constant (x : number) : string -> number := fun _ => x.

Definition form_android : FormData :=
  mkFormData "Pixel"%string android balanced medium "6.5"%string "60"%string
             "440"%string false.

(** What the page stores when the form is submitted. *)
Definition generated (parseFloat parseInt : string -> number)
    (toString : number -> string) (formData : FormData) : GeneratedResult :=
  handleSubmit parseFloat parseInt (handleGenerate toString) formData.

Definition withFormUseCustomDpi (formData : FormData) (u : bool) : FormData :=
  {| form_deviceName := form_deviceName formData;
     form_platform := form_platform formData;
     form_playstyle := form_playstyle formData;
     form_pingLevel := form_pingLevel formData;
     form_screenSize := form_screenSize formData;
     form_refreshRate := form_refreshRate formData;
     form_dpi := form_dpi formData;
     form_useCustomDpi := u |}.

(** ** Facts about binary64 arithmetic *)

(** *** The number model on examples *)

Example literal_1_08 : n1_08 = S754_finite false 4863887597560136 (-52).
Proof. reflexivity. Qed.

Example literal_0_85 : n0_85 = S754_finite false 7656119366529843 (-53).
Proof. reflexivity. Qed.

Example literal_200 : n200 = S754_finite false 7036874417766400 (-45).
Proof. reflexivity. Qed.

Example round_2_5 : Math_round (lit 25 10) = of_Z 3.
Proof. vm_compute. reflexivity. Qed.

Example round_minus_2_5 : Math_round (lit (-25) 10) = of_Z (-2).
Proof. vm_compute. reflexivity. Qed.

Example round_minus_0_2 : Math_round (lit (-2) 10) = S754_zero true.
Proof. vm_compute. reflexivity. Qed.

(** The largest number below one half rounds to 0. *)
Example round_below_half :
  Math_round (S754_finite false 9007199254740991 (-54)) = S754_zero false.
Proof. vm_compute. reflexivity. Qed.

Example clamp_nan : clamp S754_nan = S754_nan.
Proof. reflexivity. Qed.

Example scenario_android_sniper :
  calculateSensitivity
    (mkInput android sniper low (lit 65 10) (of_Z 144) (Some (of_Z 440)) false)
  = {| general := of_Z 154; redDot := of_Z 144; scope2x := of_Z 125;
       scope4x := of_Z 104; awmScope := of_Z 81; freeLook := of_Z 154 |}.
Proof. vm_compute. reflexivity. Qed.

(** *** Digits and shifts *)

Lemma digits2_pos_bounds (p : positive) :
  2 ^ (Zpos (digits2_pos p) - 1) <= Zpos p < 2 ^ Zpos (digits2_pos p).
Proof.
  induction p as [p IH | p IH | ]; cbn [digits2_pos].
  - rewrite Pos2Z.inj_succ.
    replace (Z.succ (Zpos (digits2_pos p)) - 1) with (Z.succ (Zpos (digits2_pos p) - 1)) by lia.
    rewrite !Z.pow_succ_r by lia. lia.
  - rewrite Pos2Z.inj_succ.
    replace (Z.succ (Zpos (digits2_pos p)) - 1) with (Z.succ (Zpos (digits2_pos p) - 1)) by lia.
    rewrite !Z.pow_succ_r by lia. lia.
  - cbn. lia.
Qed.

Lemma digits2_pos_unique (p : positive) (d : Z) :
  2 ^ (d - 1) <= Zpos p < 2 ^ d -> Zpos (digits2_pos p) = d.
Proof.
  intros [Hlo Hhi].
  pose proof (digits2_pos_bounds p) as [Blo Bhi].
  assert (0 < d).
  { destruct (Z.ltb_spec 0 d); [assumption|].
    exfalso. destruct (Z.eq_dec d 0) as [->|]; [cbn in Hhi; lia|].
    rewrite Z.pow_neg_r in Hhi by lia. lia. }
  assert (d - 1 < Zpos (digits2_pos p)).
  { apply (Z.pow_lt_mono_r_iff 2); lia. }
  assert (Zpos (digits2_pos p) - 1 < d).
  { apply (Z.pow_lt_mono_r_iff 2); lia. }
  lia.
Qed.

Lemma iter_pos_iter {A : Type} (f : A -> A) (p : positive) (x : A) :
  iter_pos f p x = Pos.iter f x p.
Proof.
  revert x. induction p as [p IH | p IH | ]; intros x; cbn [iter_pos Pos.iter].
  - rewrite !IH. rewrite <- !Pos.iter_swap. reflexivity.
  - rewrite !IH. reflexivity.
  - reflexivity.
Qed.

Lemma iter_pos_nat {A : Type} (f : A -> A) (p : positive) (x : A) :
  iter_pos f p x = Nat.iter (Pos.to_nat p) f x.
Proof. rewrite iter_pos_iter. apply Pos2Nat.inj_iter. Qed.

Lemma shr_1_spec (m : Z) (r s : bool) :
  0 <= m ->
  shr_1 (Build_shr_record m r s) = Build_shr_record (m / 2) (Z.odd m) (r || s).
Proof.
  intros Hm. destruct m as [ | [p | p | ] | p ]; try lia; cbn [shr_1].
  - reflexivity.
  - f_equal. rewrite Pos2Z.inj_xI. apply Z.div_unique with 1; lia.
  - f_equal. rewrite Pos2Z.inj_xO. apply Z.div_unique with 0; lia.
  - reflexivity.
Qed.

Lemma shr_inv_init (M : Z) : shr_inv M 1 (Build_shr_record M false false).
Proof.
  split; cbn.
  - now rewrite Z.div_1_r.
  - exists 0. rewrite Z.mod_1_r. split; [lia | ]. split; [lia | ]. tauto.
Qed.

Lemma shr_inv_step (M P : Z) (mrs : shr_record) :
  0 <= M -> 0 < P -> shr_inv M P mrs -> shr_inv M (P * 2) (shr_1 mrs).
Proof.
  intros HM HP [Hm (u & Hu & Hub & Hs)].
  destruct mrs as [m r s]. cbn [shr_m shr_r shr_s] in *.
  assert (0 <= m) by (subst m; apply Z.div_pos; lia).
  rewrite shr_1_spec by assumption. split; cbn [shr_m shr_r shr_s].
  - subst m. rewrite Z.div_div by lia. reflexivity.
  - exists (2 * (M mod P)).
    rewrite Z.rem_mul_r by lia. rewrite <- Hm.
    pose proof (Z.mod_pos_bound M P HP).
    rewrite Zmod_odd.
    destruct (Z.odd m), r, s; cbn [orb]; repeat split; try lia;
      try (intros _; destruct Hs as [Hs _]; specialize (Hs eq_refl); lia);
      try (intros E; destruct Hs as [_ Hs]; assert (u = 0) by lia; auto);
      try (intros E; exfalso; lia); try discriminate.
Qed.

Lemma shr_inv_iter (M : Z) (k : nat) :
  0 <= M ->
  shr_inv M (2 ^ Z.of_nat k) (Nat.iter k shr_1 (Build_shr_record M false false)).
Proof.
  intros HM. induction k as [ | k IH].
  - apply shr_inv_init.
  - rewrite Nat2Z.inj_succ, Z.pow_succ_r by lia.
    change (Nat.iter (S k) shr_1 ?x) with (shr_1 (Nat.iter k shr_1 x)).
    rewrite Z.mul_comm. apply shr_inv_step; [assumption | lia | assumption].
Qed.

Lemma round_nearest_even_range (m : Z) (l : location) :
  m <= round_nearest_even m l <= m + 1.
Proof.
  destruct l as [ | [ | | ] ]; cbn [round_nearest_even]; try lia.
  destruct (Z.even m); lia.
Qed.

(** Rounding the shifted record moves the mantissa by at most half a unit. *)
Lemma round_nearest_even_error (M P : Z) (mrs : shr_record) :
  0 < P -> shr_inv M P mrs ->
  - P <= 2 * (round_nearest_even (shr_m mrs) (loc_of_shr_record mrs) * P - M) <= P.
Proof.
  intros HP [Hm (u & Hu & Hub & Hs)].
  destruct mrs as [m r s]. cbn [shr_m shr_r shr_s] in *.
  pose proof (Z.div_mod M P ltac:(lia)) as HD. rewrite <- Hm in HD.
  destruct r, s; cbn [loc_of_shr_record round_nearest_even].
  - nia.
  - destruct (Z.even m); nia.
  - nia.
  - destruct Hs as [Hs _]. specialize (Hs eq_refl). nia.
Qed.

Lemma shr_nat (mrs : shr_record) (e n : Z) :
  0 <= n -> shr mrs e n = (Nat.iter (Z.to_nat n) shr_1 mrs, e + n).
Proof.
  intros Hn. destruct n as [ | p | p ]; try lia; cbn [shr].
  - cbn. now rewrite Z.add_0_r.
  - rewrite iter_pos_nat. reflexivity.
Qed.

Lemma iter_shr_m (k : nat) (mrs : shr_record) :
  0 <= shr_m mrs ->
  shr_m (Nat.iter k shr_1 mrs) = shr_m mrs / 2 ^ Z.of_nat k.
Proof.
  intros Hm. induction k as [ | k IH].
  - cbn. now rewrite Z.div_1_r.
  - change (Nat.iter (S k) shr_1 mrs) with (shr_1 (Nat.iter k shr_1 mrs)).
    destruct (Nat.iter k shr_1 mrs) as [m r s].
    cbn [shr_m] in IH. rewrite shr_1_spec.
    + cbn [shr_m]. rewrite IH, Nat2Z.inj_succ, Z.pow_succ_r by lia.
      rewrite Z.div_div by lia. f_equal. lia.
    + rewrite IH. apply Z.div_pos; lia.
Qed.

Lemma shr_m_of_loc (m : Z) (l : location) : shr_m (shr_record_of_loc m l) = m.
Proof. destruct l as [ | [ | | ] ]; reflexivity. Qed.

Lemma shifted_m (M : positive) (l : location) :
  53 <= Zpos (digits2_pos M) ->
  shr_m (shifted M l) = Zpos M / 2 ^ (Zpos (digits2_pos M) - 53).
Proof.
  intros Hd. unfold shifted. rewrite iter_shr_m.
  - rewrite shr_m_of_loc, Z2Nat.id by lia. reflexivity.
  - rewrite shr_m_of_loc. lia.
Qed.

Lemma shifted_range (M : positive) (l : location) :
  53 <= Zpos (digits2_pos M) ->
  2 ^ 52 <= shr_m (shifted M l) < 2 ^ 53.
Proof.
  intros Hd. rewrite shifted_m by assumption.
  pose proof (digits2_pos_bounds M) as [Blo Bhi].
  set (d := Zpos (digits2_pos M)) in *.
  assert (HP : 0 < 2 ^ (d - 53)) by (apply Z.pow_pos_nonneg; lia).
  assert (E1 : 2 ^ (d - 1) = 2 ^ 52 * 2 ^ (d - 53)).
  { rewrite <- Z.pow_add_r by lia. f_equal. lia. }
  assert (E2 : 2 ^ d = 2 ^ 53 * 2 ^ (d - 53)).
  { rewrite <- Z.pow_add_r by lia. f_equal. lia. }
  split.
  - apply Z.div_le_lower_bound; lia.
  - apply Z.div_lt_upper_bound; lia.
Qed.

Lemma rounded_range (M : positive) (l : location) :
  53 <= Zpos (digits2_pos M) -> 2 ^ 52 <= rounded M l <= 2 ^ 53.
Proof.
  intros Hd. unfold rounded.
  pose proof (shifted_range M l Hd).
  pose proof (round_nearest_even_range (shr_m (shifted M l))
                (loc_of_shr_record (shifted M l))).
  lia.
Qed.

Lemma binary_round_aux_normal (s : bool) (M : positive) (E : Z) (l : location) :
  53 <= Zpos (digits2_pos M) ->
  -1074 <= E + (Zpos (digits2_pos M) - 53) ->
  binary_round_aux 53 1024 s (Zpos M) E l =
  round_result s (rounded M l) (E + (Zpos (digits2_pos M) - 53)).
Proof.
  intros Hd He.
  pose proof (rounded_range M l Hd) as Hr.
  unfold binary_round_aux. unfold shr_fexp at 1.
  cbn [Zdigits2]. unfold fexp at 1. unfold emin.
  set (d := Zpos (digits2_pos M)) in *.
  rewrite Z.max_l by lia.
  replace (d + E - 53 - E) with (d - 53) by lia.
  rewrite shr_nat by lia.
  change (Nat.iter (Z.to_nat (d - 53)) shr_1 (shr_record_of_loc (Zpos M) l))
    with (shifted M l).
  change (round_nearest_even (shr_m (shifted M l))
            (loc_of_shr_record (shifted M l))) with (rounded M l).
  set (m1 := rounded M l) in *. set (e := E + (d - 53)) in *.
  unfold round_result, shr_fexp.
  destruct (Z.ltb_spec m1 (2 ^ 53)) as [Hlt | Hge].
  - destruct m1 as [ | q | q ]; try lia.
    cbn [Zdigits2]. rewrite (digits2_pos_unique q 53) by (cbn; lia).
    unfold fexp, emin. rewrite Z.max_l by lia.
    replace (53 + e - 53 - e) with 0 by lia. cbn [shr shr_record_of_loc shr_m].
    reflexivity.
  - assert (Hm : m1 = 2 ^ 53) by lia. rewrite Hm.
    cbn [Z.pow Z.pow_pos Pos.iter Z.mul Pos.mul Zdigits2 digits2_pos Pos.succ].
    unfold fexp, emin. rewrite Z.max_l by lia.
    replace (54 + e - 53 - e) with 1 by lia.
    cbn [shr shr_record_of_loc iter_pos shr_1 shr_m]. reflexivity.
Qed.

Lemma rounded_exact_error (M : positive) :
  53 <= Zpos (digits2_pos M) ->
  let P := 2 ^ (Zpos (digits2_pos M) - 53) in
  - P <= 2 * (rounded M loc_Exact * P - Zpos M) <= P.
Proof.
  intros Hd P. unfold rounded.
  apply round_nearest_even_error.
  - apply Z.pow_pos_nonneg; lia.
  - unfold shifted. cbn [shr_record_of_loc].
    pose proof (shr_inv_iter (Zpos M) (Z.to_nat (Zpos (digits2_pos M) - 53))
                  ltac:(lia)) as H.
    rewrite Z2Nat.id in H by lia. exact H.
Qed.

Ltac split4_lia :=
  split; [lia | ]; split; [lia | ]; split; [lia | ]; split; lia.

(** The product of two positive normal numbers away from overflow and
    underflow: a positive normal number within relative distance [2^-53] of
    the exact product. *)
Lemma mul_normal (x y : number) :
  normal x -> normal y ->
  -1074 <= exponent x + exponent y + 52 ->
  exponent x + exponent y + 54 <= 971 ->
  exists k,
    normal (mul x y) /\
    52 <= k <= 54 /\
    exponent (mul x y) = exponent x + exponent y + k /\
    - (mantissa x * mantissa y)
      <= 2 ^ 53 * (mantissa (mul x y) * 2 ^ k - mantissa x * mantissa y)
      <= mantissa x * mantissa y.
Proof.
  destruct x as [ | | | [ | ] mx ex ]; try contradiction.
  destruct y as [ | | | [ | ] my ey ]; try contradiction.
  cbn [normal exponent mantissa]. intros Hx Hy Hlo Hhi.
  unfold mul, SFmul. cbn [xorb].
  set (M := (mx * my)%positive).
  assert (HM : Zpos M = Zpos mx * Zpos my) by reflexivity.
  assert (HMr : 2 ^ 104 <= Zpos M < 2 ^ 106).
  { rewrite HM. change (2 ^ 104) with (2 ^ 52 * 2 ^ 52).
    change (2 ^ 106) with (2 ^ 53 * 2 ^ 53). nia. }
  assert (Hd : Zpos (digits2_pos M) = 105 \/ Zpos (digits2_pos M) = 106).
  { destruct (Z.ltb_spec (Zpos M) (2 ^ 105)).
    - left. apply digits2_pos_unique. change (105 - 1) with 104. lia.
    - right. apply digits2_pos_unique. change (106 - 1) with 105. lia. }
  rewrite binary_round_aux_normal by lia.
  pose proof (rounded_range M loc_Exact ltac:(lia)) as Hr.
  pose proof (rounded_exact_error M ltac:(lia)) as He. cbv zeta in He.
  pose proof (digits2_pos_bounds M) as HMd.
  rewrite <- HM.
  set (m1 := rounded M loc_Exact) in *.
  unfold round_result.
  destruct Hd as [Hd | Hd]; rewrite Hd in *;
    [change (2 ^ (105 - 53)) with (2 ^ 52) in He
    |change (2 ^ (106 - 53)) with (2 ^ 53) in He;
     change (2 ^ (106 - 1)) with (2 ^ 105) in HMd];
    (destruct (Z.ltb_spec m1 (2 ^ 53)) as [Hlt | Hge];
     rewrite (proj2 (Z.leb_le _ 971)) by lia).
  - exists 52. cbn [normal exponent mantissa]. split4_lia.
  - exists 53. cbn [normal exponent mantissa].
    change (Zpos (Z.to_pos (2 ^ 52))) with (2 ^ 52). split4_lia.
  - exists 53. cbn [normal exponent mantissa]. split4_lia.
  - exists 54. cbn [normal exponent mantissa].
    change (Zpos (Z.to_pos (2 ^ 52))) with (2 ^ 52). split4_lia.
Qed.

(** *** Rounding never yields NaN *)

Lemma iter_shr_m_nonneg (k : nat) (mrs : shr_record) :
  0 <= shr_m mrs -> 0 <= shr_m (Nat.iter k shr_1 mrs).
Proof.
  intros H. rewrite iter_shr_m by assumption.
  apply Z.div_pos; [assumption | apply Z.pow_pos_nonneg; lia].
Qed.

Lemma shr_fexp_nonneg (m e : Z) (l : location) :
  0 <= m -> 0 <= shr_m (fst (shr_fexp 53 1024 m e l)).
Proof.
  intros Hm. unfold shr_fexp.
  destruct (fexp 53 1024 (Zdigits2 m + e) - e) as [ | p | p ]; cbn [shr fst].
  - now rewrite shr_m_of_loc.
  - rewrite iter_pos_nat. apply iter_shr_m_nonneg. now rewrite shr_m_of_loc.
  - now rewrite shr_m_of_loc.
Qed.

Lemma binary_round_aux_not_nan (s : bool) (m e : Z) (l : location) :
  0 <= m -> is_nan (binary_round_aux 53 1024 s m e l) = false.
Proof.
  intros Hm. unfold binary_round_aux.
  pose proof (shr_fexp_nonneg m e l Hm) as H1.
  destruct (shr_fexp 53 1024 m e l) as [mrs' e'] eqn:E1. cbn [fst] in H1.
  pose proof (round_nearest_even_range (shr_m mrs') (loc_of_shr_record mrs')) as H2.
  pose proof (shr_fexp_nonneg
                (round_nearest_even (shr_m mrs') (loc_of_shr_record mrs'))
                e' loc_Exact ltac:(lia)) as H3.
  destruct (shr_fexp 53 1024 _ e' loc_Exact) as [mrs'' e''] eqn:E2.
  cbn [fst] in H3.
  destruct (shr_m mrs'') as [ | q | q ]; try lia.
  - reflexivity.
  - destruct (e'' <=? 1024 - 53); reflexivity.
Qed.

Lemma mul_not_nan (x y : number) :
  is_nan x = false -> finite y -> is_nan (mul x y) = false.
Proof.
  intros Hx Hy.
  destruct y as [ | | | sy my ey ]; try contradiction.
  destruct x as [ sx | sx | | sx mx ex ]; try discriminate; try reflexivity.
  unfold mul, SFmul. apply binary_round_aux_not_nan. lia.
Qed.

Lemma div_not_nan (x y : number) :
  finite x -> is_nan y = false -> is_nan (div x y) = false.
Proof.
  intros Hx Hy.
  destruct x as [ | | | sx mx ex ]; try contradiction.
  destruct y as [ sy | sy | | sy my ey ]; try discriminate; try reflexivity.
  unfold div, SFdiv.
  destruct (SFdiv_core_binary 53 1024 (Zpos mx) ex (Zpos my) ey)
    as [[mz ez] lz] eqn:E.
  apply binary_round_aux_not_nan.
  unfold SFdiv_core_binary in E.
  destruct (Z.div_eucl _ (Zpos my)) as [q r] eqn:Eq in E.
  injection E as <- _ _.
  match type of Eq with Z.div_eucl ?a ?b = _ =>
    assert (Hq : q = a / b) by (unfold Z.div; now rewrite Eq);
    assert (Ha : 0 <= a) end.
  { destruct (ex - ey - _) as [ | p | p ]; try lia.
    rewrite Z.shiftl_mul_pow2 by lia.
    apply Z.mul_nonneg_nonneg; [lia | apply Z.pow_nonneg; lia]. }
  subst q. apply Z.div_pos; lia.
Qed.

(** *** Integers as numbers *)

Lemma digits2_pos_iter_xO (p k : positive) :
  Zpos (digits2_pos (Pos.iter xO p k)) = Zpos (digits2_pos p) + Zpos k.
Proof.
  induction k as [ | k IH ] using Pos.peano_ind.
  - cbn. lia.
  - rewrite Pos.iter_succ. cbn [digits2_pos]. lia.
Qed.

Lemma binary_round_int (s : bool) (p : positive) :
  exists m1, 2 ^ 52 <= m1 <= 2 ^ 53 /\
    binary_round 53 1024 s p 0 = round_result s m1 (Zpos (digits2_pos p) - 53).
Proof.
  unfold binary_round, shl_align, fexp, emin.
  pose proof (Pos2Z.is_pos (digits2_pos p)).
  rewrite Z.max_l by lia.
  destruct (Zpos (digits2_pos p) + 0 - 53 - 0) as [ | k | k ] eqn:Ek.
  - exists (rounded p loc_Exact). split; [apply rounded_range; lia | ].
    rewrite binary_round_aux_normal by lia. f_equal.
  - exists (rounded p loc_Exact). split; [apply rounded_range; lia | ].
    rewrite binary_round_aux_normal by lia. f_equal.
  - pose proof (digits2_pos_iter_xO p k) as Hk.
    exists (rounded (Pos.iter xO p k) loc_Exact).
    split; [apply rounded_range; lia | ].
    rewrite binary_round_aux_normal by lia. f_equal. lia.
Qed.

Lemma clamp_tail_negative (m1 e : Z) :
  Math_min n200 (Math_max n1 (round_result true m1 e)) = n1.
Proof.
  unfold round_result.
  destruct (m1 <? 2 ^ 53); [destruct (e <=? 971) | destruct (e + 1 <=? 971)];
    reflexivity.
Qed.

Lemma clamp_tail_large (m1 e : Z) :
  -44 <= e -> Math_min n200 (Math_max n1 (round_result false m1 e)) = n200.
Proof.
  intros He. unfold round_result.
  assert (H1 : forall q e', -44 <= e' ->
            Math_min n200 (Math_max n1 (S754_finite false q e')) = n200).
  { intros q e' He'. unfold Math_max, n1. cbn [SFcompare].
    destruct (Z.compare_spec (-52) e'); try lia.
    unfold Math_min, n200. cbn [SFcompare].
    destruct (Z.compare_spec (-45) e'); try lia. reflexivity. }
  destruct (m1 <? 2 ^ 53); [destruct (e <=? 971) | destruct (e + 1 <=? 971)];
    try reflexivity; apply H1; lia.
Qed.

Lemma Zrange_In (lo : Z) (n : nat) (z : Z) :
  lo <= z < lo + Z.of_nat n -> In z (Zrange lo n).
Proof.
  intros H. unfold Zrange. apply in_map_iff.
  exists (Z.to_nat (z - lo)). split; [lia | ].
  apply in_seq. lia.
Qed.

Lemma forallb_Zrange (P : Z -> bool) (lo : Z) (n : nat) :
  forallb P (Zrange lo n) = true ->
  forall z, lo <= z < lo + Z.of_nat n -> P z = true.
Proof.
  intros H z Hz. rewrite forallb_forall in H. apply H, Zrange_In, Hz.
Qed.

Lemma num_eqb_eq (x y : number) : num_eqb x y = true -> x = y.
Proof.
  destruct x as [a | a | | a m e], y as [b | b | | b m' e']; cbn;
    try discriminate; try reflexivity.
  - intros H. apply Bool.eqb_prop in H. now subst.
  - intros H. apply Bool.eqb_prop in H. now subst.
  - rewrite !andb_true_iff. intros [[H1 H2] H3].
    apply Bool.eqb_prop in H1. apply Pos.eqb_eq in H2. apply Z.eqb_eq in H3.
    now subst.
Qed.

Lemma clamp_tail_small (z : Z) :
  0 <= z < 256 ->
  Math_min n200 (Math_max n1 (of_Z z)) = of_Z (clampZ z).
Proof.
  intros Hz. apply num_eqb_eq.
  apply (forallb_Zrange
           (fun z => num_eqb (Math_min n200 (Math_max n1 (of_Z z)))
                             (of_Z (clampZ z))) 0 256);
    [vm_compute; reflexivity | lia].
Qed.

Lemma clamp_tail (z : Z) :
  Math_min n200 (Math_max n1 (of_Z z)) = of_Z (clampZ z).
Proof.
  destruct (Z.ltb_spec z 0) as [Hneg | Hnn].
  - replace (clampZ z) with 1 by (unfold clampZ; lia).
    destruct z as [ | p | p ]; try lia.
    unfold of_Z at 1, binary_normalize.
    destruct (binary_round_int true p) as (m1 & _ & ->).
    apply clamp_tail_negative.
  - destruct (Z.ltb_spec z 256) as [Hs | Hl].
    + apply clamp_tail_small. lia.
    + replace (clampZ z) with 200 by (unfold clampZ; lia).
      destruct z as [ | p | p ]; try lia.
      unfold of_Z at 1, binary_normalize.
      destruct (binary_round_int false p) as (m1 & _ & ->).
      apply clamp_tail_large.
      pose proof (digits2_pos_bounds p) as [_ Hhi].
      assert (8 < Zpos (digits2_pos p)).
      { apply (Z.pow_lt_mono_r_iff 2); lia. }
      lia.
Qed.

Lemma clamp_finite (s : bool) (m : positive) (e : Z) :
  clamp (S754_finite s m e) =
  if 0 <=? e then (if s then n1 else n200)
  else of_Z (clampZ (round_half_up (cond_Zopp s (Zpos m)) e)).
Proof.
  unfold clamp, Math_round.
  destruct (Z.leb_spec 0 e) as [He | He].
  - destruct s.
    + reflexivity.
    + unfold Math_max, n1. cbn [SFcompare].
      destruct (Z.compare_spec (-52) e); try lia.
      unfold Math_min, n200. cbn [SFcompare].
      destruct (Z.compare_spec (-45) e); try lia. reflexivity.
  - destruct (Z.eqb_spec (round_half_up (cond_Zopp s (Zpos m)) e) 0) as [-> | Hz].
    + destruct s; reflexivity.
    + apply clamp_tail.
Qed.

(** The clamp of anything but NaN is an integer between 1 and 200. *)
Lemma clamp_int (x : number) :
  is_nan x = false -> exists z, 1 <= z <= 200 /\ clamp x = of_Z z.
Proof.
  intros Hx. destruct x as [s | s | | s m e]; try discriminate.
  - exists 1. split; [lia | destruct s; reflexivity].
  - destruct s; [exists 1 | exists 200]; (split; [lia | reflexivity]).
  - rewrite clamp_finite. destruct (0 <=? e).
    + destruct s; [exists 1 | exists 200]; (split; [lia | reflexivity]).
    + eexists. split; [ | reflexivity]. unfold clampZ. lia.
Qed.

(** *** Arithmetic on the small integers of the ordering pass *)

Lemma small_all : forallb small_ok (Zrange (-3) 204) = true.
Proof. vm_compute. reflexivity. Qed.

Lemma small_sub (a : Z) : -3 <= a <= 200 -> sub (of_Z a) n1 = of_Z (a - 1).
Proof.
  intros Ha. pose proof (forallb_Zrange _ _ _ small_all a ltac:(lia)) as H.
  unfold small_ok in H. rewrite !andb_true_iff in H.
  apply num_eqb_eq, H.
Qed.

Lemma small_clamp (a : Z) : -3 <= a <= 200 -> clamp (of_Z a) = of_Z (clampZ a).
Proof.
  intros Ha. pose proof (forallb_Zrange _ _ _ small_all a ltac:(lia)) as H.
  unfold small_ok in H. rewrite !andb_true_iff in H.
  apply num_eqb_eq, H.
Qed.

Lemma small_cmp (a b : Z) :
  -3 <= a <= 200 -> -3 <= b <= 200 ->
  SFleb (of_Z a) (of_Z b) = (a <=? b) /\ SFltb (of_Z a) (of_Z b) = (a <? b).
Proof.
  intros Ha Hb. pose proof (forallb_Zrange _ _ _ small_all a ltac:(lia)) as H.
  unfold small_ok in H. rewrite !andb_true_iff in H. destruct H as [_ H].
  pose proof (forallb_Zrange _ _ _ H b ltac:(lia)) as H'. cbv beta in H'.
  rewrite andb_true_iff in H'. destruct H' as [H1 H2].
  apply Bool.eqb_prop in H1, H2. auto.
Qed.

Lemma small_ge (a b : Z) :
  -3 <= a <= 200 -> -3 <= b <= 200 -> ge (of_Z a) (of_Z b) = (b <=? a).
Proof. intros Ha Hb. unfold ge. apply small_cmp; assumption. Qed.

Lemma small_gt (a b : Z) :
  -3 <= a <= 200 -> -3 <= b <= 200 -> gt (of_Z a) (of_Z b) = (b <? a).
Proof. intros Ha Hb. unfold gt. apply small_cmp; assumption. Qed.

Lemma small_le (a b : Z) :
  -3 <= a <= 200 -> -3 <= b <= 200 -> le (of_Z a) (of_Z b) = (a <=? b).
Proof. intros Ha Hb. unfold le. apply small_cmp; assumption. Qed.

Lemma of_Z_small_inj (a b : Z) :
  -3 <= a <= 200 -> -3 <= b <= 200 -> of_Z a = of_Z b -> a = b.
Proof.
  intros Ha Hb E.
  pose proof (proj1 (small_cmp a b Ha Hb)) as H1. rewrite E in H1.
  rewrite (proj1 (small_cmp b b Hb Hb)), Z.leb_refl in H1.
  pose proof (proj1 (small_cmp b a Hb Ha)) as H2. rewrite E in H2.
  rewrite (proj1 (small_cmp b b Hb Hb)), Z.leb_refl in H2.
  symmetry in H1, H2. apply Z.leb_le in H1, H2. lia.
Qed.

Lemma repairZ_bounds (t : Ints) :
  in_range t ->
  let r := repairZ t in
  i_general r = i_general t /\
  0 <= i_redDot r <= 200 /\ -1 <= i_scope2x r <= 200 /\
  -2 <= i_scope4x r <= 200 /\ -3 <= i_awmScope r <= 200 /\
  1 <= i_freeLook r <= 200.
Proof.
  destruct t as [g rd s2 s4 aw fl]. unfold in_range, repairZ.
  cbn [i_general i_redDot i_scope2x i_scope4x i_awmScope i_freeLook].
  intros H.
  destruct (g <=? rd); destruct (_ <=? s2); destruct (_ <=? s4);
    destruct (_ <=? aw); destruct (g <? fl); lia.
Qed.

Lemma repair_to_result (t : Ints) :
  in_range t -> repair (to_result t) = to_result (repairZ t).
Proof.
  intros H. pose proof (repairZ_bounds t H) as B.
  destruct t as [g rd s2 s4 aw fl]. unfold in_range in H.
  unfold repair, repairZ, to_result in *.
  cbn [i_general i_redDot i_scope2x i_scope4x i_awmScope i_freeLook
       general redDot scope2x scope4x awmScope freeLook] in *.
  rewrite (small_ge rd g), (small_gt fl g) by lia.
  set (rd' := if g <=? rd then g - 1 else rd) in *.
  assert (E1 : (if g <=? rd then sub (of_Z g) n1 else of_Z rd) = of_Z rd').
  { unfold rd'. destruct (g <=? rd); [apply small_sub; lia | reflexivity]. }
  rewrite E1. rewrite (small_ge s2 rd') by lia.
  set (s2' := if rd' <=? s2 then rd' - 1 else s2) in *.
  assert (E2 : (if rd' <=? s2 then sub (of_Z rd') n1 else of_Z s2) = of_Z s2').
  { unfold s2'. destruct (rd' <=? s2); [apply small_sub; lia | reflexivity]. }
  rewrite E2. rewrite (small_ge s4 s2') by lia.
  set (s4' := if s2' <=? s4 then s2' - 1 else s4) in *.
  assert (E3 : (if s2' <=? s4 then sub (of_Z s2') n1 else of_Z s4) = of_Z s4').
  { unfold s4'. destruct (s2' <=? s4); [apply small_sub; lia | reflexivity]. }
  rewrite E3. rewrite (small_ge aw s4') by lia.
  assert (E4 : (if s4' <=? aw then sub (of_Z s4') n1 else of_Z aw)
               = of_Z (if s4' <=? aw then s4' - 1 else aw)).
  { destruct (s4' <=? aw); [apply small_sub; lia | reflexivity]. }
  rewrite E4.
  destruct (g <? fl); reflexivity.
Qed.

Lemma finalClamp_to_result (t : Ints) :
  -3 <= i_general t <= 200 -> -3 <= i_redDot t <= 200 ->
  -3 <= i_scope2x t <= 200 -> -3 <= i_scope4x t <= 200 ->
  -3 <= i_awmScope t <= 200 -> -3 <= i_freeLook t <= 200 ->
  finalClamp (to_result t) = to_result (finalClampZ t).
Proof.
  intros. unfold finalClamp, finalClampZ, to_result.
  cbn [i_general i_redDot i_scope2x i_scope4x i_awmScope i_freeLook
       general redDot scope2x scope4x awmScope freeLook].
  rewrite !small_clamp by assumption. reflexivity.
Qed.

(** *** The modifiers are finite positive numbers *)

Lemma positive_finite_finite (x : number) : positive_finite x -> finite x.
Proof. destruct x as [ | | | [ | ] m e ]; cbn; auto. Qed.

Lemma getScreenSizeModifier_cases (s : number) :
  In (getScreenSizeModifier s) [n1_08; n1_04; n1_0; n0_96; n0_92].
Proof.
  unfold getScreenSizeModifier.
  destruct (le s n5_5); [cbn; tauto | ].
  destruct (le s n6_0); [cbn; tauto | ].
  destruct (le s n6_5); [cbn; tauto | ].
  destruct (le s n7_0); cbn; tauto.
Qed.

Lemma getRefreshRateModifier_cases (r : number) :
  In (getRefreshRateModifier r) [n0_95; n1_0; n1_05; n1_08].
Proof.
  unfold getRefreshRateModifier.
  destruct (le r n60); [cbn; tauto | ].
  destruct (le r n90); [cbn; tauto | ].
  destruct (le r n120); cbn; tauto.
Qed.

(** The DPI modifier is [0.85], [1.15] or the quotient itself, and then the
    quotient lies strictly between the two. *)
Lemma getDpiModifier_cases (d : number) :
  is_nan d = false ->
  getDpiModifier d = n0_85 \/ getDpiModifier d = n1_15 \/
  (getDpiModifier d = div n420 d /\
   SFcompare n0_85 (div n420 d) = Some Lt /\
   SFcompare n1_15 (div n420 d) = Some Gt).
Proof.
  intros Hd. unfold getDpiModifier. cbv zeta.
  pose proof (div_not_nan n420 d I Hd) as Hr.
  set (r := div n420 d) in *.
  assert (Hmin : Math_min n1_15 r = n1_15 \/
                 (Math_min n1_15 r = r /\ SFcompare n1_15 r = Some Gt)).
  { unfold Math_min.
    destruct (SFcompare n1_15 r) as [[ | | ] | ] eqn:C1; auto.
    destruct r; discriminate. }
  destruct Hmin as [-> | [-> C1]].
  - right; left. reflexivity.
  - unfold Math_max.
    destruct (SFcompare n0_85 r) as [[ | | ] | ] eqn:C2; auto.
    destruct r; discriminate.
Qed.

Lemma getDpiModifier_positive (d : number) :
  is_nan d = false -> positive_finite (getDpiModifier d).
Proof.
  intros Hd.
  destruct (getDpiModifier_cases d Hd) as [-> | [-> | (-> & C1 & C2)]];
    try exact I.
  destruct (div n420 d) as [s | [ | ] | | [ | ] m e]; try discriminate.
  exact I.
Qed.

Lemma truthy_not_nan (d : number) : truthy d = true -> is_nan d = false.
Proof. destruct d; cbn; congruence. Qed.

Lemma platformModifierOf_positive (p : Platform) (dpi : option number) (u : bool) :
  positive_finite (platformModifierOf p dpi u).
Proof.
  unfold platformModifierOf, androidDpi.
  destruct p; try exact I.
  destruct dpi as [d | ]; try exact I.
  destruct (truthy d) eqn:T; try exact I. cbn [andb].
  destruct (u || gt d n0); try exact I.
  apply getDpiModifier_positive, truthy_not_nan, T.
Qed.

Lemma PLAYSTYLE_MODIFIERS_finite (p : Playstyle)
    (field : SensitivityResult -> number) :
  In field [general; redDot; scope2x; scope4x; awmScope; freeLook] ->
  finite (field (PLAYSTYLE_MODIFIERS p)).
Proof.
  intros H. cbn in H.
  destruct p; repeat (destruct H as [<- | H]; [exact I | ]); contradiction.
Qed.

Lemma PING_MODIFIERS_finite (p : PingLevel) : finite (PING_MODIFIERS p).
Proof. destruct p; exact I. Qed.

Lemma getScreenSizeModifier_finite (s : number) : finite (getScreenSizeModifier s).
Proof.
  pose proof (getScreenSizeModifier_cases s) as H. cbn in H.
  repeat (destruct H as [<- | H]; [exact I | ]); contradiction.
Qed.

Lemma getRefreshRateModifier_finite (r : number) : finite (getRefreshRateModifier r).
Proof.
  pose proof (getRefreshRateModifier_cases r) as H. cbn in H.
  repeat (destruct H as [<- | H]; [exact I | ]); contradiction.
Qed.

Lemma channel_int (base ps ping sm rm pm : number) :
  is_nan base = false -> finite ps -> finite ping -> finite sm -> finite rm ->
  finite pm ->
  exists z, 1 <= z <= 200 /\ channel base ps ping sm rm pm = of_Z z.
Proof.
  intros. unfold channel. apply clamp_int.
  repeat (apply mul_not_nan; [ | assumption]). assumption.
Qed.

(** Before the ordering pass every channel is an integer of [1, 200]. *)
Lemma computed_int (input : CalculationInput) :
  exists t, in_range t /\ computed input = to_result t.
Proof.
  unfold computed. cbv zeta.
  pose proof (PING_MODIFIERS_finite (pingLevel input)) as Hp.
  pose proof (getScreenSizeModifier_finite (screenSize input)) as Hs.
  pose proof (getRefreshRateModifier_finite (refreshRate input)) as Hr.
  pose proof (positive_finite_finite _
    (platformModifierOf_positive (platform input) (dpi input)
       (useCustomDpi input))) as Hm.
  assert (Hc : forall field,
    In field [general; redDot; scope2x; scope4x; awmScope; freeLook] ->
    exists z, 1 <= z <= 200 /\
      channel (field BASE_SENSITIVITIES) (field (PLAYSTYLE_MODIFIERS (playstyle input)))
        (PING_MODIFIERS (pingLevel input)) (getScreenSizeModifier (screenSize input))
        (getRefreshRateModifier (refreshRate input))
        (platformModifierOf (platform input) (dpi input) (useCustomDpi input))
      = of_Z z).
  { intros field Hf. apply channel_int; try assumption.
    - cbn in Hf.
      repeat (destruct Hf as [<- | Hf]; [reflexivity | ]); contradiction.
    - apply PLAYSTYLE_MODIFIERS_finite, Hf. }
  destruct (Hc general) as (g & Hg & Eg); [cbn; tauto | ].
  destruct (Hc redDot) as (rd & Hrd & Erd); [cbn; tauto | ].
  destruct (Hc scope2x) as (s2 & Hs2 & Es2); [cbn; tauto | ].
  destruct (Hc scope4x) as (s4 & Hs4 & Es4); [cbn; tauto | ].
  destruct (Hc awmScope) as (aw & Haw & Eaw); [cbn; tauto | ].
  destruct (Hc freeLook) as (fl & Hfl & Efl); [cbn; tauto | ].
  exists (mkInts g rd s2 s4 aw fl). split.
  - unfold in_range. cbn. tauto.
  - unfold to_result. cbn [i_general i_redDot i_scope2x i_scope4x i_awmScope i_freeLook].
    rewrite Eg, Erd, Es2, Es4, Eaw, Efl. reflexivity.
Qed.

(** The result of the calculator in terms of the integers before the
    ordering pass. *)
Lemma calculateSensitivity_int (input : CalculationInput) :
  exists t, in_range t /\ computed input = to_result t /\
    calculateSensitivity input = to_result (finalClampZ (repairZ t)).
Proof.
  destruct (computed_int input) as (t & Ht & Et).
  exists t. split; [assumption | ]. split; [assumption | ].
  unfold calculateSensitivity. rewrite Et, repair_to_result by assumption.
  pose proof (repairZ_bounds t Ht) as B. cbv zeta in B.
  destruct Ht as (? & _).
  apply finalClamp_to_result; lia.
Qed.

(** *** Quotients *)

Lemma round_result_normal (m1 e : Z) :
  2 ^ 52 <= m1 <= 2 ^ 53 ->
  round_result false m1 e = S754_infinity false \/
  normal (round_result false m1 e).
Proof.
  intros H. unfold round_result.
  destruct (Z.ltb_spec m1 (2 ^ 53)).
  - destruct (e <=? 971); [right | left; reflexivity]. cbn [normal]. lia.
  - destruct (e + 1 <=? 971); [right | left; reflexivity]. cbn. lia.
Qed.

(** The quotient of a 53-bit mantissa by any mantissa has 53 or 54 bits
    once the dividend is shifted by the width of the divisor. *)
Lemma div_core_normal (m1 m2 : positive) (e1 e2 : Z) :
  Zpos (digits2_pos m1) = 53 ->
  -1074 <= e1 - e2 - Zpos (digits2_pos m2) ->
  exists q l,
    SFdiv_core_binary 53 1024 (Zpos m1) e1 (Zpos m2) e2
    = (Zpos q, e1 - e2 - Zpos (digits2_pos m2), l) /\
    2 ^ 52 <= Zpos q < 2 ^ 54.
Proof.
  intros H1 Hlo. unfold SFdiv_core_binary. cbn [Zdigits2]. rewrite H1.
  set (d2 := Zpos (digits2_pos m2)) in *.
  unfold fexp, emin.
  rewrite Z.max_l by lia. rewrite Z.min_l by lia.
  replace (e1 - e2 - (53 + e1 - (d2 + e2) - 53)) with d2 by lia.
  unfold d2 at 1. rewrite Z.shiftl_mul_pow2 by lia. fold d2.
  pose proof (digits2_pos_bounds m1) as B1. rewrite H1 in B1.
  change (2 ^ (53 - 1)) with (2 ^ 52) in B1.
  pose proof (digits2_pos_bounds m2) as B2. fold d2 in B2.
  assert (Hd2 : 0 < d2) by (unfold d2; lia).
  assert (E2 : 2 ^ d2 = 2 * 2 ^ (d2 - 1)).
  { rewrite <- Z.pow_succ_r by lia. f_equal. lia. }
  assert (HP : 0 < 2 ^ (d2 - 1)) by (apply Z.pow_pos_nonneg; lia).
  set (a := Zpos m1 * 2 ^ d2).
  destruct (Z.div_eucl a (Zpos m2)) as [q r] eqn:Eq.
  assert (Hq : q = a / Zpos m2) by (unfold Z.div; now rewrite Eq).
  assert (Hqlo : 2 ^ 52 <= q).
  { subst q. apply Z.div_le_lower_bound; [lia | ]. unfold a. nia. }
  assert (Hqhi : q < 2 ^ 54).
  { subst q. apply Z.div_lt_upper_bound; [lia | ]. unfold a. nia. }
  destruct q as [ | q | q ]; try lia.
  exists q, (new_location (Zpos m2) r). split; [ | lia].
  f_equal. f_equal. lia.
Qed.

Lemma valid_binary_bounds (s : bool) (m : positive) (e : Z) :
  valid_binary 53 1024 (S754_finite s m e) = true ->
  Zpos (digits2_pos m) <= 53 /\ -1074 <= e <= 971.
Proof.
  cbn [valid_binary]. unfold bounded, canonical_mantissa, fexp, emin.
  rewrite andb_true_iff, Z.eqb_eq, Z.leb_le. lia.
Qed.

Lemma div_n420_round (s : bool) (m : positive) (e : Z) :
  valid_binary 53 1024 (S754_finite s m e) = true ->
  exists m1 e', 2 ^ 52 <= m1 <= 2 ^ 53 /\
    div n420 (S754_finite s m e) = round_result s m1 e'.
Proof.
  intros Hv. apply valid_binary_bounds in Hv.
  unfold div, n420, SFdiv. cbn [xorb].
  destruct (div_core_normal 7388718138654720 m (-44) e eq_refl ltac:(lia))
    as (q & l & -> & Hq).
  assert (Hd : 53 <= Zpos (digits2_pos q)).
  { pose proof (digits2_pos_bounds q) as [_ Hhi].
    assert (52 < Zpos (digits2_pos q)); [ | lia].
    apply (Z.pow_lt_mono_r_iff 2); lia. }
  rewrite binary_round_aux_normal by lia.
  eexists _, _. split; [ | reflexivity]. apply rounded_range, Hd.
Qed.

Lemma SFcompare_antisym (a b : number) (c : comparison) :
  SFcompare a b = Some c -> SFcompare b a = Some (CompOpp c).
Proof.
  destruct a as [sa | sa | | sa ma ea], b as [sb | sb | | sb mb eb];
    cbn [SFcompare]; try discriminate;
    try (intros [= <-]; destruct sa; try destruct sb; reflexivity);
    try (intros [= <-]; destruct sb; reflexivity).
  intros [= <-]. f_equal.
  destruct sa, sb; try reflexivity;
    rewrite (Z.compare_antisym ea eb);
    destruct (ea ?= eb); cbn [CompOpp]; try reflexivity;
    rewrite (Pos.compare_cont_antisym ma mb Eq); cbn [CompOpp];
    destruct (Pos.compare_cont Eq ma mb); reflexivity.
Qed.

(** For a well-formed [dpi] the modifier is a positive normal number
    between [0.85] and [1.15]. *)
Lemma getDpiModifier_normal (d : number) :
  valid_binary 53 1024 d = true -> is_nan d = false ->
  normal (getDpiModifier d) /\
  SFleb n0_85 (getDpiModifier d) = true /\
  SFleb (getDpiModifier d) n1_15 = true.
Proof.
  intros Hv Hd.
  destruct (getDpiModifier_cases d Hd) as [-> | [-> | (-> & C1 & C2)]].
  - split; [cbn; lia | split; reflexivity].
  - split; [cbn; lia | split; reflexivity].
  - assert (Hle : SFleb n0_85 (div n420 d) = true /\
                  SFleb (div n420 d) n1_15 = true).
    { unfold SFleb. rewrite C1. split; [reflexivity | ].
      rewrite (SFcompare_antisym _ _ _ C2). reflexivity. }
    split; [ | exact Hle].
    destruct d as [ sd | sd | | sd m e ]; try discriminate.
    + destruct sd; cbn in C1, C2; (discriminate C1 || discriminate C2).
    + destruct (div_n420_round sd m e Hv) as (m1 & e' & Hm & E).
      rewrite E in *. destruct sd.
      * exfalso. unfold round_result in C1.
        destruct (m1 <? 2 ^ 53);
          [destruct (e' <=? 971) | destruct (e' + 1 <=? 971)]; discriminate C1.
      * destruct (round_result_normal m1 e' Hm) as [Ei | Hn]; [ | assumption].
        rewrite Ei in C2. discriminate C2.
Qed.

(** *** Values and monotonicity *)

Lemma round_half_up_scaled (m e c : Z) :
  c <= e -> e < 0 ->
  round_half_up m e = (2 * (m * 2 ^ (e - c)) + 2 ^ (- c)) / 2 ^ (- c + 1).
Proof.
  intros Hc He. unfold round_half_up.
  assert (HT : 0 < 2 ^ (e - c)) by (apply Z.pow_pos_nonneg; lia).
  assert (E1 : 2 ^ (- c) = 2 ^ (e - c) * 2 ^ (- e)).
  { rewrite <- Z.pow_add_r by lia. f_equal. lia. }
  assert (E2 : 2 ^ (- c + 1) = 2 ^ (e - c) * 2 ^ (- e + 1)).
  { rewrite <- Z.pow_add_r by lia. f_equal. lia. }
  rewrite E2, E1.
  replace (2 * (m * 2 ^ (e - c)) + 2 ^ (e - c) * 2 ^ (- e))
    with (2 ^ (e - c) * (2 * m + 2 ^ (- e))) by ring.
  rewrite Z.div_mul_cancel_l; [reflexivity | | lia].
  apply Z.pow_nonzero; lia.
Qed.

Lemma clamp_normal (x : number) :
  normal x -> exponent x < 0 ->
  clamp x = of_Z (clampZ (round_half_up (mantissa x) (exponent x))).
Proof.
  destruct x as [ | | | [ | ] m e ]; try contradiction.
  cbn [normal exponent mantissa]. intros _ He.
  rewrite clamp_finite. destruct (Z.leb_spec 0 e); [lia | reflexivity].
Qed.

Lemma clampZ_mono (a b : Z) : a <= b -> clampZ a <= clampZ b.
Proof. unfold clampZ. lia. Qed.

Lemma clampZ_range (a : Z) : 1 <= clampZ a <= 200.
Proof. unfold clampZ. lia. Qed.

(** Clamped rounding is monotone in the value. *)
Lemma clamp_normal_mono (x y : number) (c : Z) :
  normal x -> normal y ->
  c <= exponent x < 0 -> c <= exponent y < 0 ->
  scaled c x <= scaled c y ->
  exists a b, clamp x = of_Z a /\ clamp y = of_Z b /\ 1 <= a <= b /\ b <= 200.
Proof.
  intros Hx Hy Hex Hey Hs.
  rewrite (clamp_normal x), (clamp_normal y) by (assumption || lia).
  eexists _, _. split; [reflexivity | ]. split; [reflexivity | ].
  rewrite (round_half_up_scaled _ _ c), (round_half_up_scaled (mantissa y) _ c) by lia.
  fold (scaled c x). fold (scaled c y).
  split; [ | apply clampZ_range]. split; [apply clampZ_range | ].
  apply clampZ_mono, Z.div_le_mono; [ | lia].
  apply Z.pow_pos_nonneg; lia.
Qed.

(** Two products by the same factor keep the order of the other factors
    when these are more than two rounding errors apart. *)
Lemma mul_scaled_mono (w1 w2 m : number) (c : Z) :
  normal w1 -> normal w2 -> normal m ->
  c <= exponent w1 -> c <= exponent w2 ->
  -1074 <= exponent w1 + exponent m + 52 -> exponent w1 + exponent m + 54 <= 971 ->
  -1074 <= exponent w2 + exponent m + 52 -> exponent w2 + exponent m + 54 <= 971 ->
  scaled c w1 * (2 ^ 53 + 1) <= scaled c w2 * (2 ^ 53 - 1) ->
  normal (mul w1 m) /\ normal (mul w2 m) /\
  exponent w1 + exponent m + 52 <= exponent (mul w1 m) <= exponent w1 + exponent m + 54 /\
  exponent w2 + exponent m + 52 <= exponent (mul w2 m) <= exponent w2 + exponent m + 54 /\
  scaled (c + exponent m) (mul w1 m) <= scaled (c + exponent m) (mul w2 m).
Proof.
  intros H1 H2 Hm Hc1 Hc2 L1 U1 L2 U2 Hgap.
  destruct (mul_normal w1 m H1 Hm L1 U1) as (k1 & N1 & Hk1 & E1 & B1).
  destruct (mul_normal w2 m H2 Hm L2 U2) as (k2 & N2 & Hk2 & E2 & B2).
  split; [assumption | ]. split; [assumption | ].
  split; [lia | ]. split; [lia | ].
  unfold scaled in *. rewrite E1, E2.
  replace (exponent w1 + exponent m + k1 - (c + exponent m))
    with (k1 + (exponent w1 - c)) by lia.
  replace (exponent w2 + exponent m + k2 - (c + exponent m))
    with (k2 + (exponent w2 - c)) by lia.
  rewrite !Z.pow_add_r by lia.
  assert (T1 : 0 < 2 ^ (exponent w1 - c)) by (apply Z.pow_pos_nonneg; lia).
  assert (T2 : 0 < 2 ^ (exponent w2 - c)) by (apply Z.pow_pos_nonneg; lia).
  assert (Hmm : 0 < mantissa m).
  { destruct m as [ | | | [ | ] mm em ]; try contradiction. cbn. lia. }
  set (t1 := 2 ^ (exponent w1 - c)) in *. set (t2 := 2 ^ (exponent w2 - c)) in *.
  set (y1 := mantissa (mul w1 m) * 2 ^ k1) in *.
  set (y2 := mantissa (mul w2 m) * 2 ^ k2) in *.
  set (a1 := mantissa w1) in *. set (a2 := mantissa w2) in *.
  set (mm := mantissa m) in *.
  replace (mantissa (mul w1 m) * (2 ^ k1 * t1)) with (y1 * t1) by (unfold y1; ring).
  replace (mantissa (mul w2 m) * (2 ^ k2 * t2)) with (y2 * t2) by (unfold y2; ring).
  clearbody t1 t2 y1 y2 a1 a2 mm.
  assert (P1 : 2 ^ 53 * (y1 * t1) <= (a1 * t1) * mm * (2 ^ 53 + 1)) by nia.
  assert (P2 : (a2 * t2) * mm * (2 ^ 53 - 1) <= 2 ^ 53 * (y2 * t2)) by nia.
  assert (P3 : (a1 * t1) * mm * (2 ^ 53 + 1) <= (a2 * t2) * mm * (2 ^ 53 - 1)).
  { replace ((a1 * t1) * mm * (2 ^ 53 + 1)) with ((a1 * t1 * (2 ^ 53 + 1)) * mm) by ring.
    replace ((a2 * t2) * mm * (2 ^ 53 - 1)) with ((a2 * t2 * (2 ^ 53 - 1)) * mm) by ring.
    apply Z.mul_le_mono_nonneg_r; lia. }
  lia.
Qed.

(** *** The platform modifier *)

Lemma normal_between (m : number) :
  normal m -> SFleb n0_85 m = true -> SFleb m n1_15 = true ->
  -53 <= exponent m <= -52.
Proof.
  destruct m as [ | | | [ | ] mm em ]; try contradiction.
  intros _. unfold SFleb, n0_85, n1_15. cbn [SFcompare exponent].
  destruct (Z.compare_spec (-53) em), (Z.compare_spec em (-52));
    try lia; discriminate.
Qed.

Lemma platformModifierOf_normal (p : Platform) (dpi : option number) (u : bool) :
  wf_dpi dpi ->
  normal (platformModifierOf p dpi u) /\
  -53 <= exponent (platformModifierOf p dpi u) <= -52.
Proof.
  intros Hwf. unfold platformModifierOf, androidDpi.
  assert (H92 : normal n0_92 /\ -53 <= exponent n0_92 <= -52) by (cbn; lia).
  assert (H10 : normal n1_0 /\ -53 <= exponent n1_0 <= -52) by (cbn; lia).
  destruct p; try assumption.
  destruct dpi as [d | ]; try assumption.
  destruct (truthy d) eqn:T; try assumption. cbn [andb].
  destruct (u || gt d n0); try assumption.
  destruct (getDpiModifier_normal d Hwf (truthy_not_nan d T)) as (N & L & U).
  split; [assumption | apply normal_between; assumption].
Qed.

(** *** The products of the constant tables *)

Lemma table_ok_true : table_ok = true.
Proof. vm_compute. reflexivity. Qed.

Lemma all_playstyles_In (ps : Playstyle) : In ps all_playstyles.
Proof. destruct ps; cbn; tauto. Qed.

Lemma general_ok_true (ps : Playstyle) (s r : number) :
  general_ok ps (getScreenSizeModifier s) (getRefreshRateModifier r) = true.
Proof.
  pose proof table_ok_true as H. unfold table_ok in H.
  rewrite forallb_forall in H. specialize (H ps (all_playstyles_In ps)).
  rewrite forallb_forall in H.
  specialize (H _ (getScreenSizeModifier_cases s)).
  rewrite forallb_forall in H.
  exact (H _ (getRefreshRateModifier_cases r)).
Qed.

Lemma normalb_spec (x : number) :
  normalb x = true -> normal x /\ -47 <= exponent x <= -40.
Proof.
  destruct x as [ | | | [ | ] m e ]; try discriminate.
  cbn [normalb normal exponent]. rewrite !andb_true_iff. lia.
Qed.

Lemma gapb_spec (w1 w2 : number) :
  gapb w1 w2 = true ->
  scaled (-47) w1 * (2 ^ 53 + 1) <= scaled (-47) w2 * (2 ^ 53 - 1).
Proof. unfold gapb. apply Z.leb_le. Qed.

(** The clamped product of a table value and a platform modifier, for two
    table values in order. *)
Lemma clamp_mul_mono (w1 w2 m : number) :
  normalb w1 = true -> normalb w2 = true -> gapb w1 w2 = true ->
  normal m -> -53 <= exponent m <= -52 ->
  exists a b, clamp (mul w1 m) = of_Z a /\ clamp (mul w2 m) = of_Z b /\
              1 <= a <= b /\ b <= 200.
Proof.
  intros N1 N2 G Hm He.
  apply normalb_spec in N1, N2. destruct N1 as [N1 E1], N2 as [N2 E2].
  apply gapb_spec in G.
  destruct (mul_scaled_mono w1 w2 m (-47) N1 N2 Hm) as (M1 & M2 & X1 & X2 & S);
    try lia.
  apply (clamp_normal_mono _ _ (-47 + exponent m)); (assumption || lia).
Qed.

(** The general channel never falls to the floor. *)
Lemma clamp_mul_lower (w m : number) :
  normalb w = true -> normal m -> -53 <= exponent m <= -52 ->
  exists a, clamp (mul w m) = of_Z a /\ 2 <= a <= 200.
Proof.
  intros N Hm He. apply normalb_spec in N. destruct N as [N E].
  destruct (mul_normal w m N Hm) as (k & Ny & Hk & Ey & _); try lia.
  rewrite clamp_normal by (assumption || lia).
  eexists. split; [reflexivity | ].
  split; [ | apply clampZ_range].
  set (y := mul w m) in *.
  assert (Hy : 2 ^ 52 <= mantissa y).
  { destruct y as [ | | | [ | ] my ey ]; try contradiction. cbn in *. lia. }
  assert (Hr : 2 <= round_half_up (mantissa y) (exponent y)).
  { unfold round_half_up.
    set (n := - exponent y). assert (Hn : 0 <= n <= 48) by (unfold n; lia).
    assert (P1 : 0 < 2 ^ n) by (apply Z.pow_pos_nonneg; lia).
    assert (P2 : 2 ^ n <= 2 ^ 48) by (apply Z.pow_le_mono_r; lia).
    apply Z.div_le_lower_bound.
    - apply Z.pow_pos_nonneg; lia.
    - rewrite Z.pow_add_r by lia. change (2 ^ 1) with 2.
      change (2 ^ 52) with (16 * 2 ^ 48) in Hy. lia. }
  unfold clampZ. lia.
Qed.

(** ** The properties of the specification *)

Lemma valid_input_wf_dpi (input : CalculationInput) :
  valid_input input -> wf_dpi (dpi input).
Proof.
  unfold valid_input, wf_dpi. intros (_ & _ & _ & _ & H).
  destruct (dpi input); tauto.
Qed.

Lemma general_computed (input : CalculationInput) :
  general (computed input)
  = clamp (mul (pre general (playstyle input) (pingLevel input)
                    (getScreenSizeModifier (screenSize input))
                    (getRefreshRateModifier (refreshRate input)))
               (platformModifierOf (platform input) (dpi input)
                                   (useCustomDpi input))).
Proof. reflexivity. Qed.

Lemma general_final (input : CalculationInput) :
  general (calculateSensitivity input) = general (computed input).
Proof.
  destruct (calculateSensitivity_int input) as (t & Ht & Ec & ->).
  rewrite Ec. destruct t as [g rd s2 s4 aw fl]. destruct Ht as (Hg & _).
  cbn in *. f_equal. unfold clampZ. lia.
Qed.

(** C1: for every input, valid or not, each of the six fields of the
    result of [calculateSensitivity] is the number of an integer between 1
    and 200. *)
Theorem C1_fields_in_range (input : CalculationInput) :
  let r := calculateSensitivity input in
  int_in 1 200 (general r) /\ int_in 1 200 (redDot r) /\
  int_in 1 200 (scope2x r) /\ int_in 1 200 (scope4x r) /\
  int_in 1 200 (awmScope r) /\ int_in 1 200 (freeLook r).
Proof.
  destruct (calculateSensitivity_int input) as (t & _ & _ & E).
  cbv zeta. rewrite E. unfold to_result, finalClampZ, int_in.
  cbn [general redDot scope2x scope4x awmScope freeLook
       i_general i_redDot i_scope2x i_scope4x i_awmScope i_freeLook].
  repeat split; (eexists; split; [apply clampZ_range | reflexivity]).
Qed.

(** C2: for every input the result is the record of six integers with
    general >= redDot >= scope2x >= scope4x >= awmScope, each channel being
    strictly below the previous one unless it sits at the floor 1, and
    freeLook <= general; the comparisons of the language agree. *)
Theorem C2_descending_order (input : CalculationInput) :
  let r := calculateSensitivity input in
  exists t : Ints,
    r = to_result t /\
    i_redDot t <= i_general t /\ i_scope2x t <= i_redDot t /\
    i_scope4x t <= i_scope2x t /\ i_awmScope t <= i_scope4x t /\
    (i_redDot t < i_general t \/ i_redDot t = 1) /\
    (i_scope2x t < i_redDot t \/ i_scope2x t = 1) /\
    (i_scope4x t < i_scope2x t \/ i_scope4x t = 1) /\
    (i_awmScope t < i_scope4x t \/ i_awmScope t = 1) /\
    i_freeLook t <= i_general t /\
    ge (general r) (redDot r) = true /\ ge (redDot r) (scope2x r) = true /\
    ge (scope2x r) (scope4x r) = true /\ ge (scope4x r) (awmScope r) = true /\
    le (freeLook r) (general r) = true.
Proof.
  destruct (calculateSensitivity_int input) as (t & Ht & _ & E).
  cbv zeta. rewrite E. exists (finalClampZ (repairZ t)).
  split; [reflexivity | ].
  destruct t as [g rd s2 s4 aw fl]. unfold in_range in Ht.
  unfold to_result, finalClampZ, repairZ.
  cbn [general redDot scope2x scope4x awmScope freeLook
       i_general i_redDot i_scope2x i_scope4x i_awmScope i_freeLook] in *.
  set (rd' := if g <=? rd then g - 1 else rd).
  set (s2' := if rd' <=? s2 then rd' - 1 else s2).
  set (s4' := if s2' <=? s4 then s2' - 1 else s4).
  set (aw' := if s4' <=? aw then s4' - 1 else aw).
  set (fl' := if g <? fl then g else fl).
  assert (B1 : rd' < g /\ 0 <= rd')
    by (unfold rd'; destruct (Z.leb_spec g rd); lia).
  assert (B2 : s2' < rd' /\ -1 <= s2')
    by (unfold s2'; destruct (Z.leb_spec rd' s2); lia).
  assert (B3 : s4' < s2' /\ -2 <= s4')
    by (unfold s4'; destruct (Z.leb_spec s2' s4); lia).
  assert (B4 : aw' < s4' /\ -3 <= aw')
    by (unfold aw'; destruct (Z.leb_spec s4' aw); lia).
  assert (B5 : fl' <= g /\ 1 <= fl')
    by (unfold fl'; destruct (Z.ltb_spec g fl); lia).
  clearbody rd' s2' s4' aw' fl'.
  pose proof (clampZ_range g). pose proof (clampZ_range rd').
  pose proof (clampZ_range s2'). pose proof (clampZ_range s4').
  pose proof (clampZ_range aw'). pose proof (clampZ_range fl').
  rewrite !small_ge, small_le by lia.
  unfold clampZ in *.
  repeat split; try lia; apply Z.leb_le; lia.
Qed.

Lemma general_at_least_2 (input : CalculationInput) :
  wf_dpi (dpi input) ->
  exists g, 2 <= g <= 200 /\ general (computed input) = of_Z g.
Proof.
  intros Hwf. rewrite general_computed.
  pose proof (general_ok_true (playstyle input) (screenSize input)
                (refreshRate input)) as Hok.
  unfold general_ok in Hok. cbv zeta in Hok. rewrite !andb_true_iff in Hok.
  destruct Hok as ((((Nl & Nm) & Nh) & _) & _).
  destruct (platformModifierOf_normal (platform input) (dpi input)
              (useCustomDpi input) Hwf) as (Nm' & Em').
  assert (N : normalb (pre general (playstyle input) (pingLevel input)
                (getScreenSizeModifier (screenSize input))
                (getRefreshRateModifier (refreshRate input))) = true)
    by (destruct (pingLevel input); assumption).
  destruct (clamp_mul_lower _ _ N Nm' Em') as (a & Ea & Ha).
  exists a. split; [lia | exact Ea].
Qed.

(** C3: for every valid input whose channels before the ordering pass have
    redDot >= general, the result has redDot = general - 1: general is the
    number of an integer [g >= 2], redDot the number of [g - 1], which is
    also [general - 1] computed on numbers. *)
Theorem C3_tie_is_repaired (input : CalculationInput) :
  valid_input input ->
  ge (redDot (computed input)) (general (computed input)) = true ->
  let r := calculateSensitivity input in
  exists g, 2 <= g <= 200 /\ general r = of_Z g /\ redDot r = of_Z (g - 1) /\
            redDot r = sub (general r) n1 /\ redDot r <> general r.
Proof.
  intros Hv Htie. cbv zeta.
  destruct (general_at_least_2 input (valid_input_wf_dpi input Hv))
    as (g0 & Hg0 & Eg0).
  destruct (calculateSensitivity_int input) as (t & Ht & Ec & E).
  rewrite E. rewrite Ec in Htie, Eg0.
  destruct t as [g rd s2 s4 aw fl]. unfold in_range in Ht.
  unfold to_result, finalClampZ, repairZ in *.
  cbn [general redDot scope2x scope4x awmScope freeLook
       i_general i_redDot i_scope2x i_scope4x i_awmScope i_freeLook] in *.
  apply of_Z_small_inj in Eg0; try lia. subst g0.
  rewrite small_ge in Htie by lia. rewrite Htie.
  exists g. replace (clampZ g) with g by (unfold clampZ; lia).
  replace (clampZ (g - 1)) with (g - 1) by (unfold clampZ; lia).
  split; [lia | ]. split; [reflexivity | ]. split; [reflexivity | ].
  split.
  - symmetry. apply small_sub. lia.
  - intros Heq. apply of_Z_small_inj in Heq; lia.
Qed.

Lemma C3_tie_is_repaired_witness :
  valid_input input_tie /\
  ge (redDot (computed input_tie)) (general (computed input_tie)) = true /\
  exists g, 2 <= g <= 200 /\
    general (calculateSensitivity input_tie) = of_Z g /\
    redDot (calculateSensitivity input_tie) = of_Z (g - 1) /\
    redDot (calculateSensitivity input_tie)
      = sub (general (calculateSensitivity input_tie)) n1 /\
    redDot (calculateSensitivity input_tie)
      <> general (calculateSensitivity input_tie).
Proof.
  assert (Hv : valid_input input_tie) by (vm_compute; tauto).
  assert (Ht : ge (redDot (computed input_tie)) (general (computed input_tie)) = true)
    by (vm_compute; reflexivity).
  split; [exact Hv | ]. split; [exact Ht | ].
  exact (C3_tie_is_repaired input_tie Hv Ht).
Defined.

(** C4: for the iOS scenario the general value is the rounded and clamped
    product 165 x 1.03 x 1.0 x 0.96 x 0.95 x 0.92 taken left to right.  The
    exact product, 142.594848, lies between 142 and 143 (the "approximately
    142" of the scenario); the value computed is 143. *)
Theorem C4_ios_scenario :
  general (calculateSensitivity input_ios)
  = clamp (mul (mul (mul (mul (mul (of_Z 165) (lit 103 100)) (lit 10 10))
                         (lit 96 100)) (lit 95 100)) (lit 92 100)) /\
  general (calculateSensitivity input_ios) = of_Z 143 /\
  142 * 10 ^ 8 < 165 * 103 * 96 * 95 * 92 < 143 * 10 ^ 8.
Proof.
  split; [vm_compute; reflexivity | ].
  split; [vm_compute; reflexivity | ].
  cbn. lia.
Qed.



(** C6: for every valid input, the general value does not decrease when
    only the ping level goes from low to medium and from medium to high. *)
Theorem C6_general_monotone_in_ping (input : CalculationInput) :
  valid_input input ->
  le (general (calculateSensitivity (withPing input low)))
     (general (calculateSensitivity (withPing input medium))) = true /\
  le (general (calculateSensitivity (withPing input medium)))
     (general (calculateSensitivity (withPing input high))) = true.
Proof.
  intros Hv. pose proof (valid_input_wf_dpi input Hv) as Hwf.
  rewrite !general_final, !general_computed.
  cbn [withPing platform playstyle pingLevel screenSize refreshRate dpi useCustomDpi].
  pose proof (general_ok_true (playstyle input) (screenSize input)
                (refreshRate input)) as Hok.
  unfold general_ok in Hok. cbv zeta in Hok. rewrite !andb_true_iff in Hok.
  destruct Hok as ((((Nl & Nm) & Nh) & Glm) & Gmh).
  destruct (platformModifierOf_normal (platform input) (dpi input)
              (useCustomDpi input) Hwf) as (Np & Ep).
  destruct (clamp_mul_mono _ _ _ Nl Nm Glm Np Ep) as (a & b & Ea & Eb & Hab & Hb).
  destruct (clamp_mul_mono _ _ _ Nm Nh Gmh Np Ep) as (b' & c & Eb' & Ec & Hbc & Hc).
  split.
  - rewrite Ea, Eb, small_le by lia. apply Z.leb_le. lia.
  - rewrite Eb', Ec, small_le by lia. apply Z.leb_le. lia.
Qed.

Lemma C6_general_monotone_in_ping_witness :
  valid_input input_android /\
  le (general (calculateSensitivity (withPing input_android low)))
     (general (calculateSensitivity (withPing input_android medium))) = true /\
  le (general (calculateSensitivity (withPing input_android medium)))
     (general (calculateSensitivity (withPing input_android high))) = true.
Proof.
  assert (Hv : valid_input input_android) by (vm_compute; tauto).
  split; [exact Hv | ].
  exact (C6_general_monotone_in_ping input_android Hv).
Defined.

(** *** The explanation *)

Local Open Scope string_scope.

Lemma append_assoc (a b c : string) : (a ++ b) ++ c = a ++ b ++ c.
Proof. induction a as [ | x a IH]; cbn; [reflexivity | now rewrite IH]. Qed.

Lemma contains_here (t b : string) : contains (t ++ b) t.
Proof. exists "", b. reflexivity. Qed.

Lemma contains_app_right (a s t : string) : contains s t -> contains (a ++ s) t.
Proof.
  intros (x & y & ->). exists (a ++ x), y. now rewrite append_assoc.
Qed.

Lemma append_empty_r (a : string) : a ++ "" = a.
Proof. induction a as [ | x a IH]; cbn; [reflexivity | now rewrite IH]. Qed.

Lemma contains_refl (t : string) : contains t t.
Proof. exists "", "". cbn. now rewrite append_empty_r. Qed.

Lemma contains_app_left (s b t : string) : contains s t -> contains (s ++ b) t.
Proof.
  intros (x & y & ->). exists x, (y ++ b). now rewrite !append_assoc.
Qed.

(** Search for the part in a concatenation, by its shape. *)
Ltac find_part :=
  solve [ apply contains_refl
        | apply contains_here
        | apply contains_app_right; find_part
        | apply contains_app_left; find_part ].

(** C7: for every input and result, whatever text the conversion of
    numbers produces, the returned text ends with the summary section and
    the testing guide, and the summary section contains the six lines, each
    with the text of its value between its label and its caption; the
    returned text carries the paragraph of the branch that the comparison
    selects on each threshold itself: a refresh rate of 120 gets the
    high-refresh paragraph and one of 90 the good-refresh paragraph, a
    screen size of 6.0 or of 6.8 the standard-screen paragraph, and on
    Android a DPI of 480 or of 360 the standard-DPI paragraph. *)
Theorem C7_summary_and_thresholds (toString : number -> string)
    (input : CalculationInput) (result : SensitivityResult) :
  let text := generateExplanation toString input result in
  let summary := summarySection toString result in
  let text_of (i : CalculationInput) := generateExplanation toString i result in
  let on_android (d : number) := withDpi (withPlatform input android) (Some d) in
  (exists before, text = before ++ summary ++ testingGuide) /\
  contains summary ("- General: " ++ toString (general result)
                    ++ " (highest for overall control)" ++ nl) /\
  contains summary ("- Red Dot: " ++ toString (redDot result)
                    ++ " (close to mid-range tracking)" ++ nl) /\
  contains summary ("- 2x Scope: " ++ toString (scope2x result)
                    ++ " (mid-range precision)" ++ nl) /\
  contains summary ("- 4x Scope: " ++ toString (scope4x result)
                    ++ " (long-range control)" ++ nl) /\
  contains summary ("- AWM Scope: " ++ toString (awmScope result)
                    ++ " (sniper precision)" ++ nl) /\
  contains summary ("- Free Look: " ++ toString (freeLook result)
                    ++ " (situational awareness)" ++ nl ++ nl) /\
  contains text ("**Refresh Rate (" ++ toString (refreshRate input) ++ "Hz):** "
                 ++ refreshCommentary (refreshRate input) ++ nl ++ nl) /\
  contains (generateExplanation toString (withRefreshRate input (of_Z 120)) result)
           ("**Refresh Rate (" ++ toString (of_Z 120) ++ "Hz):** "
            ++ "High refresh rate allows for more responsive controls. You can handle slightly higher sensitivities with smoother tracking."
            ++ nl ++ nl) /\
  refreshCommentary (of_Z 120)
  = "High refresh rate allows for more responsive controls. You can handle slightly higher sensitivities with smoother tracking." /\
  refreshCommentary (of_Z 90)
  = "Good refresh rate provides smooth gameplay. Sensitivities are optimized for this range." /\
  screenCommentary (lit 60 10) = "Standard screen size provides balanced control." /\
  screenCommentary (lit 68 10) = "Standard screen size provides balanced control." /\
  dpiLevelOf (of_Z 480) = "standard" /\ dpiLevelOf (of_Z 360) = "standard" /\
  contains (text_of (withRefreshRate input (of_Z 90)))
           ("**Refresh Rate (" ++ toString (of_Z 90) ++ "Hz):** "
            ++ "Good refresh rate provides smooth gameplay. Sensitivities are optimized for this range."
            ++ nl ++ nl) /\
  contains text ("**Screen Size (" ++ toString (screenSize input) ++ dquote
                 ++ "):** " ++ screenCommentary (screenSize input) ++ nl ++ nl) /\
  contains (text_of (withScreenSize input (lit 60 10)))
           ("**Screen Size (" ++ toString (lit 60 10) ++ dquote ++ "):** "
            ++ "Standard screen size provides balanced control." ++ nl ++ nl) /\
  contains (text_of (withScreenSize input (lit 68 10)))
           ("**Screen Size (" ++ toString (lit 68 10) ++ dquote ++ "):** "
            ++ "Standard screen size provides balanced control." ++ nl ++ nl) /\
  (exists rest,
     text_of (on_android (of_Z 480))
     = "**Android DPI Adjustment:** Your device runs at " ++ toString (of_Z 480)
       ++ " DPI (standard). This is a standard DPI range, providing balanced performance."
       ++ nl ++ nl ++ "**Screen Size (" ++ rest) /\
  (exists rest,
     text_of (on_android (of_Z 360))
     = "**Android DPI Adjustment:** Your device runs at " ++ toString (of_Z 360)
       ++ " DPI (standard). This is a standard DPI range, providing balanced performance."
       ++ nl ++ nl ++ "**Screen Size (" ++ rest).
Proof.
  cbv zeta. split.
  { unfold generateExplanation.
    exists (deviceSection toString input ++ screenSection toString input ++
            refreshSection toString input ++
            (playstyleDescriptions (playstyle input) ++ nl ++ nl) ++
            (pingDescriptions (pingLevel input) ++ nl ++ nl)).
    rewrite !append_assoc. reflexivity. }
  unfold summarySection, summaryLines. cbn [String.concat].
  do 6 (split; [find_part | ]).
  unfold generateExplanation, refreshSection, screenSection.
  split; [find_part | ].
  split.
  { cbn [withRefreshRate refreshRate].
    change (refreshCommentary (of_Z 120)) with
      "High refresh rate allows for more responsive controls. You can handle slightly higher sensitivities with smoother tracking.".
    find_part. }
  do 6 (split; [vm_compute; reflexivity | ]).
  split.
  { cbn [withRefreshRate refreshRate].
    change (refreshCommentary (of_Z 90)) with
      "Good refresh rate provides smooth gameplay. Sensitivities are optimized for this range.".
    find_part. }
  split; [find_part | ].
  split.
  { cbn [withScreenSize screenSize].
    change (screenCommentary (lit 60 10)) with
      "Standard screen size provides balanced control.".
    find_part. }
  split.
  { cbn [withScreenSize screenSize].
    change (screenCommentary (lit 68 10)) with
      "Standard screen size provides balanced control.".
    find_part. }
  split.
  - unfold deviceSection.
    cbn [withDpi withPlatform platform dpi screenSize refreshRate playstyle
         pingLevel].
    change (truthy (of_Z 480)) with true.
    change (dpiLevelOf (of_Z 480)) with "standard".
    change (dpiCommentary "standard")
      with "This is a standard DPI range, providing balanced performance.".
    eexists. rewrite !append_assoc. reflexivity.
  - unfold deviceSection.
    cbn [withDpi withPlatform platform dpi screenSize refreshRate playstyle
         pingLevel].
    change (truthy (of_Z 360)) with true.
    change (dpiLevelOf (of_Z 360)) with "standard".
    change (dpiCommentary "standard")
      with "This is a standard DPI range, providing balanced performance.".
    eexists. rewrite !append_assoc. reflexivity.
Qed.

Local Close Scope string_scope.

Lemma le_zero_le_5_5 (s : number) : le s n0 = true -> le s n5_5 = true.
Proof.
  unfold le, SFleb, n0, n5_5.
  destruct s as [ [ | ] | [ | ] | | [ | ] m e ]; cbn [SFcompare];
    intros H; try discriminate H; reflexivity.
Qed.

(** C8: the calculator and the explanation are total functions of the
    embedding, no lookup of theirs can miss and no step of theirs can fail;
    on an input whose screen size is zero or negative the screen-size step
    function takes its first branch, 1.08, and the calculator still returns
    six integers of [1, 200], the explanation a text ending with the
    testing guide. *)
Theorem C8_total_on_nonpositive_screen (toString : number -> string)
    (input : CalculationInput) :
  le (screenSize input) n0 = true ->
  getScreenSizeModifier (screenSize input) = n1_08 /\
  (exists t : Ints,
     calculateSensitivity input = to_result t /\
     1 <= i_general t <= 200 /\ 1 <= i_redDot t <= 200 /\
     1 <= i_scope2x t <= 200 /\ 1 <= i_scope4x t <= 200 /\
     1 <= i_awmScope t <= 200 /\ 1 <= i_freeLook t <= 200) /\
  (exists before,
     generateExplanation toString input (calculateSensitivity input)
     = (before ++ testingGuide)%string).
Proof.
  intros H. split.
  { unfold getScreenSizeModifier. now rewrite (le_zero_le_5_5 _ H). }
  split.
  { destruct (calculateSensitivity_int input) as (t & _ & _ & E).
    exists (finalClampZ (repairZ t)). split; [exact E | ].
    unfold finalClampZ.
    cbn [i_general i_redDot i_scope2x i_scope4x i_awmScope i_freeLook].
    repeat split; apply clampZ_range. }
  unfold generateExplanation. eexists.
  rewrite <- !append_assoc. reflexivity.
Qed.

Lemma C8_total_on_nonpositive_screen_witness :
  le (screenSize input_negative_screen) n0 = true /\
  getScreenSizeModifier (screenSize input_negative_screen) = n1_08.
Proof.
  assert (H : le (screenSize input_negative_screen) n0 = true)
    by (vm_compute; reflexivity).
  split; [exact H | ].
  exact (proj1 (C8_total_on_nonpositive_screen (fun _ => EmptyString)
                  input_negative_screen H)).
Defined.

(** C9: when [dpi] is null or positive, the flag [useCustomDpi] has no
    influence on the result. *)
Theorem C9_useCustomDpi_irrelevant (input : CalculationInput) (u1 u2 : bool) :
  match dpi input with Some d => gt d n0 = true | None => True end ->
  calculateSensitivity (withUseCustomDpi input u1)
  = calculateSensitivity (withUseCustomDpi input u2).
Proof.
  intros H.
  assert (E : forall u, platformModifierOf (platform input) (dpi input) u
                        = platformModifierOf (platform input) (dpi input) true).
  { intros u. unfold platformModifierOf, androidDpi.
    destruct (platform input); try reflexivity.
    destruct (dpi input) as [d | ]; try reflexivity.
    rewrite H, !orb_true_r. reflexivity. }
  unfold calculateSensitivity, computed.
  cbn [withUseCustomDpi platform playstyle pingLevel screenSize refreshRate
       dpi useCustomDpi].
  rewrite (E u1), (E u2). reflexivity.
Qed.

Lemma C9_useCustomDpi_irrelevant_witness :
  gt (of_Z 440) n0 = true /\
  calculateSensitivity (withUseCustomDpi input_android true)
  = calculateSensitivity (withUseCustomDpi input_android false).
Proof.
  assert (H : gt (of_Z 440) n0 = true) by (vm_compute; reflexivity).
  split; [exact H | ].
  exact (C9_useCustomDpi_irrelevant input_android true false H).
Defined.

(** The flag does matter outside the contract: with a negative [dpi]. *)
Example useCustomDpi_matters_for_negative_dpi :
  let input := mkInput android balanced medium (lit 65 10) (of_Z 90)
                       (Some (of_Z (-300))) false in
  general (calculateSensitivity (withUseCustomDpi input true)) = of_Z 144 /\
  general (calculateSensitivity (withUseCustomDpi input false)) = of_Z 170.
Proof. vm_compute. split; reflexivity. Qed.

(** C10: when the platform is unknown, or is Android with a [dpi] that is
    null or zero, nothing is written for the device: the explanation starts
    with the screen-size section. *)
Theorem C10_no_device_section (toString : number -> string)
    (input : CalculationInput) (result : SensitivityResult) :
  platform input = unknown \/
  (platform input = android /\ dpi_falsy (dpi input)) ->
  deviceSection toString input = EmptyString /\
  exists rest,
    generateExplanation toString input result
    = ("**Screen Size (" ++ toString (screenSize input) ++ rest)%string.
Proof.
  intros H.
  assert (E : deviceSection toString input = EmptyString).
  { unfold deviceSection. destruct H as [-> | [-> H]]; [reflexivity | ].
    unfold dpi_falsy in H. destruct (dpi input) as [d | ]; [ | reflexivity].
    now rewrite H. }
  split; [exact E | ].
  unfold generateExplanation. rewrite E. unfold screenSection.
  eexists. cbn [append]. rewrite !append_assoc. reflexivity.
Qed.

Lemma C10_no_device_section_witness :
  (platform input_android_no_dpi = unknown \/
   (platform input_android_no_dpi = android /\
    dpi_falsy (dpi input_android_no_dpi))) /\
  deviceSection (fun _ => EmptyString) input_android_no_dpi = EmptyString.
Proof.
  assert (H : platform input_android_no_dpi = unknown \/
              (platform input_android_no_dpi = android /\
               dpi_falsy (dpi input_android_no_dpi)))
    by (right; split; reflexivity).
  split; [exact H | ].
  exact (proj1 (C10_no_device_section (fun _ => EmptyString)
                  input_android_no_dpi
                  (calculateSensitivity input_android_no_dpi) H)).
Defined.

(** ** Further properties of the code *)

(** *** Order of the channels of two results *)

(** The table products of all channels are normal and of moderate size. *)
Lemma rows_normal_true :
  forallb (fun f => forallb (fun ps => forallb (fun pg => forallb (fun sm =>
    forallb (fun rm => normalb (pre f ps pg sm rm)) refresh_modifiers)
    screen_modifiers) all_pings) all_playstyles) fields = true.
Proof. vm_compute. reflexivity. Qed.

(** The table products grow with the ping modifier, ... *)
Lemma rows_ping_true :
  forallb (fun f => forallb (fun ps => forallb (fun sm => forallb (fun rm =>
    forallb (fun pp => leqb (pre f ps (fst pp) sm rm) (pre f ps (snd pp) sm rm))
            (ordered_pairs all_pings))
    refresh_modifiers) screen_modifiers) all_playstyles) fields = true.
Proof. vm_compute. reflexivity. Qed.

(** ... shrink along the screen-size modifiers, ... *)
Lemma rows_screen_true :
  forallb (fun f => forallb (fun ps => forallb (fun pg => forallb (fun rm =>
    forallb (fun ss => leqb (pre f ps pg (snd ss) rm) (pre f ps pg (fst ss) rm))
            (ordered_pairs screen_modifiers))
    refresh_modifiers) all_pings) all_playstyles) fields = true.
Proof. vm_compute. reflexivity. Qed.

(** ... and grow along the refresh-rate modifiers. *)
Lemma rows_refresh_true :
  forallb (fun f => forallb (fun ps => forallb (fun pg => forallb (fun sm =>
    forallb (fun rr => leqb (pre f ps pg sm (fst rr)) (pre f ps pg sm (snd rr)))
            (ordered_pairs refresh_modifiers))
    screen_modifiers) all_pings) all_playstyles) fields = true.
Proof. vm_compute. reflexivity. Qed.

(** For general, redDot, scope2x and freeLook the products shrink along the
    playstyles from freestyle to sniper. *)
Lemma rows_playstyle_true :
  forallb (fun f => forallb (fun pp => forallb (fun pg => forallb (fun sm =>
    forallb (fun rm => leqb (pre f (snd pp) pg sm rm) (pre f (fst pp) pg sm rm))
    refresh_modifiers) screen_modifiers) all_pings) (ordered_pairs all_playstyles))
    [general; redDot; scope2x; freeLook] = true.
Proof. vm_compute. reflexivity. Qed.

(** For the four playstyles from rusher on, the freeLook product is not
    below the general product. *)
Lemma rows_freeLook_true :
  forallb (fun ps => forallb (fun pg => forallb (fun sm => forallb (fun rm =>
    leqb (pre general ps pg sm rm) (pre freeLook ps pg sm rm))
    refresh_modifiers) screen_modifiers) all_pings)
    [rusher; balanced; onetap; sniper] = true.
Proof. vm_compute. reflexivity. Qed.

Lemma forallb_In {A : Type} (P : A -> bool) (l : list A) (x : A) :
  forallb P l = true -> In x l -> P x = true.
Proof. intros H. rewrite forallb_forall in H. apply H. Qed.

(** Go to the row [x] of a table check [H]. *)
Ltac row H x Hx := apply (forallb_In _ _ x) in H; [ cbv beta in H | exact Hx ].

(** *** The order of numbers is transitive *)

Lemma SFleb_trans (x y z : number) :
  SFleb x y = true -> SFleb y z = true -> SFleb x z = true.
Proof.
  unfold SFleb.
  destruct x as [sx | sx | | sx mx ex], y as [sy | sy | | sy my ey],
           z as [sz | sz | | sz mz ez]; cbn [SFcompare];
    try discriminate; try reflexivity;
    try (destruct sx; discriminate); try (destruct sy; discriminate);
    try (destruct sz; discriminate);
    try (destruct sx, sy; (discriminate || reflexivity));
    try (destruct sy, sz; (discriminate || reflexivity));
    try (destruct sx, sz; (discriminate || reflexivity));
    try (destruct sx, sy, sz; (discriminate || reflexivity)).
  change (Pos.compare_cont Eq mx my) with (Pos.compare mx my).
  change (Pos.compare_cont Eq my mz) with (Pos.compare my mz).
  change (Pos.compare_cont Eq mx mz) with (Pos.compare mx mz).
  destruct sx, sy, sz; try discriminate; try reflexivity;
    destruct (Z.compare_spec ex ey); try discriminate;
    destruct (Z.compare_spec ey ez); try discriminate;
    destruct (Z.compare_spec ex ez); try lia; try reflexivity;
    cbn [CompOpp];
    destruct (Pos.compare_spec mx my); try discriminate;
    destruct (Pos.compare_spec my mz); try discriminate;
    destruct (Pos.compare_spec mx mz); try lia; try reflexivity;
    cbn [CompOpp]; intros; try discriminate; try reflexivity.
Qed.

(** *** The step functions are monotone *)

Lemma getScreenSizeModifier_antitone (s1 s2 : number) :
  le s1 s2 = true ->
  In (getScreenSizeModifier s1, getScreenSizeModifier s2)
     (ordered_pairs screen_modifiers).
Proof.
  intros H.
  assert (T : forall c, le s2 c = true -> le s1 c = true)
    by (intros c Hc; exact (SFleb_trans _ _ _ H Hc)).
  unfold getScreenSizeModifier.
  destruct (le s2 n5_5) eqn:A1; [rewrite (T _ A1); cbn; tauto | ].
  destruct (le s2 n6_0) eqn:A2;
    [rewrite (T _ A2); destruct (le s1 n5_5); cbn; tauto | ].
  destruct (le s2 n6_5) eqn:A3;
    [rewrite (T _ A3); destruct (le s1 n5_5), (le s1 n6_0); cbn; tauto | ].
  destruct (le s2 n7_0) eqn:A4;
    [rewrite (T _ A4);
     destruct (le s1 n5_5), (le s1 n6_0), (le s1 n6_5); cbn; tauto | ].
  destruct (le s1 n5_5), (le s1 n6_0), (le s1 n6_5), (le s1 n7_0); cbn; tauto.
Qed.

Lemma getRefreshRateModifier_monotone (r1 r2 : number) :
  le r1 r2 = true ->
  In (getRefreshRateModifier r1, getRefreshRateModifier r2)
     (ordered_pairs refresh_modifiers).
Proof.
  intros H.
  assert (T : forall c, le r2 c = true -> le r1 c = true)
    by (intros c Hc; exact (SFleb_trans _ _ _ H Hc)).
  unfold getRefreshRateModifier.
  destruct (le r2 n60) eqn:A1; [rewrite (T _ A1); cbn; tauto | ].
  destruct (le r2 n90) eqn:A2;
    [rewrite (T _ A2); destruct (le r1 n60); cbn; tauto | ].
  destruct (le r2 n120) eqn:A3;
    [rewrite (T _ A3); destruct (le r1 n60), (le r1 n90); cbn; tauto | ].
  destruct (le r1 n60), (le r1 n90), (le r1 n120); cbn; tauto.
Qed.

(** *** Clamped products in order *)

Lemma clamp_mul_leq (w1 w2 m : number) :
  normalb w1 = true -> normalb w2 = true -> leqb w1 w2 = true ->
  normal m -> -53 <= exponent m <= -52 ->
  ints_in_order (clamp (mul w1 m)) (clamp (mul w2 m)).
Proof.
  intros N1 N2 L Hm He. unfold leqb in L. apply orb_true_iff in L.
  destruct L as [E | G].
  - apply num_eqb_eq in E. subst w2.
    destruct (clamp_mul_lower w1 m N1 Hm He) as (a & Ea & Ha).
    exists a, a. repeat split; (assumption || lia).
  - exact (clamp_mul_mono w1 w2 m N1 N2 G Hm He).
Qed.

(** No clamped product of the tables is below 16. *)
Lemma clamp_mul_lower_16 (w m : number) :
  normalb w = true -> normal m -> -53 <= exponent m <= -52 ->
  exists a, clamp (mul w m) = of_Z a /\ 16 <= a <= 200.
Proof.
  intros N Hm He. apply normalb_spec in N. destruct N as [N E].
  destruct (mul_normal w m N Hm) as (k & Ny & Hk & Ey & _); try lia.
  rewrite clamp_normal by (assumption || lia).
  eexists. split; [reflexivity | ].
  split; [ | apply clampZ_range].
  set (y := mul w m) in *.
  assert (Hy : 2 ^ 52 <= mantissa y).
  { destruct y as [ | | | [ | ] my ey ]; try contradiction. cbn in *. lia. }
  assert (Hr : 16 <= round_half_up (mantissa y) (exponent y)).
  { unfold round_half_up.
    set (n := - exponent y). assert (Hn : 0 <= n <= 48) by (unfold n; lia).
    assert (P1 : 0 < 2 ^ n) by (apply Z.pow_pos_nonneg; lia).
    assert (P2 : 2 ^ n <= 2 ^ 48) by (apply Z.pow_le_mono_r; lia).
    apply Z.div_le_lower_bound.
    - apply Z.pow_pos_nonneg; lia.
    - rewrite Z.pow_add_r by lia. change (2 ^ 1) with 2.
      change (2 ^ 52) with (16 * 2 ^ 48) in Hy. lia. }
  unfold clampZ. lia.
Qed.

(** *** The ordering pass is monotone *)

Lemma repairZ_mono (t1 t2 : Ints) :
  ints_le t1 t2 -> ints_le (repairZ t1) (repairZ t2).
Proof.
  destruct t1 as [g1 r1 a1 b1 c1 f1], t2 as [g2 r2 a2 b2 c2 f2].
  unfold ints_le, repairZ.
  cbn [i_general i_redDot i_scope2x i_scope4x i_awmScope i_freeLook].
  intros (Hg & Hr & Ha & Hb & Hc & Hf).
  set (r1' := if g1 <=? r1 then g1 - 1 else r1).
  set (r2' := if g2 <=? r2 then g2 - 1 else r2).
  assert (Hr' : r1' <= r2').
  { unfold r1', r2'. destruct (Z.leb_spec g1 r1), (Z.leb_spec g2 r2); lia. }
  clearbody r1' r2'.
  set (a1' := if r1' <=? a1 then r1' - 1 else a1).
  set (a2' := if r2' <=? a2 then r2' - 1 else a2).
  assert (Ha' : a1' <= a2').
  { unfold a1', a2'. destruct (Z.leb_spec r1' a1), (Z.leb_spec r2' a2); lia. }
  clearbody a1' a2'.
  set (b1' := if a1' <=? b1 then a1' - 1 else b1).
  set (b2' := if a2' <=? b2 then a2' - 1 else b2).
  assert (Hb' : b1' <= b2').
  { unfold b1', b2'. destruct (Z.leb_spec a1' b1), (Z.leb_spec a2' b2); lia. }
  clearbody b1' b2'.
  repeat split; try assumption.
  - destruct (Z.leb_spec b1' c1), (Z.leb_spec b2' c2); lia.
  - destruct (Z.ltb_spec g1 f1), (Z.ltb_spec g2 f2); lia.
Qed.

Lemma finalClampZ_mono (t1 t2 : Ints) :
  ints_le t1 t2 -> ints_le (finalClampZ t1) (finalClampZ t2).
Proof.
  unfold ints_le, finalClampZ.
  cbn [i_general i_redDot i_scope2x i_scope4x i_awmScope i_freeLook].
  intros (Hg & Hr & Ha & Hb & Hc & Hf).
  repeat split; apply clampZ_mono; assumption.
Qed.

Lemma to_result_le (t1 t2 : Ints) :
  in_range t1 -> in_range t2 -> ints_le t1 t2 ->
  result_le (to_result t1) (to_result t2).
Proof.
  unfold in_range, ints_le, result_le, to_result.
  cbn [general redDot scope2x scope4x awmScope freeLook].
  intros H1 H2 H. rewrite !small_le by lia.
  repeat split; apply Z.leb_le; lia.
Qed.

Lemma finalClampZ_in_range (t : Ints) : in_range (finalClampZ t).
Proof.
  unfold in_range, finalClampZ.
  cbn [i_general i_redDot i_scope2x i_scope4x i_awmScope i_freeLook].
  repeat split; apply clampZ_range.
Qed.

Lemma finish_to_result (t : Ints) :
  in_range t ->
  finalClamp (repair (to_result t)) = to_result (finalClampZ (repairZ t)).
Proof.
  intros Ht. rewrite repair_to_result by assumption.
  pose proof (repairZ_bounds t Ht) as B. cbv zeta in B.
  destruct Ht as (? & _). apply finalClamp_to_result; lia.
Qed.

(** When the channels before the ordering pass are in order, so are the
    results. *)
Lemma result_le_channels (c1 c2 : SensitivityResult) :
  (forall f, In f fields -> ints_in_order (f c1) (f c2)) ->
  result_le (finalClamp (repair c1)) (finalClamp (repair c2)).
Proof.
  intros H.
  destruct (H general) as (g1 & g2 & Eg1 & Eg2 & Hg); [cbn; tauto | ].
  destruct (H redDot) as (r1 & r2 & Er1 & Er2 & Hr); [cbn; tauto | ].
  destruct (H scope2x) as (a1 & a2 & Ea1 & Ea2 & Ha); [cbn; tauto | ].
  destruct (H scope4x) as (b1 & b2 & Eb1 & Eb2 & Hb); [cbn; tauto | ].
  destruct (H awmScope) as (w1 & w2 & Ew1 & Ew2 & Hw); [cbn; tauto | ].
  destruct (H freeLook) as (f1 & f2 & Ef1 & Ef2 & Hf); [cbn; tauto | ].
  destruct c1 as [x1 x2 x3 x4 x5 x6], c2 as [y1 y2 y3 y4 y5 y6].
  cbn [general redDot scope2x scope4x awmScope freeLook] in *. subst.
  change (result_le
            (finalClamp (repair (to_result (mkInts g1 r1 a1 b1 w1 f1))))
            (finalClamp (repair (to_result (mkInts g2 r2 a2 b2 w2 f2))))).
  assert (R1 : in_range (mkInts g1 r1 a1 b1 w1 f1)) by (unfold in_range; cbn; lia).
  assert (R2 : in_range (mkInts g2 r2 a2 b2 w2 f2)) by (unfold in_range; cbn; lia).
  rewrite !finish_to_result by assumption.
  apply to_result_le; try apply finalClampZ_in_range.
  apply finalClampZ_mono, repairZ_mono. unfold ints_le. cbn. lia.
Qed.

(** *** The channels of an input *)

Lemma computed_field (f : SensitivityResult -> number) (input : CalculationInput) :
  In f fields ->
  f (computed input)
  = clamp (mul (pre f (playstyle input) (pingLevel input)
                    (getScreenSizeModifier (screenSize input))
                    (getRefreshRateModifier (refreshRate input)))
               (platformModifierOf (platform input) (dpi input)
                                   (useCustomDpi input))).
Proof.
  intros H. cbn in H.
  repeat (destruct H as [<- | H]; [reflexivity | ]). contradiction.
Qed.

Lemma all_pings_In (p : PingLevel) : In p all_pings.
Proof. destruct p; cbn; tauto. Qed.

Lemma screen_modifiers_In (s : number) : In (getScreenSizeModifier s) screen_modifiers.
Proof. apply getScreenSizeModifier_cases. Qed.

Lemma refresh_modifiers_In (r : number) : In (getRefreshRateModifier r) refresh_modifiers.
Proof. apply getRefreshRateModifier_cases. Qed.

Lemma pre_normal (f : SensitivityResult -> number) (ps : Playstyle)
    (pg : PingLevel) (s r : number) :
  In f fields ->
  normalb (pre f ps pg (getScreenSizeModifier s) (getRefreshRateModifier r)) = true.
Proof.
  intros Hf. pose proof rows_normal_true as H.
  row H f Hf. row H ps (all_playstyles_In ps). row H pg (all_pings_In pg).
  row H (getScreenSizeModifier s) (screen_modifiers_In s).
  row H (getRefreshRateModifier r) (refresh_modifiers_In r).
  exact H.
Qed.

Lemma ping_rank_pairs (p1 p2 : PingLevel) :
  (ping_rank p1 <= ping_rank p2)%nat -> In (p1, p2) (ordered_pairs all_pings).
Proof. destruct p1, p2; cbn; intros H; try tauto; lia. Qed.

Lemma playstyle_rank_pairs (p1 p2 : Playstyle) :
  (playstyle_rank p1 <= playstyle_rank p2)%nat ->
  In (p1, p2) (ordered_pairs all_playstyles).
Proof. destruct p1, p2; cbn; intros H; try tauto; lia. Qed.

(** X1: every channel grows with the ping level. *)
Theorem result_monotone_in_ping (input : CalculationInput) (p1 p2 : PingLevel) :
  wf_dpi (dpi input) ->
  (ping_rank p1 <= ping_rank p2)%nat ->
  result_le (calculateSensitivity (withPing input p1))
            (calculateSensitivity (withPing input p2)).
Proof.
  intros Hwf Hp. unfold calculateSensitivity.
  apply result_le_channels. intros f Hf.
  rewrite !computed_field by assumption.
  cbn [withPing platform playstyle pingLevel screenSize refreshRate dpi useCustomDpi].
  destruct (platformModifierOf_normal (platform input) (dpi input)
              (useCustomDpi input) Hwf) as (Nm & Em).
  apply clamp_mul_leq; try assumption; try (apply pre_normal; assumption).
  pose proof rows_ping_true as H.
  row H f Hf. row H (playstyle input) (all_playstyles_In (playstyle input)).
  row H (getScreenSizeModifier (screenSize input)) (screen_modifiers_In (screenSize input)).
  row H (getRefreshRateModifier (refreshRate input))
        (refresh_modifiers_In (refreshRate input)).
  row H (p1, p2) (ping_rank_pairs p1 p2 Hp).
  exact H.
Qed.

Lemma result_monotone_in_ping_witness :
  wf_dpi (dpi input_android) /\ (ping_rank low <= ping_rank high)%nat /\
  result_le (calculateSensitivity (withPing input_android low))
            (calculateSensitivity (withPing input_android high)).
Proof.
  assert (H1 : wf_dpi (dpi input_android)) by (vm_compute; reflexivity).
  assert (H2 : (ping_rank low <= ping_rank high)%nat) by (cbn; lia).
  split; [exact H1 | split; [exact H2 | ]].
  exact (result_monotone_in_ping input_android low high H1 H2).
Defined.

(** X2: no channel grows with the screen size. *)
Theorem result_antitone_in_screenSize (input : CalculationInput) (s1 s2 : number) :
  wf_dpi (dpi input) ->
  le s1 s2 = true ->
  result_le (calculateSensitivity (withScreenSize input s2))
            (calculateSensitivity (withScreenSize input s1)).
Proof.
  intros Hwf Hs. unfold calculateSensitivity.
  apply result_le_channels. intros f Hf.
  rewrite !computed_field by assumption.
  cbn [withScreenSize platform playstyle pingLevel screenSize refreshRate dpi useCustomDpi].
  destruct (platformModifierOf_normal (platform input) (dpi input)
              (useCustomDpi input) Hwf) as (Nm & Em).
  apply clamp_mul_leq; try assumption; try (apply pre_normal; assumption).
  pose proof rows_screen_true as H.
  row H f Hf. row H (playstyle input) (all_playstyles_In (playstyle input)).
  row H (pingLevel input) (all_pings_In (pingLevel input)).
  row H (getRefreshRateModifier (refreshRate input))
        (refresh_modifiers_In (refreshRate input)).
  row H (getScreenSizeModifier s1, getScreenSizeModifier s2)
        (getScreenSizeModifier_antitone s1 s2 Hs).
  exact H.
Qed.

Lemma result_antitone_in_screenSize_witness :
  wf_dpi (dpi input_android) /\ le (lit 55 10) (lit 65 10) = true /\
  result_le (calculateSensitivity (withScreenSize input_android (lit 65 10)))
            (calculateSensitivity (withScreenSize input_android (lit 55 10))).
Proof.
  assert (H1 : wf_dpi (dpi input_android)) by (vm_compute; reflexivity).
  assert (H2 : le (lit 55 10) (lit 65 10) = true) by (vm_compute; reflexivity).
  split; [exact H1 | split; [exact H2 | ]].
  exact (result_antitone_in_screenSize input_android (lit 55 10) (lit 65 10) H1 H2).
Defined.

(** X3: every channel grows with the refresh rate. *)
Theorem result_monotone_in_refreshRate (input : CalculationInput) (r1 r2 : number) :
  wf_dpi (dpi input) ->
  le r1 r2 = true ->
  result_le (calculateSensitivity (withRefreshRate input r1))
            (calculateSensitivity (withRefreshRate input r2)).
Proof.
  intros Hwf Hr. unfold calculateSensitivity.
  apply result_le_channels. intros f Hf.
  rewrite !computed_field by assumption.
  cbn [withRefreshRate platform playstyle pingLevel screenSize refreshRate dpi useCustomDpi].
  destruct (platformModifierOf_normal (platform input) (dpi input)
              (useCustomDpi input) Hwf) as (Nm & Em).
  apply clamp_mul_leq; try assumption; try (apply pre_normal; assumption).
  pose proof rows_refresh_true as H.
  row H f Hf. row H (playstyle input) (all_playstyles_In (playstyle input)).
  row H (pingLevel input) (all_pings_In (pingLevel input)).
  row H (getScreenSizeModifier (screenSize input))
        (screen_modifiers_In (screenSize input)).
  row H (getRefreshRateModifier r1, getRefreshRateModifier r2)
        (getRefreshRateModifier_monotone r1 r2 Hr).
  exact H.
Qed.

Lemma result_monotone_in_refreshRate_witness :
  wf_dpi (dpi input_android) /\ le (of_Z 60) (of_Z 120) = true /\
  result_le (calculateSensitivity (withRefreshRate input_android (of_Z 60)))
            (calculateSensitivity (withRefreshRate input_android (of_Z 120))).
Proof.
  assert (H1 : wf_dpi (dpi input_android)) by (vm_compute; reflexivity).
  assert (H2 : le (of_Z 60) (of_Z 120) = true) by (vm_compute; reflexivity).
  split; [exact H1 | split; [exact H2 | ]].
  exact (result_monotone_in_refreshRate input_android (of_Z 60) (of_Z 120) H1 H2).
Defined.

Lemma ints_in_order_le (t1 t2 : Ints) (f : SensitivityResult -> number)
    (a b : Z) :
  -3 <= a <= 200 -> -3 <= b <= 200 ->
  f (to_result t1) = of_Z a -> f (to_result t2) = of_Z b ->
  ints_in_order (f (to_result t1)) (f (to_result t2)) -> a <= b.
Proof.
  intros Ha Hb Ea Eb (x & y & Ex & Ey & Hxy & Hy).
  rewrite Ea in Ex. rewrite Eb in Ey.
  apply of_Z_small_inj in Ex, Ey; lia.
Qed.

(** X4: general, redDot, scope2x and freeLook do not grow along the
    playstyles from freestyle to sniper. *)
Theorem result_antitone_in_playstyle (input : CalculationInput) (p1 p2 : Playstyle) :
  wf_dpi (dpi input) ->
  (playstyle_rank p1 <= playstyle_rank p2)%nat ->
  let r1 := calculateSensitivity (withPlaystyle input p1) in
  let r2 := calculateSensitivity (withPlaystyle input p2) in
  le (general r2) (general r1) = true /\ le (redDot r2) (redDot r1) = true /\
  le (scope2x r2) (scope2x r1) = true /\ le (freeLook r2) (freeLook r1) = true.
Proof.
  intros Hwf Hp. cbv zeta.
  destruct (platformModifierOf_normal (platform input) (dpi input)
              (useCustomDpi input) Hwf) as (Nm & Em).
  assert (Hch : forall f, In f [general; redDot; scope2x; freeLook] ->
            ints_in_order (f (computed (withPlaystyle input p2)))
                          (f (computed (withPlaystyle input p1)))).
  { intros f Hf.
    assert (Hf' : In f fields) by (cbn in *; tauto).
    rewrite !computed_field by assumption.
    cbn [withPlaystyle platform playstyle pingLevel screenSize refreshRate dpi
         useCustomDpi].
    apply clamp_mul_leq; try assumption; try (apply pre_normal; assumption).
    pose proof rows_playstyle_true as H.
    row H f Hf. row H (p1, p2) (playstyle_rank_pairs p1 p2 Hp).
    row H (pingLevel input) (all_pings_In (pingLevel input)).
    row H (getScreenSizeModifier (screenSize input))
          (screen_modifiers_In (screenSize input)).
    row H (getRefreshRateModifier (refreshRate input))
          (refresh_modifiers_In (refreshRate input)).
    exact H. }
  destruct (calculateSensitivity_int (withPlaystyle input p1)) as (t1 & R1 & C1 & ->).
  destruct (calculateSensitivity_int (withPlaystyle input p2)) as (t2 & R2 & C2 & ->).
  rewrite C1, C2 in Hch.
  pose proof (Hch general ltac:(cbn; tauto)) as Hg.
  pose proof (Hch redDot ltac:(cbn; tauto)) as Hr.
  pose proof (Hch scope2x ltac:(cbn; tauto)) as Hs.
  pose proof (Hch freeLook ltac:(cbn; tauto)) as Hf.
  destruct t1 as [g1 r1 a1 b1 c1 f1], t2 as [g2 r2 a2 b2 c2 f2].
  unfold in_range in R1, R2.
  cbn [i_general i_redDot i_scope2x i_scope4x i_awmScope i_freeLook] in R1, R2.
  apply (ints_in_order_le _ _ general g2 g1) in Hg; try lia; try reflexivity.
  apply (ints_in_order_le _ _ redDot r2 r1) in Hr; try lia; try reflexivity.
  apply (ints_in_order_le _ _ scope2x a2 a1) in Hs; try lia; try reflexivity.
  apply (ints_in_order_le _ _ freeLook f2 f1) in Hf; try lia; try reflexivity.
  unfold to_result, finalClampZ, repairZ.
  cbn [general redDot scope2x scope4x awmScope freeLook
       i_general i_redDot i_scope2x i_scope4x i_awmScope i_freeLook].
  set (r1' := if g1 <=? r1 then g1 - 1 else r1).
  set (r2' := if g2 <=? r2 then g2 - 1 else r2).
  assert (Hr' : r2' <= r1' /\ 0 <= r1' <= 200 /\ 0 <= r2' <= 200).
  { unfold r1', r2'. destruct (Z.leb_spec g1 r1), (Z.leb_spec g2 r2); lia. }
  clearbody r1' r2'.
  set (a1' := if r1' <=? a1 then r1' - 1 else a1).
  set (a2' := if r2' <=? a2 then r2' - 1 else a2).
  assert (Ha' : a2' <= a1').
  { unfold a1', a2'. destruct (Z.leb_spec r1' a1), (Z.leb_spec r2' a2); lia. }
  clearbody a1' a2'.
  set (f1' := if g1 <? f1 then g1 else f1).
  set (f2' := if g2 <? f2 then g2 else f2).
  assert (Hf' : f2' <= f1').
  { unfold f1', f2'. destruct (Z.ltb_spec g1 f1), (Z.ltb_spec g2 f2); lia. }
  clearbody f1' f2'.
  pose proof (clampZ_range g1). pose proof (clampZ_range g2).
  pose proof (clampZ_range r1'). pose proof (clampZ_range r2').
  pose proof (clampZ_range a1'). pose proof (clampZ_range a2').
  pose proof (clampZ_range f1'). pose proof (clampZ_range f2').
  rewrite !small_le by lia.
  repeat split; apply Z.leb_le, clampZ_mono; lia.
Qed.

Lemma result_antitone_in_playstyle_witness :
  wf_dpi (dpi input_android) /\
  (playstyle_rank freestyle <= playstyle_rank sniper)%nat /\
  le (general (calculateSensitivity (withPlaystyle input_android sniper)))
     (general (calculateSensitivity (withPlaystyle input_android freestyle)))
  = true.
Proof.
  assert (H1 : wf_dpi (dpi input_android)) by (vm_compute; reflexivity).
  assert (H2 : (playstyle_rank freestyle <= playstyle_rank sniper)%nat)
    by (cbn; lia).
  split; [exact H1 | split; [exact H2 | ]].
  exact (proj1 (result_antitone_in_playstyle input_android freestyle sniper H1 H2)).
Defined.

(** The scope4x channel does not follow that order: its modifier is 1.02
    for rusher and 1.03 for balanced. *)
Example scope4x_rusher_below_balanced :
  let input := mkInput unknown balanced medium (lit 65 10) (of_Z 90) None false in
  scope4x (calculateSensitivity (withPlaystyle input rusher)) = of_Z 133 /\
  scope4x (calculateSensitivity (withPlaystyle input balanced)) = of_Z 134.
Proof. vm_compute. split; reflexivity. Qed.

(** X5: for the playstyles rusher, balanced, onetap and sniper the freeLook
    value is the general value. *)
Theorem freeLook_is_general (input : CalculationInput) :
  wf_dpi (dpi input) ->
  In (playstyle input) [rusher; balanced; onetap; sniper] ->
  freeLook (calculateSensitivity input) = general (calculateSensitivity input).
Proof.
  intros Hwf Hp.
  destruct (platformModifierOf_normal (platform input) (dpi input)
              (useCustomDpi input) Hwf) as (Nm & Em).
  assert (Hch : ints_in_order (general (computed input)) (freeLook (computed input))).
  { rewrite !computed_field by (cbn; tauto).
    apply clamp_mul_leq; try assumption; try (apply pre_normal; cbn; tauto).
    pose proof rows_freeLook_true as H.
    row H (playstyle input) Hp.
    row H (pingLevel input) (all_pings_In (pingLevel input)).
    row H (getScreenSizeModifier (screenSize input))
          (screen_modifiers_In (screenSize input)).
    row H (getRefreshRateModifier (refreshRate input))
          (refresh_modifiers_In (refreshRate input)).
    exact H. }
  destruct (calculateSensitivity_int input) as (t & R & C & ->).
  rewrite C in Hch. destruct Hch as (a & b & Ea & Eb & Hab & Hb).
  destruct t as [g r s2 s4 aw f]. unfold in_range in R.
  cbn [to_result general freeLook
       i_general i_redDot i_scope2x i_scope4x i_awmScope i_freeLook] in *.
  apply of_Z_small_inj in Ea, Eb; try lia. subst a b.
  unfold finalClampZ, repairZ.
  cbn [i_general i_redDot i_scope2x i_scope4x i_awmScope i_freeLook].
  f_equal. destruct (Z.ltb_spec g f); [reflexivity | f_equal; lia].
Qed.

Lemma freeLook_is_general_witness :
  wf_dpi (dpi input_android) /\
  In (playstyle input_android) [rusher; balanced; onetap; sniper] /\
  freeLook (calculateSensitivity input_android)
  = general (calculateSensitivity input_android).
Proof.
  assert (H1 : wf_dpi (dpi input_android)) by (vm_compute; reflexivity).
  assert (H2 : In (playstyle input_android) [rusher; balanced; onetap; sniper])
    by (right; right; right; left; reflexivity).
  split; [exact H1 | split; [exact H2 | ]].
  exact (freeLook_is_general input_android H1 H2).
Defined.

(** For a well-formed dpi no channel comes near the floor, and the scope
    channels go strictly down. *)
Lemma calculateSensitivity_descending (input : CalculationInput) :
  wf_dpi (dpi input) ->
  let r := calculateSensitivity input in
  gt (general r) (redDot r) = true /\ gt (redDot r) (scope2x r) = true /\
  gt (scope2x r) (scope4x r) = true /\ gt (scope4x r) (awmScope r) = true /\
  int_in 12 200 (awmScope r) /\ int_in 16 200 (freeLook r).
Proof.
  intros Hwf. cbv zeta.
  destruct (platformModifierOf_normal (platform input) (dpi input)
              (useCustomDpi input) Hwf) as (Nm & Em).
  assert (Hch : forall f, In f fields ->
            exists a, f (computed input) = of_Z a /\ 16 <= a <= 200).
  { intros f Hf. rewrite computed_field by assumption.
    apply clamp_mul_lower_16; try assumption. apply pre_normal; assumption. }
  destruct (calculateSensitivity_int input) as (t & R & C & ->).
  rewrite C in Hch.
  destruct (Hch general) as (g' & Eg & Hg); [cbn; tauto | ].
  destruct (Hch redDot) as (r' & Er & Hr); [cbn; tauto | ].
  destruct (Hch scope2x) as (a' & Ea & Ha); [cbn; tauto | ].
  destruct (Hch scope4x) as (b' & Eb & Hb); [cbn; tauto | ].
  destruct (Hch awmScope) as (c' & Ec & Hc); [cbn; tauto | ].
  destruct (Hch freeLook) as (f' & Ef & Hf); [cbn; tauto | ].
  destruct t as [g r a b c f]. unfold in_range in R.
  cbn [to_result general redDot scope2x scope4x awmScope freeLook
       i_general i_redDot i_scope2x i_scope4x i_awmScope i_freeLook] in *.
  apply of_Z_small_inj in Eg, Er, Ea, Eb, Ec, Ef; try lia. subst.
  unfold finalClampZ, repairZ, int_in.
  cbn [i_general i_redDot i_scope2x i_scope4x i_awmScope i_freeLook].
  set (r1 := if g' <=? r' then g' - 1 else r').
  assert (H1 : 15 <= r1 < g') by (unfold r1; destruct (Z.leb_spec g' r'); lia).
  clearbody r1.
  set (a1 := if r1 <=? a' then r1 - 1 else a').
  assert (H2 : 14 <= a1 < r1) by (unfold a1; destruct (Z.leb_spec r1 a'); lia).
  clearbody a1.
  set (b1 := if a1 <=? b' then a1 - 1 else b').
  assert (H3 : 13 <= b1 < a1) by (unfold b1; destruct (Z.leb_spec a1 b'); lia).
  clearbody b1.
  set (c1 := if b1 <=? c' then b1 - 1 else c').
  assert (H4 : 12 <= c1 < b1) by (unfold c1; destruct (Z.leb_spec b1 c'); lia).
  clearbody c1.
  set (f1 := if g' <? f' then g' else f').
  assert (H5 : 16 <= f1 <= 200) by (unfold f1; destruct (Z.ltb_spec g' f'); lia).
  clearbody f1.
  unfold clampZ. rewrite !Z.max_r, !Z.min_r by lia.
  rewrite !small_gt by lia.
  repeat split; try (apply Z.ltb_lt; lia).
  - exists c1. split; [lia | reflexivity].
  - exists f1. split; [lia | reflexivity].
Qed.

(** X6: for a well-formed dpi no channel comes near the floor, and the
    scope channels go strictly down. *)
Theorem strictly_descending (input : CalculationInput) :
  wf_dpi (dpi input) ->
  let r := calculateSensitivity input in
  gt (general r) (redDot r) = true /\ gt (redDot r) (scope2x r) = true /\
  gt (scope2x r) (scope4x r) = true /\ gt (scope4x r) (awmScope r) = true /\
  int_in 12 200 (awmScope r) /\ int_in 16 200 (freeLook r).
Proof. exact (calculateSensitivity_descending input). Qed.

Lemma strictly_descending_witness :
  wf_dpi (dpi input_android) /\
  gt (general (calculateSensitivity input_android))
     (redDot (calculateSensitivity input_android)) = true.
Proof.
  assert (H1 : wf_dpi (dpi input_android)) by (vm_compute; reflexivity).
  split; [exact H1 | ].
  exact (proj1 (strictly_descending input_android H1)).
Defined.

(** The ordering pass and the final clamp, applied to their own outcome,
    change nothing. *)
Lemma repairZ_shape (t : Ints) :
  in_range t ->
  exists g r1 a1 b1 c1 f1,
    repairZ t = mkInts g r1 a1 b1 c1 f1 /\
    1 <= g <= 200 /\
    (0 <= r1 < g /\ (r1 < 1 -> g = 1)) /\
    (-1 <= a1 < r1 /\ (a1 < 1 -> a1 = r1 - 1)) /\
    (-2 <= b1 < a1 /\ (b1 < 1 -> b1 = a1 - 1)) /\
    (-3 <= c1 < b1 /\ (c1 < 1 -> c1 = b1 - 1)) /\
    1 <= f1 <= g.
Proof.
  destruct t as [g r a b c f]. unfold in_range, repairZ.
  cbn [i_general i_redDot i_scope2x i_scope4x i_awmScope i_freeLook].
  intros (Hg & Hr & Ha & Hb & Hc & Hf).
  set (r1 := if g <=? r then g - 1 else r).
  assert (H1 : 0 <= r1 < g /\ (r1 < 1 -> g = 1))
    by (unfold r1; destruct (Z.leb_spec g r); lia).
  clearbody r1.
  set (a1 := if r1 <=? a then r1 - 1 else a).
  assert (H2 : -1 <= a1 < r1 /\ (a1 < 1 -> a1 = r1 - 1))
    by (unfold a1; destruct (Z.leb_spec r1 a); lia).
  clearbody a1.
  set (b1 := if a1 <=? b then a1 - 1 else b).
  assert (H3 : -2 <= b1 < a1 /\ (b1 < 1 -> b1 = a1 - 1))
    by (unfold b1; destruct (Z.leb_spec a1 b); lia).
  clearbody b1.
  set (c1 := if b1 <=? c then b1 - 1 else c).
  assert (H4 : -3 <= c1 < b1 /\ (c1 < 1 -> c1 = b1 - 1))
    by (unfold c1; destruct (Z.leb_spec b1 c); lia).
  clearbody c1.
  set (f1 := if g <? f then g else f).
  assert (H5 : 1 <= f1 <= g) by (unfold f1; destruct (Z.ltb_spec g f); lia).
  clearbody f1.
  exists g, r1, a1, b1, c1, f1. repeat split; (reflexivity || lia).
Qed.

Lemma finalClampZ_repairZ_idempotent (t : Ints) :
  in_range t ->
  finalClampZ (repairZ (finalClampZ (repairZ t))) = finalClampZ (repairZ t).
Proof.
  intros R.
  destruct (repairZ_shape t R)
    as (g & r1 & a1 & b1 & c1 & f1 & -> & Hg & H1 & H2 & H3 & H4 & H5).
  unfold repairZ, finalClampZ, clampZ.
  cbn [i_general i_redDot i_scope2x i_scope4x i_awmScope i_freeLook].
  replace (Z.min 200 (Z.max 1 g)) with g by lia.
  set (r' := Z.min 200 (Z.max 1 r1)).
  set (r2 := if g <=? r' then g - 1 else r').
  assert (E1 : r2 = r1)
    by (unfold r2, r'; destruct (Z.leb_spec g (Z.min 200 (Z.max 1 r1))); lia).
  clearbody r2. subst r2.
  set (a' := Z.min 200 (Z.max 1 a1)).
  set (a2 := if r1 <=? a' then r1 - 1 else a').
  assert (E2 : a2 = a1)
    by (unfold a2, a'; destruct (Z.leb_spec r1 (Z.min 200 (Z.max 1 a1))); lia).
  clearbody a2. subst a2.
  set (b' := Z.min 200 (Z.max 1 b1)).
  set (b2 := if a1 <=? b' then a1 - 1 else b').
  assert (E3 : b2 = b1)
    by (unfold b2, b'; destruct (Z.leb_spec a1 (Z.min 200 (Z.max 1 b1))); lia).
  clearbody b2. subst b2.
  set (c' := Z.min 200 (Z.max 1 c1)).
  set (c2 := if b1 <=? c' then b1 - 1 else c').
  assert (E4 : c2 = c1)
    by (unfold c2, c'; destruct (Z.leb_spec b1 (Z.min 200 (Z.max 1 c1))); lia).
  clearbody c2. subst c2.
  set (f' := Z.min 200 (Z.max 1 f1)).
  set (f2 := if g <? f' then g else f').
  assert (E5 : f2 = f1)
    by (unfold f2, f'; destruct (Z.ltb_spec g (Z.min 200 (Z.max 1 f1))); lia).
  clearbody f2. subst f2.
  unfold r', a', b', c', f'. f_equal; lia.
Qed.

(** X7: the ordering pass and the final clamp leave every result as it
    is. *)
Theorem result_is_stable (input : CalculationInput) :
  finalClamp (repair (calculateSensitivity input)) = calculateSensitivity input.
Proof.
  destruct (calculateSensitivity_int input) as (t & R & _ & ->).
  rewrite finish_to_result by apply finalClampZ_in_range.
  rewrite finalClampZ_repairZ_idempotent by exact R. reflexivity.
Qed.

(** *** Rounding to nearest is monotone *)

Lemma rne_of_inv (N P : Z) (mrs : shr_record) :
  0 < P -> shr_inv N P mrs ->
  round_nearest_even (shr_m mrs) (loc_of_shr_record mrs) = rne N P.
Proof.
  intros HP [Hm (u & Hu & Hub & Hs)]. unfold rne.
  destruct mrs as [m r s]. cbn [shr_m shr_r shr_s] in *. subst m.
  destruct Hs as [Hs1 Hs2].
  destruct r, s; cbn [loc_of_shr_record round_nearest_even];
    destruct (Z.compare_spec (2 * (N mod P)) P);
    try reflexivity; try lia; exfalso;
    first [ discriminate (Hs2 ltac:(lia)) | specialize (Hs1 eq_refl); lia ].
Qed.

Lemma rne_mono (N N' P : Z) :
  0 < P -> 0 <= N <= N' -> rne N P <= rne N' P.
Proof.
  intros HP HN. unfold rne.
  pose proof (Z.div_mod N P ltac:(lia)) as D1.
  pose proof (Z.div_mod N' P ltac:(lia)) as D2.
  pose proof (Z.mod_pos_bound N P HP) as B1.
  pose proof (Z.mod_pos_bound N' P HP) as B2.
  assert (Hq : N / P <= N' / P) by (apply Z.div_le_mono; lia).
  set (q := N / P) in *. set (q' := N' / P) in *.
  set (r := N mod P) in *. set (r' := N' mod P) in *.
  assert (Hc : q < q' \/ (q = q' /\ r <= r')) by nia.
  clearbody q q' r r'.
  destruct (Z.compare_spec (2 * r) P), (Z.compare_spec (2 * r') P);
    destruct (Z.even q) eqn:Eq1; destruct (Z.even q') eqn:Eq2;
    try lia;
    destruct Hc as [Hc | [Hc Hr]]; try lia; subst q'; congruence.
Qed.

Lemma rne_scale (N P k : Z) :
  0 < P -> 0 < k -> rne (N * k) (P * k) = rne N P.
Proof.
  intros HP Hk. unfold rne.
  rewrite Z.div_mul_cancel_r by lia.
  rewrite Z.mul_mod_distr_r by lia.
  replace (2 * (N mod P * k)) with (2 * (N mod P) * k) by ring.
  rewrite <- Zmult_compare_compat_r by lia. reflexivity.
Qed.

Lemma rne_range (N P : Z) : 0 < P -> N / P <= rne N P <= N / P + 1.
Proof.
  intros HP. unfold rne.
  destruct (2 * (N mod P) ?= P); try destruct (Z.even (N / P)); lia.
Qed.

Lemma shr_inv_iter_from (N P : Z) (mrs : shr_record) (k : nat) :
  0 <= N -> 0 < P -> shr_inv N P mrs ->
  shr_inv N (P * 2 ^ Z.of_nat k) (Nat.iter k shr_1 mrs).
Proof.
  intros HN HP H. induction k as [ | k IH].
  - cbn. now rewrite Z.mul_1_r.
  - rewrite Nat2Z.inj_succ, Z.pow_succ_r by lia.
    change (Nat.iter (S k) shr_1 mrs) with (shr_1 (Nat.iter k shr_1 mrs)).
    replace (P * (2 * 2 ^ Z.of_nat k)) with (P * 2 ^ Z.of_nat k * 2) by ring.
    apply shr_inv_step; [assumption | | assumption].
    apply Z.mul_pos_pos; [assumption | apply Z.pow_pos_nonneg; lia].
Qed.

(** The record that starts the rounding of a quotient. *)
Lemma shr_inv_new_location (N D : Z) :
  0 <= N -> 0 < D ->
  shr_inv N D (shr_record_of_loc (N / D) (new_location D (N mod D))).
Proof.
  intros HN HD. pose proof (Z.mod_pos_bound N D HD) as B.
  set (r := N mod D) in *.
  assert (Hloc : new_location D r =
                 if r =? 0 then loc_Exact else loc_Inexact (2 * r ?= D)).
  { unfold new_location, new_location_even, new_location_odd.
    destruct (Z.even D) eqn:Ev; [reflexivity | ].
    destruct (Z.eqb_spec r 0); [reflexivity | ]. f_equal.
    assert (Hodd : Z.odd D = true) by (rewrite <- Z.negb_even, Ev; reflexivity).
    apply Z.odd_spec in Hodd. destruct Hodd as [j Hj].
    destruct (Z.compare_spec (2 * r + 1) D), (Z.compare_spec (2 * r) D);
      try lia; reflexivity. }
  rewrite Hloc. unfold shr_inv.
  destruct (Z.eqb_spec r 0) as [E0 | N0].
  - cbn [shr_record_of_loc shr_m shr_r shr_s]. split; [reflexivity | ].
    exists 0. fold r. rewrite E0. split; [reflexivity | ]. split; [lia | tauto].
  - destruct (Z.compare_spec (2 * r) D);
      cbn [shr_record_of_loc shr_m shr_r shr_s]; (split; [reflexivity | ]); fold r.
    + exists 0. split; [lia | ]. split; [lia | tauto].
    + exists (2 * r). split; [lia | ]. split; [lia | ].
      split; [discriminate | lia].
    + exists (2 * r - D). split; [lia | ]. split; [lia | ].
      split; [discriminate | lia].
Qed.

(** The mantissa after rounding, for a quotient of at least 53 digits. *)
Lemma rounded_quotient (N D : Z) (q : positive) :
  0 <= N -> 0 < D -> N / D = Zpos q -> 53 <= Zpos (digits2_pos q) ->
  rounded q (new_location D (N mod D))
  = rne N (D * 2 ^ (Zpos (digits2_pos q) - 53)).
Proof.
  intros HN HD Hq Hd. unfold rounded, shifted.
  pose proof (shr_inv_new_location N D HN HD) as H0. rewrite Hq in H0.
  pose proof (shr_inv_iter_from N D _ (Z.to_nat (Zpos (digits2_pos q) - 53))
                HN HD H0) as H1.
  rewrite Z2Nat.id in H1 by lia.
  apply rne_of_inv; [ | exact H1].
  apply Z.mul_pos_pos; [assumption | apply Z.pow_pos_nonneg; lia].
Qed.

Lemma rounded_exact (M : positive) :
  53 <= Zpos (digits2_pos M) ->
  rounded M loc_Exact = rne (Zpos M) (2 ^ (Zpos (digits2_pos M) - 53)).
Proof.
  intros Hd. unfold rounded, shifted. cbn [shr_record_of_loc].
  pose proof (shr_inv_iter (Zpos M) (Z.to_nat (Zpos (digits2_pos M) - 53))
                ltac:(lia)) as H.
  rewrite Z2Nat.id in H by lia.
  apply rne_of_inv; [apply Z.pow_pos_nonneg; lia | exact H].
Qed.

Lemma round_result_le (m1 e m1' e' : Z) :
  2 ^ 52 <= m1 <= 2 ^ 53 -> 2 ^ 52 <= m1' <= 2 ^ 53 ->
  e <= e' -> (e = e' -> m1 <= m1') ->
  SFleb (round_result false m1 e) (round_result false m1' e') = true.
Proof.
  intros H1 H2 He Hm. unfold round_result.
  assert (C : forall a b x y, 0 < a -> 0 < b -> x <= y -> (x = y -> a <= b) ->
            SFleb (S754_finite false (Z.to_pos a) x)
                  (S754_finite false (Z.to_pos b) y) = true).
  { intros a b x y Ha Hb Hxy Hab. unfold SFleb. cbn [SFcompare].
    destruct (Z.compare_spec x y); try lia; try reflexivity.
    change (Pos.compare_cont Eq (Z.to_pos a) (Z.to_pos b))
      with (Pos.compare (Z.to_pos a) (Z.to_pos b)).
    destruct (Pos.compare_spec (Z.to_pos a) (Z.to_pos b)); try reflexivity.
    specialize (Hab H). lia. }
  destruct (Z.ltb_spec m1 (2 ^ 53)), (Z.ltb_spec m1' (2 ^ 53));
    repeat match goal with
           | |- context [?a <=? 971] => destruct (Z.leb_spec a 971)
           end;
    try reflexivity; try lia; apply C; lia.
Qed.

Lemma Zdigits2_bounds (z : Z) :
  0 < z -> 2 ^ (Zdigits2 z - 1) <= z < 2 ^ Zdigits2 z.
Proof.
  destruct z as [ | q | q ]; try lia. intros _. apply digits2_pos_bounds.
Qed.

Lemma Zdigits2_pos (z : Z) : 0 < z -> 0 < Zdigits2 z.
Proof. destruct z as [ | q | q ]; cbn; lia. Qed.

Lemma pow2_shift (X Y u u' a b : Z) :
  0 <= u -> 0 <= u' -> 0 <= a -> 0 <= b -> u - u' = a - b ->
  X * 2 ^ u <= Y * 2 ^ u' -> X * 2 ^ a <= Y * 2 ^ b.
Proof.
  intros Hu Hu' Ha Hb E H.
  destruct (Z.le_ge_cases a u) as [L | L].
  - assert (E1 : 2 ^ u = 2 ^ a * 2 ^ (u - a))
      by (rewrite <- Z.pow_add_r by lia; f_equal; lia).
    assert (E2 : 2 ^ u' = 2 ^ b * 2 ^ (u - a))
      by (rewrite <- Z.pow_add_r by lia; f_equal; lia).
    assert (T : 0 < 2 ^ (u - a)) by (apply Z.pow_pos_nonneg; lia).
    rewrite E1, E2 in H. nia.
  - assert (E1 : 2 ^ a = 2 ^ u * 2 ^ (a - u))
      by (rewrite <- Z.pow_add_r by lia; f_equal; lia).
    assert (E2 : 2 ^ b = 2 ^ u' * 2 ^ (a - u))
      by (rewrite <- Z.pow_add_r by lia; f_equal; lia).
    assert (T : 0 < 2 ^ (a - u)) by (apply Z.pow_pos_nonneg; lia).
    rewrite E1, E2. nia.
Qed.

Lemma rne_normal (N D : Z) :
  0 <= N -> 0 < D -> 53 <= Zdigits2 (N / D) ->
  2 ^ 52 <= rne N (D * 2 ^ (Zdigits2 (N / D) - 53)) <= 2 ^ 53.
Proof.
  intros HN HD Hd.
  assert (Hq : 0 < N / D).
  { pose proof (Z.div_pos N D HN HD). destruct (N / D); cbn in Hd; lia. }
  pose proof (Zdigits2_bounds _ Hq) as [Blo Bhi].
  set (d := Zdigits2 (N / D)) in *.
  assert (HP : 0 < 2 ^ (d - 53)) by (apply Z.pow_pos_nonneg; lia).
  pose proof (rne_range N (D * 2 ^ (d - 53)) ltac:(nia)) as R.
  rewrite <- Z.div_div in R by lia.
  assert (E1 : 2 ^ (d - 1) = 2 ^ 52 * 2 ^ (d - 53))
    by (rewrite <- Z.pow_add_r by lia; f_equal; lia).
  assert (E2 : 2 ^ d = 2 ^ 53 * 2 ^ (d - 53))
    by (rewrite <- Z.pow_add_r by lia; f_equal; lia).
  assert (2 ^ 52 <= N / D / 2 ^ (d - 53)) by (apply Z.div_le_lower_bound; lia).
  assert (N / D / 2 ^ (d - 53) < 2 ^ 53) by (apply Z.div_lt_upper_bound; lia).
  lia.
Qed.

(** Correct rounding is monotone. *)
Lemma rnd_mono (N D E N' D' E' c : Z) :
  0 <= N -> 0 < D -> 0 <= N' -> 0 < D' ->
  53 <= Zdigits2 (N / D) -> 53 <= Zdigits2 (N' / D') ->
  c <= E -> c <= E' ->
  N * D' * 2 ^ (E - c) <= N' * D * 2 ^ (E' - c) ->
  SFleb (rnd N D E) (rnd N' D' E') = true.
Proof.
  intros HN HD HN' HD' Hd Hd' Hc Hc' Hval. unfold rnd.
  pose proof (rne_normal N D HN HD Hd) as R.
  pose proof (rne_normal N' D' HN' HD' Hd') as R'.
  assert (Hq : 0 < N / D).
  { pose proof (Z.div_pos N D HN HD). destruct (N / D); cbn in Hd; lia. }
  assert (Hq' : 0 < N' / D').
  { pose proof (Z.div_pos N' D' HN' HD'). destruct (N' / D'); cbn in Hd'; lia. }
  pose proof (Zdigits2_bounds _ Hq) as [Blo Bhi].
  pose proof (Zdigits2_bounds _ Hq') as [Blo' Bhi'].
  set (d := Zdigits2 (N / D)) in *. set (d' := Zdigits2 (N' / D')) in *.
  pose proof (Z.div_mod N D ltac:(lia)) as DM.
  pose proof (Z.mod_pos_bound N D HD) as MB.
  pose proof (Z.div_mod N' D' ltac:(lia)) as DM'.
  pose proof (Z.mod_pos_bound N' D' HD') as MB'.
  assert (P1 : 0 < 2 ^ (d - 1)) by (apply Z.pow_pos_nonneg; lia).
  assert (P2 : 0 < 2 ^ d') by (apply Z.pow_pos_nonneg; lia).
  assert (NL : D * 2 ^ (d - 1) <= N) by nia.
  assert (NU : N' < D' * 2 ^ d') by nia.
  set (u := E - c) in *. set (u' := E' - c) in *.
  assert (Hu : 0 <= u) by (unfold u; lia).
  assert (Hu' : 0 <= u') by (unfold u'; lia).
  assert (Hle : u + d <= u' + d').
  { destruct (Z.le_gt_cases (u + d) (u' + d')) as [L | G]; [exact L | exfalso].
    assert (T1 : 2 ^ (d - 1) * 2 ^ u = 2 ^ (u + d - 1))
      by (rewrite <- Z.pow_add_r by lia; f_equal; lia).
    assert (T2 : 2 ^ d' * 2 ^ u' = 2 ^ (u' + d'))
      by (rewrite <- Z.pow_add_r by lia; f_equal; lia).
    assert (T3 : 2 ^ (u' + d') <= 2 ^ (u + d - 1))
      by (apply Z.pow_le_mono_r; lia).
    assert (T4 : 0 < 2 ^ u) by (apply Z.pow_pos_nonneg; lia).
    assert (T5 : 0 < 2 ^ u') by (apply Z.pow_pos_nonneg; lia).
    assert (A1 : D * D' * 2 ^ (u + d - 1) <= N * D' * 2 ^ u).
    { rewrite <- T1. nia. }
    assert (A2 : N' * D * 2 ^ u' < D * D' * 2 ^ (u' + d')).
    { rewrite <- T2. nia. }
    assert (A3 : D * D' * 2 ^ (u' + d') <= D * D' * 2 ^ (u + d - 1)) by nia.
    lia. }
  apply round_result_le; try assumption.
  - unfold u, u' in Hle. lia.
  - intros He.
    assert (Hp : u - u' = (d' - 53) - (d - 53)) by (unfold u, u'; lia).
    pose proof (pow2_shift (N * D') (N' * D) u u' (d' - 53) (d - 53)
                  Hu Hu' ltac:(lia) ltac:(lia) Hp Hval) as Hnum.
    assert (Q : 0 < 2 ^ (d - 53)) by (apply Z.pow_pos_nonneg; lia).
    assert (Q' : 0 < 2 ^ (d' - 53)) by (apply Z.pow_pos_nonneg; lia).
    rewrite <- (rne_scale N (D * 2 ^ (d - 53)) (D' * 2 ^ (d' - 53))) by nia.
    rewrite <- (rne_scale N' (D' * 2 ^ (d' - 53)) (D * 2 ^ (d - 53))) by nia.
    replace (D' * 2 ^ (d' - 53) * (D * 2 ^ (d - 53)))
      with (D * 2 ^ (d - 53) * (D' * 2 ^ (d' - 53))) by ring.
    apply rne_mono; nia.
Qed.

(** *** Products and quotients as correctly rounded values *)

Lemma mul_as_rnd (x y : number) :
  normal x -> normal y -> -1074 <= exponent x + exponent y + 52 ->
  mul x y = rnd (mantissa x * mantissa y) 1 (exponent x + exponent y).
Proof.
  destruct x as [ | | | [ | ] mx ex ]; try contradiction.
  destruct y as [ | | | [ | ] my ey ]; try contradiction.
  cbn [normal exponent mantissa]. intros Hx Hy Hlo.
  unfold mul, SFmul. cbn [xorb]. unfold rnd.
  rewrite <- Pos2Z.inj_mul, Z.div_1_r, Z.mul_1_l. cbn [Zdigits2].
  set (M := (mx * my)%positive).
  assert (HM : 2 ^ 104 <= Zpos M).
  { unfold M. rewrite Pos2Z.inj_mul. change (2 ^ 104) with (2 ^ 52 * 2 ^ 52). nia. }
  assert (Hd : 104 < Zpos (digits2_pos M)).
  { pose proof (digits2_pos_bounds M) as [_ B].
    apply (Z.pow_lt_mono_r_iff 2); lia. }
  rewrite binary_round_aux_normal by lia.
  rewrite rounded_exact by lia. reflexivity.
Qed.

Lemma div_core_exact (m1 m2 : positive) (e1 e2 : Z) :
  Zpos (digits2_pos m1) = 53 ->
  -1074 <= e1 - e2 - Zpos (digits2_pos m2) ->
  let N := Zpos m1 * 2 ^ Zpos (digits2_pos m2) in
  SFdiv_core_binary 53 1024 (Zpos m1) e1 (Zpos m2) e2
  = (N / Zpos m2, e1 - e2 - Zpos (digits2_pos m2),
     new_location (Zpos m2) (N mod Zpos m2)) /\
  2 ^ 52 <= N / Zpos m2 < 2 ^ 54.
Proof.
  intros H1 Hlo N. unfold SFdiv_core_binary. cbn [Zdigits2]. rewrite H1.
  set (d2 := Zpos (digits2_pos m2)) in *.
  unfold fexp, emin.
  rewrite Z.max_l by lia. rewrite Z.min_l by lia.
  replace (e1 - e2 - (53 + e1 - (d2 + e2) - 53)) with d2 by lia.
  unfold d2 at 1. rewrite Z.shiftl_mul_pow2 by lia. fold d2. fold N.
  pose proof (digits2_pos_bounds m1) as B1. rewrite H1 in B1.
  change (2 ^ (53 - 1)) with (2 ^ 52) in B1.
  pose proof (digits2_pos_bounds m2) as B2. fold d2 in B2.
  assert (Hd2 : 0 < d2) by (unfold d2; lia).
  assert (E2 : 2 ^ d2 = 2 * 2 ^ (d2 - 1)).
  { rewrite <- Z.pow_succ_r by lia. f_equal. lia. }
  assert (HP : 0 < 2 ^ (d2 - 1)) by (apply Z.pow_pos_nonneg; lia).
  split.
  - unfold Z.div, Z.modulo. destruct (Z.div_eucl N (Zpos m2)) as [q r].
    f_equal. f_equal. lia.
  - split.
    + apply Z.div_le_lower_bound; [lia | ]. unfold N. nia.
    + apply Z.div_lt_upper_bound; [lia | ]. unfold N. nia.
Qed.

Lemma div_n420_as_rnd (m : positive) (e : Z) :
  valid_binary 53 1024 (S754_finite false m e) = true ->
  div n420 (S754_finite false m e)
  = rnd (7388718138654720 * 2 ^ Zpos (digits2_pos m)) (Zpos m)
        (-44 - e - Zpos (digits2_pos m)).
Proof.
  intros Hv. apply valid_binary_bounds in Hv.
  unfold div, n420, SFdiv. cbn [xorb].
  destruct (div_core_exact 7388718138654720 m (-44) e eq_refl ltac:(lia))
    as (Ec & Hq).
  cbv zeta in Ec, Hq. rewrite Ec. unfold rnd.
  set (N := 7388718138654720 * 2 ^ Zpos (digits2_pos m)) in *.
  assert (HN : 0 <= N).
  { unfold N. apply Z.mul_nonneg_nonneg; [lia | apply Z.pow_nonneg; lia]. }
  destruct (N / Zpos m) as [ | q | q ] eqn:Eq; try lia.
  assert (Hd : 53 <= Zpos (digits2_pos q)).
  { pose proof (digits2_pos_bounds q) as [_ Hhi].
    assert (52 < Zpos (digits2_pos q)); [ | lia].
    apply (Z.pow_lt_mono_r_iff 2); lia. }
  rewrite binary_round_aux_normal by lia.
  rewrite (rounded_quotient N (Zpos m) q) by (assumption || lia).
  cbn [Zdigits2]. f_equal; lia.
Qed.

(** *** The order of numbers is the order of values *)

Lemma SFleb_scaled (mx my : positive) (ex ey c : Z) :
  Zpos mx < 2 ^ 53 -> (ex < ey -> 2 ^ 52 <= Zpos my) ->
  c <= ex -> c <= ey ->
  SFleb (S754_finite false mx ex) (S754_finite false my ey) = true ->
  Zpos mx * 2 ^ (ex - c) <= Zpos my * 2 ^ (ey - c).
Proof.
  intros Hx Hy Hcx Hcy. unfold SFleb. cbn [SFcompare].
  change (Pos.compare_cont Eq mx my) with (Pos.compare mx my).
  destruct (Z.compare_spec ex ey) as [E | L | G]; try discriminate.
  - subst ey. intros H.
    assert (T : 0 < 2 ^ (ex - c)) by (apply Z.pow_pos_nonneg; lia).
    destruct (Pos.compare_spec mx my); try discriminate; nia.
  - intros _. specialize (Hy L).
    assert (T : 0 < 2 ^ (ex - c)) by (apply Z.pow_pos_nonneg; lia).
    assert (E1 : 2 ^ (ey - c) = 2 ^ (ex - c) * 2 ^ (ey - ex))
      by (rewrite <- Z.pow_add_r by lia; f_equal; lia).
    assert (E2 : 2 <= 2 ^ (ey - ex)).
    { change 2 with (2 ^ 1) at 1. apply Z.pow_le_mono_r; lia. }
    rewrite E1. change (2 ^ 53) with (2 * 2 ^ 52) in Hx. nia.
Qed.

Lemma SFleb_scaled_normal (x y : number) (c : Z) :
  normal x -> normal y -> c <= exponent x -> c <= exponent y ->
  SFleb x y = true -> scaled c x <= scaled c y.
Proof.
  destruct x as [ | | | [ | ] mx ex ]; try contradiction.
  destruct y as [ | | | [ | ] my ey ]; try contradiction.
  cbn [normal exponent]. intros Hx Hy Hcx Hcy H. unfold scaled.
  cbn [mantissa exponent]. apply SFleb_scaled; (assumption || lia).
Qed.

Lemma valid_mantissa (s : bool) (m : positive) (e : Z) :
  valid_binary 53 1024 (S754_finite s m e) = true ->
  Zpos m < 2 ^ 53 /\ (-1074 < e -> 2 ^ 52 <= Zpos m).
Proof.
  cbn [valid_binary]. unfold bounded, canonical_mantissa, fexp, emin.
  rewrite andb_true_iff, Z.eqb_eq, Z.leb_le. intros [Hc He].
  pose proof (digits2_pos_bounds m) as [Blo Bhi].
  set (d := Zpos (digits2_pos m)) in *.
  split.
  - assert (2 ^ d <= 2 ^ 53) by (apply Z.pow_le_mono_r; lia). lia.
  - intros H. assert (d = 53) by lia.
    replace (d - 1) with 52 in Blo by lia. exact Blo.
Qed.

(** *** Products grow with the second factor, quotients shrink with the
    divisor *)

Lemma mul_mono_r (w m m' : number) :
  normal w -> normal m -> normal m' ->
  -1074 <= exponent w + exponent m + 52 ->
  -1074 <= exponent w + exponent m' + 52 ->
  SFleb m m' = true -> SFleb (mul w m) (mul w m') = true.
Proof.
  intros Nw Nm Nm' L L' H.
  rewrite (mul_as_rnd w m), (mul_as_rnd w m') by assumption.
  set (c := Z.min (exponent m) (exponent m')).
  pose proof (SFleb_scaled_normal m m' c Nm Nm' ltac:(lia) ltac:(lia) H) as S.
  unfold scaled in S.
  assert (Pw : 2 ^ 52 <= mantissa w < 2 ^ 53).
  { destruct w as [ | | | [ | ] mw ew ]; try contradiction. exact Nw. }
  assert (Pm : 2 ^ 52 <= mantissa m < 2 ^ 53).
  { destruct m as [ | | | [ | ] a b ]; try contradiction. exact Nm. }
  assert (Pm' : 2 ^ 52 <= mantissa m' < 2 ^ 53).
  { destruct m' as [ | | | [ | ] a b ]; try contradiction. exact Nm'. }
  assert (D : forall a b, 2 ^ 52 <= a < 2 ^ 53 -> 2 ^ 52 <= b < 2 ^ 53 ->
            104 < Zdigits2 (a * b / 1) <= 106).
  { intros a b Ha Hb. rewrite Z.div_1_r.
    assert (P : 2 ^ 104 <= a * b < 2 ^ 106).
    { change (2 ^ 104) with (2 ^ 52 * 2 ^ 52).
      change (2 ^ 106) with (2 ^ 53 * 2 ^ 53). nia. }
    pose proof (Zdigits2_bounds (a * b) ltac:(lia)) as [B1 B2].
    pose proof (Zdigits2_pos (a * b) ltac:(lia)) as B0.
    split.
    - apply (Z.pow_lt_mono_r_iff 2); lia.
    - assert (Zdigits2 (a * b) - 1 < 106); [ | lia].
      apply (Z.pow_lt_mono_r_iff 2); lia. }
  pose proof (D _ _ Pw Pm) as D1. pose proof (D _ _ Pw Pm') as D2.
  apply (rnd_mono _ _ _ _ _ _ (exponent w + c)); try lia.
  replace (exponent w + exponent m - (exponent w + c)) with (exponent m - c) by lia.
  replace (exponent w + exponent m' - (exponent w + c)) with (exponent m' - c) by lia.
  rewrite !Z.mul_1_r.
  replace (mantissa w * mantissa m * 2 ^ (exponent m - c))
    with (mantissa w * (mantissa m * 2 ^ (exponent m - c))) by ring.
  replace (mantissa w * mantissa m' * 2 ^ (exponent m' - c))
    with (mantissa w * (mantissa m' * 2 ^ (exponent m' - c))) by ring.
  apply Z.mul_le_mono_nonneg_l; lia.
Qed.

Lemma div_n420_antitone (m m' : positive) (e e' : Z) :
  valid_binary 53 1024 (S754_finite false m e) = true ->
  valid_binary 53 1024 (S754_finite false m' e') = true ->
  SFleb (S754_finite false m e) (S754_finite false m' e') = true ->
  SFleb (div n420 (S754_finite false m' e')) (div n420 (S754_finite false m e)) = true.
Proof.
  intros V V' H.
  rewrite (div_n420_as_rnd m e V), (div_n420_as_rnd m' e' V').
  pose proof (valid_mantissa _ _ _ V) as [M1 M2].
  pose proof (valid_mantissa _ _ _ V') as [M1' M2'].
  pose proof (valid_binary_bounds _ _ _ V) as [B1 B2].
  pose proof (valid_binary_bounds _ _ _ V') as [B1' B2'].
  pose proof (SFleb_scaled m m' e e' (-1074) M1 ltac:(intros; apply M2'; lia)
                ltac:(lia) ltac:(lia) H) as S.
  set (d := Zpos (digits2_pos m)) in *. set (d' := Zpos (digits2_pos m')) in *.
  assert (Hd : 0 < d) by (unfold d; lia).
  assert (Hd' : 0 < d') by (unfold d'; lia).
  destruct (div_core_exact 7388718138654720 m (-44) e eq_refl ltac:(lia))
    as (_ & Hq).
  destruct (div_core_exact 7388718138654720 m' (-44) e' eq_refl ltac:(lia))
    as (_ & Hq').
  cbv zeta in Hq, Hq'. fold d in Hq. fold d' in Hq'.
  set (N := 7388718138654720 * 2 ^ d) in *.
  set (N' := 7388718138654720 * 2 ^ d') in *.
  assert (T : 0 < 2 ^ d) by (apply Z.pow_pos_nonneg; lia).
  assert (T' : 0 < 2 ^ d') by (apply Z.pow_pos_nonneg; lia).
  assert (Dg : forall q, 2 ^ 52 <= q < 2 ^ 54 -> 53 <= Zdigits2 q <= 54).
  { intros q Hqq. pose proof (Zdigits2_bounds q ltac:(lia)) as [Q1 Q2].
    pose proof (Zdigits2_pos q ltac:(lia)) as Q0. split.
    - assert (52 < Zdigits2 q); [ | lia]. apply (Z.pow_lt_mono_r_iff 2); lia.
    - assert (Zdigits2 q - 1 < 54); [ | lia]. apply (Z.pow_lt_mono_r_iff 2); lia. }
  pose proof (Dg _ Hq) as G. pose proof (Dg _ Hq') as G'.
  assert (HN : 0 <= N) by (unfold N; lia).
  assert (HN' : 0 <= N') by (unfold N'; lia).
  apply (rnd_mono _ _ _ _ _ _ (-1100)); try lia.
  (* 420 / value of (m', e') <= 420 / value of (m, e) *)
  assert (A1 : 2 ^ d' * 2 ^ (-44 - e' - d' - -1100) = 2 ^ (1056 - e'))
    by (rewrite <- Z.pow_add_r by lia; f_equal; lia).
  assert (A2 : 2 ^ d * 2 ^ (-44 - e - d - -1100) = 2 ^ (1056 - e))
    by (rewrite <- Z.pow_add_r by lia; f_equal; lia).
  pose proof (pow2_shift (Zpos m) (Zpos m') (e - -1074) (e' - -1074)
                (1056 - e') (1056 - e) ltac:(lia) ltac:(lia) ltac:(lia)
                ltac:(lia) ltac:(lia) S) as S'.
  unfold N, N'.
  replace (7388718138654720 * 2 ^ d' * Zpos m * 2 ^ (-44 - e' - d' - -1100))
    with (7388718138654720 * (Zpos m * (2 ^ d' * 2 ^ (-44 - e' - d' - -1100))))
    by ring.
  replace (7388718138654720 * 2 ^ d * Zpos m' * 2 ^ (-44 - e - d - -1100))
    with (7388718138654720 * (Zpos m' * (2 ^ d * 2 ^ (-44 - e - d - -1100))))
    by ring.
  rewrite A1, A2. lia.
Qed.

(** *** The DPI modifier shrinks when the DPI grows *)

Lemma gt_zero_cases (d : number) :
  gt d n0 = true ->
  d = S754_infinity false \/ exists m e, d = S754_finite false m e.
Proof.
  destruct d as [ s | [ | ] | | [ | ] m e ]; try discriminate.
  - left. reflexivity.
  - right. eauto.
Qed.

Lemma le_above_zero (d1 d2 : number) :
  gt d1 n0 = true -> le d1 d2 = true -> gt d2 n0 = true.
Proof.
  intros H1 H. destruct (gt_zero_cases d1 H1) as [-> | (m & e & ->)];
    destruct d2 as [ s | [ | ] | | [ | ] m2 e2 ]; try discriminate H;
    reflexivity.
Qed.

Lemma gt_zero_truthy (d : number) : gt d n0 = true -> truthy d = true.
Proof.
  intros H. destruct (gt_zero_cases d H) as [-> | (m & e & ->)]; reflexivity.
Qed.

Lemma div_n420_antitone_wf (d1 d2 : number) :
  wf_number d1 -> wf_number d2 -> gt d1 n0 = true -> le d1 d2 = true ->
  SFleb (div n420 d2) (div n420 d1) = true.
Proof.
  intros V1 V2 H1 H. pose proof (le_above_zero d1 d2 H1 H) as H2.
  destruct (gt_zero_cases d1 H1) as [-> | (m1 & e1 & ->)];
    destruct (gt_zero_cases d2 H2) as [-> | (m2 & e2 & ->)].
  - reflexivity.
  - discriminate H.
  - destruct (div_n420_round false m1 e1 V1) as (q & e' & Hq & ->).
    unfold round_result.
    destruct (q <? 2 ^ 53);
      [destruct (e' <=? 971) | destruct (e' + 1 <=? 971)]; reflexivity.
  - apply div_n420_antitone; assumption.
Qed.

(** The DPI modifier is [0.85] when the quotient is at most that, [1.15]
    when the quotient is at least that, and the quotient otherwise. *)
Lemma getDpiModifier_by_ratio (d : number) :
  is_nan d = false ->
  (getDpiModifier d = n0_85 /\ SFleb (div n420 d) n0_85 = true) \/
  (getDpiModifier d = n1_15 /\ SFleb n1_15 (div n420 d) = true) \/
  (getDpiModifier d = div n420 d /\
   SFcompare n0_85 (div n420 d) = Some Lt /\
   SFcompare n1_15 (div n420 d) = Some Gt).
Proof.
  intros Hd. unfold getDpiModifier. cbv zeta.
  pose proof (div_not_nan n420 d I Hd) as Hr.
  set (r := div n420 d) in *.
  unfold Math_min.
  destruct (SFcompare n1_15 r) as [[ | | ] | ] eqn:C1.
  - right; left. split; [reflexivity | ]. unfold SFleb. rewrite C1. reflexivity.
  - right; left. split; [reflexivity | ]. unfold SFleb. rewrite C1. reflexivity.
  - unfold Math_max.
    destruct (SFcompare n0_85 r) as [[ | | ] | ] eqn:C2.
    + left. split; [reflexivity | ]. unfold SFleb.
      rewrite (SFcompare_antisym _ _ _ C2). reflexivity.
    + right; right. auto.
    + left. split; [reflexivity | ]. unfold SFleb.
      rewrite (SFcompare_antisym _ _ _ C2). reflexivity.
    + destruct r; discriminate.
  - destruct r; discriminate.
Qed.

Lemma SFleb_of_compare_Lt (x y : number) :
  SFcompare x y = Some Lt -> SFleb x y = true.
Proof. unfold SFleb. intros ->. reflexivity. Qed.

Lemma SFleb_of_compare_Gt (x y : number) :
  SFcompare x y = Some Gt -> SFleb y x = true.
Proof. unfold SFleb. intros H. rewrite (SFcompare_antisym _ _ _ H). reflexivity. Qed.

Lemma SFleb_compare_Gt (x y : number) :
  SFleb x y = true -> SFcompare x y = Some Gt -> False.
Proof. unfold SFleb. intros H C. rewrite C in H. discriminate H. Qed.

Lemma SFleb_compare_Lt (x y : number) :
  SFleb x y = true -> SFcompare y x = Some Lt -> False.
Proof.
  intros H C. apply (SFleb_compare_Gt x y H).
  apply (SFcompare_antisym _ _ _ C).
Qed.

Lemma getDpiModifier_bounds (d : number) :
  is_nan d = false ->
  SFleb n0_85 (getDpiModifier d) = true /\ SFleb (getDpiModifier d) n1_15 = true.
Proof.
  intros Hd.
  destruct (getDpiModifier_by_ratio d Hd)
    as [(-> & _) | [(-> & _) | (-> & C1 & C2)]].
  - split; reflexivity.
  - split; reflexivity.
  - split; [apply SFleb_of_compare_Lt | apply SFleb_of_compare_Gt]; assumption.
Qed.

Lemma getDpiModifier_antitone (d1 d2 : number) :
  wf_number d1 -> wf_number d2 -> gt d1 n0 = true -> le d1 d2 = true ->
  SFleb (getDpiModifier d2) (getDpiModifier d1) = true.
Proof.
  intros V1 V2 H1 H.
  pose proof (div_n420_antitone_wf d1 d2 V1 V2 H1 H) as R.
  pose proof (le_above_zero d1 d2 H1 H) as H2.
  pose proof (truthy_not_nan _ (gt_zero_truthy d1 H1)) as Na1.
  pose proof (truthy_not_nan _ (gt_zero_truthy d2 H2)) as Na2.
  destruct (getDpiModifier_bounds d1 Na1) as [L1 U1].
  destruct (getDpiModifier_bounds d2 Na2) as [L2 U2].
  destruct (getDpiModifier_by_ratio d2 Na2)
    as [(E2 & B2) | [(E2 & B2) | (E2 & C2 & C2')]].
  - rewrite E2. exact L1.
  - destruct (getDpiModifier_by_ratio d1 Na1)
      as [(E1 & B1) | [(E1 & B1) | (E1 & C1 & C1')]].
    + pose proof (SFleb_trans _ _ _ B2 (SFleb_trans _ _ _ R B1)) as F.
      discriminate F.
    + rewrite E1. exact U2.
    + exfalso. apply (SFleb_compare_Gt _ _ (SFleb_trans _ _ _ B2 R) C1').
  - destruct (getDpiModifier_by_ratio d1 Na1)
      as [(E1 & B1) | [(E1 & B1) | (E1 & C1 & C1')]].
    + exfalso. apply (SFleb_compare_Lt _ _ (SFleb_trans _ _ _ R B1) C2).
    + rewrite E1. exact U2.
    + rewrite E1, E2. exact R.
Qed.

(** The clamped product grows with the second factor. *)
Lemma clamp_mul_mono_r (w m1 m2 : number) :
  normalb w = true -> normal m1 -> normal m2 ->
  -53 <= exponent m1 <= -52 -> -53 <= exponent m2 <= -52 ->
  SFleb m1 m2 = true ->
  ints_in_order (clamp (mul w m1)) (clamp (mul w m2)).
Proof.
  intros N N1 N2 E1 E2 H. apply normalb_spec in N. destruct N as [N E].
  pose proof (mul_mono_r w m1 m2 N N1 N2 ltac:(lia) ltac:(lia) H) as M.
  destruct (mul_normal w m1 N N1) as (k1 & Ny1 & Hk1 & Ey1 & _); try lia.
  destruct (mul_normal w m2 N N2) as (k2 & Ny2 & Hk2 & Ey2 & _); try lia.
  apply (clamp_normal_mono _ _ (-48)); try assumption; try lia.
  apply SFleb_scaled_normal; (assumption || lia).
Qed.

Lemma platformModifierOf_android_positive (d : number) (u : bool) :
  gt d n0 = true -> platformModifierOf android (Some d) u = getDpiModifier d.
Proof.
  intros H. unfold platformModifierOf, androidDpi.
  rewrite (gt_zero_truthy d H), H, orb_true_r. reflexivity.
Qed.

Lemma platformModifierOf_not_android (p : Platform) (d : option number) (u : bool) :
  p <> android -> platformModifierOf p d u = platformModifierOf p None false.
Proof. destruct p; intros H; try reflexivity. contradiction. Qed.

Lemma ints_in_order_refl (w m : number) :
  normalb w = true -> normal m -> -53 <= exponent m <= -52 ->
  ints_in_order (clamp (mul w m)) (clamp (mul w m)).
Proof.
  intros N Hm He.
  destruct (clamp_mul_lower w m N Hm He) as (a & Ea & Ha).
  exists a, a. repeat split; (assumption || lia).
Qed.

(** Two inputs that differ in platform, DPI and flag only: the results are
    ordered as the platform modifiers are. *)
Lemma result_le_platformModifier (i1 i2 : CalculationInput) :
  playstyle i1 = playstyle i2 -> pingLevel i1 = pingLevel i2 ->
  screenSize i1 = screenSize i2 -> refreshRate i1 = refreshRate i2 ->
  wf_dpi (dpi i1) -> wf_dpi (dpi i2) ->
  SFleb (platformModifierOf (platform i1) (dpi i1) (useCustomDpi i1))
        (platformModifierOf (platform i2) (dpi i2) (useCustomDpi i2)) = true ->
  result_le (calculateSensitivity i1) (calculateSensitivity i2).
Proof.
  intros E1 E2 E3 E4 V1 V2 H. unfold calculateSensitivity.
  apply result_le_channels. intros f Hf.
  rewrite !computed_field by assumption.
  rewrite E1, E2, E3, E4.
  destruct (platformModifierOf_normal (platform i1) (dpi i1)
              (useCustomDpi i1) V1) as (Nm1 & Em1).
  destruct (platformModifierOf_normal (platform i2) (dpi i2)
              (useCustomDpi i2) V2) as (Nm2 & Em2).
  apply clamp_mul_mono_r; try assumption; apply pre_normal; assumption.
Qed.

Lemma platformModifierOf_antitone (p : Platform) (d1 d2 : number) (u : bool) :
  wf_number d1 -> wf_number d2 -> gt d1 n0 = true -> le d1 d2 = true ->
  SFleb (platformModifierOf p (Some d2) u) (platformModifierOf p (Some d1) u)
  = true.
Proof.
  intros V1 V2 H1 H. pose proof (le_above_zero d1 d2 H1 H) as H2.
  destruct p.
  - rewrite !platformModifierOf_android_positive by assumption.
    apply getDpiModifier_antitone; assumption.
  - reflexivity.
  - reflexivity.
Qed.

(** With the standard DPI the platform modifier is the one without DPI
    data. *)
Lemma standard_dpi_is_neutral (p : Platform) (u : bool) :
  platformModifierOf p (Some n420) u = platformModifierOf p None u.
Proof. destruct p, u; vm_compute; reflexivity. Qed.

(** X8: no channel grows with the DPI. *)
Theorem result_antitone_in_dpi (input : CalculationInput) (d1 d2 : number) :
  wf_number d1 -> wf_number d2 -> gt d1 n0 = true -> le d1 d2 = true ->
  result_le (calculateSensitivity (withDpi input (Some d2)))
            (calculateSensitivity (withDpi input (Some d1))).
Proof.
  intros V1 V2 H1 H.
  apply result_le_platformModifier; try reflexivity; try assumption.
  apply platformModifierOf_antitone; assumption.
Qed.

Lemma result_antitone_in_dpi_witness :
  wf_number (of_Z 300) /\ wf_number (of_Z 440) /\ gt (of_Z 300) n0 = true /\
  le (of_Z 300) (of_Z 440) = true /\
  result_le (calculateSensitivity (withDpi input_android (Some (of_Z 440))))
            (calculateSensitivity (withDpi input_android (Some (of_Z 300)))).
Proof.
  assert (H1 : wf_number (of_Z 300)) by (vm_compute; reflexivity).
  assert (H2 : wf_number (of_Z 440)) by (vm_compute; reflexivity).
  assert (H3 : gt (of_Z 300) n0 = true) by (vm_compute; reflexivity).
  assert (H4 : le (of_Z 300) (of_Z 440) = true) by (vm_compute; reflexivity).
  split; [exact H1 | split; [exact H2 | split; [exact H3 | split; [exact H4 | ]]]].
  exact (result_antitone_in_dpi input_android (of_Z 300) (of_Z 440) H1 H2 H3 H4).
Defined.

(** X9: a DPI of at least the standard 420 never raises a channel above the
    result without DPI data. *)
Theorem dpi_above_standard_never_raises (input : CalculationInput) (d : number) :
  wf_number d -> le n420 d = true ->
  result_le (calculateSensitivity (withDpi input (Some d)))
            (calculateSensitivity (withDpi input None)).
Proof.
  intros V H.
  apply result_le_platformModifier; try reflexivity; try assumption; try exact I.
  cbn [withDpi platform dpi useCustomDpi].
  rewrite <- standard_dpi_is_neutral.
  apply platformModifierOf_antitone; try assumption; reflexivity.
Qed.

Lemma dpi_above_standard_never_raises_witness :
  wf_number (of_Z 440) /\ le n420 (of_Z 440) = true /\
  result_le (calculateSensitivity (withDpi input_android (Some (of_Z 440))))
            (calculateSensitivity (withDpi input_android None)).
Proof.
  assert (H1 : wf_number (of_Z 440)) by (vm_compute; reflexivity).
  assert (H2 : le n420 (of_Z 440) = true) by (vm_compute; reflexivity).
  split; [exact H1 | split; [exact H2 | ]].
  exact (dpi_above_standard_never_raises input_android (of_Z 440) H1 H2).
Defined.

(** X10: a positive DPI of at most the standard 420 never lowers a channel
    below the result without DPI data. *)
Theorem dpi_below_standard_never_lowers (input : CalculationInput) (d : number) :
  wf_number d -> gt d n0 = true -> le d n420 = true ->
  result_le (calculateSensitivity (withDpi input None))
            (calculateSensitivity (withDpi input (Some d))).
Proof.
  intros V H0 H.
  apply result_le_platformModifier; try reflexivity; try assumption; try exact I.
  cbn [withDpi platform dpi useCustomDpi].
  rewrite <- standard_dpi_is_neutral.
  apply platformModifierOf_antitone; try assumption; reflexivity.
Qed.

Lemma dpi_below_standard_never_lowers_witness :
  wf_number (of_Z 300) /\ gt (of_Z 300) n0 = true /\
  le (of_Z 300) n420 = true /\
  result_le (calculateSensitivity (withDpi input_android None))
            (calculateSensitivity (withDpi input_android (Some (of_Z 300)))).
Proof.
  assert (H1 : wf_number (of_Z 300)) by (vm_compute; reflexivity).
  assert (H2 : gt (of_Z 300) n0 = true) by (vm_compute; reflexivity).
  assert (H3 : le (of_Z 300) n420 = true) by (vm_compute; reflexivity).
  split; [exact H1 | split; [exact H2 | split; [exact H3 | ]]].
  exact (dpi_below_standard_never_lowers input_android (of_Z 300) H1 H2 H3).
Defined.

(** *** The platform *)

Lemma SFltb_SFleb (x y : number) : SFltb x y = true -> SFleb x y = true.
Proof. unfold SFltb, SFleb. destruct (SFcompare x y) as [[ | | ] | ]; auto. Qed.

Lemma SFleb_SFltb_absurd (x y : number) :
  SFleb x y = true -> SFltb y x = true -> False.
Proof.
  unfold SFltb. intros H C.
  destruct (SFcompare y x) as [[ | | ] | ] eqn:E; try discriminate C.
  exact (SFleb_compare_Lt x y H E).
Qed.

(** X11: off Android the DPI and the flag are ignored. *)
Theorem dpi_ignored_off_android (input : CalculationInput)
    (d : option number) (u : bool) :
  platform input <> android ->
  calculateSensitivity (withDpi (withUseCustomDpi input u) d)
  = calculateSensitivity input.
Proof.
  intros H. unfold calculateSensitivity, computed.
  cbn [withDpi withUseCustomDpi platform playstyle pingLevel screenSize
       refreshRate dpi useCustomDpi].
  rewrite (platformModifierOf_not_android _ d u H).
  rewrite (platformModifierOf_not_android _ (dpi input) (useCustomDpi input) H).
  reflexivity.
Qed.

Lemma dpi_ignored_off_android_witness :
  platform input_ios <> android /\
  calculateSensitivity (withDpi (withUseCustomDpi input_ios true)
                                (Some (of_Z 440)))
  = calculateSensitivity input_ios.
Proof.
  assert (H : platform input_ios <> android) by (cbn; discriminate).
  split; [exact H | ].
  exact (dpi_ignored_off_android input_ios (Some (of_Z 440)) true H).
Defined.

(** X12: on iOS no channel is above the one of an unknown platform. *)
Theorem ios_never_above_unknown (input : CalculationInput) :
  result_le (calculateSensitivity (withPlatform input ios))
            (calculateSensitivity (withPlatform input unknown)).
Proof.
  unfold calculateSensitivity.
  apply result_le_channels. intros f Hf.
  rewrite !computed_field by assumption.
  cbn [withPlatform platform playstyle pingLevel screenSize refreshRate dpi
       useCustomDpi].
  apply clamp_mul_mono_r; try (apply pre_normal; assumption);
    try (cbn; lia); reflexivity.
Qed.

(** X13: whatever the platform, the DPI and the flag, the platform modifier
    lies between 0.85 and 1.15. *)
Theorem platformModifier_within_bounds (p : Platform) (d : option number)
    (u : bool) :
  le n0_85 (platformModifierOf p d u) = true /\
  le (platformModifierOf p d u) n1_15 = true.
Proof.
  unfold platformModifierOf, androidDpi.
  destruct p; try (split; reflexivity).
  destruct d as [d | ]; try (split; reflexivity).
  destruct (truthy d) eqn:T; try (split; reflexivity). cbn [andb].
  destruct (u || gt d n0); try (split; reflexivity).
  apply getDpiModifier_bounds, truthy_not_nan, T.
Qed.

(** A negative DPI gets the lowest modifier when [useCustomDpi] is set and
    no modifier otherwise. *)
Lemma android_negative_dpi (d : number) :
  wf_number d -> lt d n0 = true ->
  platformModifierOf android (Some d) true = n0_85 /\
  platformModifierOf android (Some d) false = n1_0.
Proof.
  intros V H.
  assert (T : truthy d = true /\ gt d n0 = false /\ is_nan d = false).
  { destruct d as [ [ | ] | [ | ] | | [ | ] m e ]; try discriminate H;
      repeat split; reflexivity. }
  destruct T as (T & G & Na).
  unfold platformModifierOf, androidDpi. rewrite T, G. cbn [andb orb].
  split; [ | reflexivity].
  destruct (getDpiModifier_by_ratio d Na)
    as [(E & _) | [(E & B) | (E & C1 & C2)]]; [exact E | exfalso .. ].
  - destruct d as [ [ | ] | [ | ] | | [ | ] m e ]; try discriminate H;
      try discriminate B.
    destruct (div_n420_round true m e V) as (q & e' & Hq & Eq).
    rewrite Eq in B. unfold round_result in B.
    destruct (q <? 2 ^ 53);
      [destruct (e' <=? 971) | destruct (e' + 1 <=? 971)]; discriminate B.
  - destruct d as [ [ | ] | [ | ] | | [ | ] m e ]; try discriminate H;
      try discriminate C1.
    destruct (div_n420_round true m e V) as (q & e' & Hq & Eq).
    rewrite Eq in C1. unfold round_result in C1.
    destruct (q <? 2 ^ 53);
      [destruct (e' <=? 971) | destruct (e' + 1 <=? 971)]; discriminate C1.
Qed.

(** *** The commentaries of the explanation and the modifiers *)

Local Open Scope string_scope.

Lemma SFleb_SFltb_trans (x y z : number) :
  SFleb x y = true -> SFltb y z = true -> SFltb x z = true.
Proof.
  intros H1 H2.
  destruct (SFltb x z) eqn:E; [reflexivity | exfalso].
  assert (L : SFleb z x = true).
  { unfold SFltb in E. unfold SFleb.
    destruct (SFcompare x z) as [[ | | ] | ] eqn:C; try discriminate E.
    - rewrite (SFcompare_antisym _ _ _ C). reflexivity.
    - rewrite (SFcompare_antisym _ _ _ C). reflexivity.
    - unfold SFleb in H1. unfold SFltb in H2.
      destruct x, y, z; try discriminate C; try discriminate H1;
        discriminate H2. }
  exact (SFleb_SFltb_absurd _ _ (SFleb_trans _ _ _ L H1) H2).
Qed.

Lemma SFleb_total (x y : number) :
  SFleb x y = false -> SFleb y x = false -> is_nan x = true \/ is_nan y = true.
Proof.
  unfold SFleb. intros H1 H2.
  destruct (SFcompare x y) as [[ | | ] | ] eqn:C; try discriminate H1.
  - rewrite (SFcompare_antisym _ _ _ C) in H2. discriminate H2.
  - destruct x; try (left; reflexivity); destruct y;
      try (right; reflexivity); discriminate C.
Qed.

Lemma SFleb_not_nan (x y : number) :
  SFleb x y = true -> is_nan x = false /\ is_nan y = false.
Proof. destruct x, y; try discriminate; split; reflexivity. Qed.

Lemma not_le_above (x a b : number) :
  SFltb a x = true -> SFleb b a = true -> le x b = false.
Proof.
  intros H1 H2. unfold le. destruct (SFleb x b) eqn:E; [exfalso | reflexivity].
  exact (SFleb_SFltb_absurd _ _ (SFleb_trans _ _ _ E H2) H1).
Qed.

Lemma not_le_above' (x a b : number) :
  SFleb a x = true -> SFltb b a = true -> le x b = false.
Proof.
  intros H1 H2. unfold le. destruct (SFleb x b) eqn:E; [exfalso | reflexivity].
  exact (SFleb_SFltb_absurd _ _ H1 (SFleb_SFltb_trans _ _ _ E H2)).
Qed.

(** X14: the screen-size and refresh-rate commentaries against the modifiers
    that were applied. *)
Theorem commentary_agrees_with_modifiers (s r : number) :
  (String.prefix "Compact screen detected." (screenCommentary s) = true /\
   In (getScreenSizeModifier s) [n1_08; n1_04] \/
   String.prefix "Large screen detected." (screenCommentary s) = true /\
   In (getScreenSizeModifier s) [n0_96; n0_92] \/
   String.prefix "Standard screen size" (screenCommentary s) = true /\
   In (getScreenSizeModifier s) [n1_04; n1_0; n0_96; n0_92]) /\
  (String.prefix "High refresh rate" (refreshCommentary r) = true /\
   In (getRefreshRateModifier r) [n1_05; n1_08] \/
   String.prefix "Good refresh rate" (refreshCommentary r) = true /\
   In (getRefreshRateModifier r) [n1_0; n1_05] \/
   String.prefix "Standard 60Hz display." (refreshCommentary r) = true /\
   In (getRefreshRateModifier r) [n0_95; n1_0; n1_08]).
Proof.
  split.
  - unfold screenCommentary, getScreenSizeModifier.
    change (lit 60 10) with n6_0. set (n6_8 := lit 68 10).
    unfold lt, gt.
    destruct (SFltb s n6_0) eqn:L.
    + left. split; [reflexivity | ].
      rewrite (SFltb_SFleb _ _ L : le s n6_0 = true).
      destruct (le s n5_5); cbn; tauto.
    + destruct (SFltb n6_8 s) eqn:G.
      * right; left. split; [reflexivity | ].
        rewrite (not_le_above s n6_8 n5_5 G eq_refl).
        rewrite (not_le_above s n6_8 n6_0 G eq_refl).
        rewrite (not_le_above s n6_8 n6_5 G eq_refl).
        destruct (le s n7_0); cbn; tauto.
      * right; right. split; [reflexivity | ].
        destruct (le s n5_5) eqn:L5.
        { rewrite (SFleb_SFltb_trans s n5_5 n6_0 L5 eq_refl) in L.
          discriminate L. }
        destruct (le s n6_0); [cbn; tauto | ].
        destruct (le s n6_5); [cbn; tauto | ].
        destruct (le s n7_0); cbn; tauto.
  - unfold refreshCommentary, getRefreshRateModifier.
    change (of_Z 120) with n120. change (of_Z 90) with n90.
    unfold ge.
    destruct (SFleb n120 r) eqn:H.
    + left. split; [reflexivity | ].
      rewrite (not_le_above' r n120 n60 H eq_refl).
      rewrite (not_le_above' r n120 n90 H eq_refl).
      destruct (le r n120); cbn; tauto.
    + destruct (SFleb n90 r) eqn:G.
      * right; left. split; [reflexivity | ].
        rewrite (not_le_above' r n90 n60 G eq_refl).
        destruct (le r n90); [cbn; tauto | ].
        destruct (le r n120) eqn:L; [cbn; tauto | exfalso].
        destruct (SFleb_not_nan _ _ G) as [_ Nr].
        destruct (SFleb_total _ _ H L) as [N | N];
          [discriminate N | rewrite Nr in N; discriminate N].
      * right; right. split; [reflexivity | ].
        destruct (le r n60); [cbn; tauto | ].
        destruct (le r n90) eqn:L9; [cbn; tauto | ].
        destruct (le r n120) eqn:L; [exfalso | cbn; tauto].
        destruct (SFleb_not_nan _ _ L) as [Nr _].
        destruct (SFleb_total _ _ G L9) as [N | N];
          [discriminate N | rewrite Nr in N; discriminate N].
Qed.

(** *** The DPI commentary of the explanation and the DPI modifier *)

Lemma dpiLevelOf_cases (d : number) :
  (gt d (of_Z 480) = true /\ dpiLevelOf d = "high") \/
  (gt d (of_Z 480) = false /\ lt d (of_Z 360) = true /\ dpiLevelOf d = "low") \/
  (gt d (of_Z 480) = false /\ lt d (of_Z 360) = false /\
   dpiLevelOf d = "standard").
Proof.
  unfold dpiLevelOf.
  destruct (gt d (of_Z 480)); [left; auto | ].
  destruct (lt d (of_Z 360)); [right; left; auto | right; right; auto].
Qed.

(** X15: when the explanation says that the sensitivity was lowered for a high
    DPI, no channel is above the result without DPI data. *)
Theorem high_dpi_commentary_holds (input : CalculationInput) (d : number) :
  wf_number d ->
  String.prefix "Higher DPI" (dpiCommentary (dpiLevelOf d)) = true ->
  result_le (calculateSensitivity (withDpi input (Some d)))
            (calculateSensitivity (withDpi input None)).
Proof.
  intros V H.
  destruct (dpiLevelOf_cases d) as [(G & E) | [(_ & _ & E) | (_ & _ & E)]];
    rewrite E in H; try discriminate H.
  apply result_le_platformModifier; try reflexivity; try assumption; try exact I.
  cbn [withDpi platform dpi useCustomDpi].
  rewrite <- standard_dpi_is_neutral.
  apply platformModifierOf_antitone; try assumption; try reflexivity.
  apply (SFleb_trans _ (of_Z 480)); [reflexivity | ].
  apply SFltb_SFleb. exact G.
Qed.

Lemma high_dpi_commentary_holds_witness :
  wf_number (of_Z 560) /\
  String.prefix "Higher DPI" (dpiCommentary (dpiLevelOf (of_Z 560))) = true /\
  result_le (calculateSensitivity (withDpi input_android (Some (of_Z 560))))
            (calculateSensitivity (withDpi input_android None)).
Proof.
  assert (H1 : wf_number (of_Z 560)) by (vm_compute; reflexivity).
  assert (H2 : String.prefix "Higher DPI"
                 (dpiCommentary (dpiLevelOf (of_Z 560))) = true)
    by (vm_compute; reflexivity).
  split; [exact H1 | split; [exact H2 | ]].
  exact (high_dpi_commentary_holds input_android (of_Z 560) H1 H2).
Defined.

(** X16: when the explanation says that the sensitivity was increased for a low
    DPI and the DPI is positive, the modifier is the highest one, 1.15, and
    no channel is below the result without DPI data. *)
Theorem low_dpi_commentary_holds (input : CalculationInput) (d : number) :
  wf_number d -> gt d n0 = true ->
  String.prefix "Lower DPI" (dpiCommentary (dpiLevelOf d)) = true ->
  getDpiModifier d = n1_15 /\
  result_le (calculateSensitivity (withDpi input None))
            (calculateSensitivity (withDpi input (Some d))).
Proof.
  intros V H0 H.
  destruct (dpiLevelOf_cases d) as [(_ & E) | [(_ & L & E) | (_ & _ & E)]];
    rewrite E in H; try discriminate H.
  pose proof (SFltb_SFleb _ _ L) as L'.
  split.
  - pose proof (getDpiModifier_antitone d (of_Z 360) V eq_refl H0 L') as A.
    change (getDpiModifier (of_Z 360)) with n1_15 in A.
    pose proof (truthy_not_nan _ (gt_zero_truthy d H0)) as Na.
    destruct (getDpiModifier_by_ratio d Na)
      as [(Eg & _) | [(Eg & _) | (Eg & C1 & C2)]].
    + rewrite Eg in A. discriminate A.
    + exact Eg.
    + rewrite Eg in A. exfalso. exact (SFleb_compare_Gt _ _ A C2).
  - apply result_le_platformModifier; try reflexivity; try assumption;
      try exact I.
    cbn [withDpi platform dpi useCustomDpi].
    rewrite <- standard_dpi_is_neutral.
    apply platformModifierOf_antitone; try assumption; try reflexivity.
    apply (SFleb_trans _ (of_Z 360)); [exact L' | reflexivity].
Qed.

Lemma low_dpi_commentary_holds_witness :
  wf_number (of_Z 300) /\ gt (of_Z 300) n0 = true /\
  String.prefix "Lower DPI" (dpiCommentary (dpiLevelOf (of_Z 300))) = true /\
  getDpiModifier (of_Z 300) = n1_15.
Proof.
  assert (H1 : wf_number (of_Z 300)) by (vm_compute; reflexivity).
  assert (H2 : gt (of_Z 300) n0 = true) by (vm_compute; reflexivity).
  assert (H3 : String.prefix "Lower DPI"
                 (dpiCommentary (dpiLevelOf (of_Z 300))) = true)
    by (vm_compute; reflexivity).
  split; [exact H1 | split; [exact H2 | split; [exact H3 | ]]].
  exact (proj1 (low_dpi_commentary_holds input_android (of_Z 300) H1 H2 H3)).
Defined.

(** X17: on Android, for a negative DPI the explanation starts with the
    DPI paragraph saying that the sensitivity was increased, while the
    platform modifier is 0.85 with the flag [useCustomDpi] and 1.0 without
    it, and no channel is above the result without DPI data. *)
Theorem negative_dpi_never_raises (toString : number -> string)
    (input : CalculationInput) (result : SensitivityResult) (d : number) :
  wf_number d -> lt d n0 = true -> platform input = android ->
  (exists rest,
     generateExplanation toString (withDpi input (Some d)) result
     = "**Android DPI Adjustment:** Your device runs at " ++ toString d ++
       " DPI (low). Lower DPI means touch input is less responsive, so we've increased sensitivity slightly."
       ++ nl ++ nl ++ rest) /\
  platformModifierOf (platform input) (Some d) (useCustomDpi input)
  = (if useCustomDpi input then n0_85 else n1_0) /\
  result_le (calculateSensitivity (withDpi input (Some d)))
            (calculateSensitivity (withDpi input None)).
Proof.
  intros V H P.
  pose proof (SFltb_SFleb _ _ H) as H'.
  assert (L : lt d (of_Z 360) = true)
    by (apply (SFleb_SFltb_trans d n0); [exact H' | reflexivity]).
  assert (G : gt d (of_Z 480) = false).
  { unfold gt. destruct (SFltb (of_Z 480) d) eqn:E; [exfalso | reflexivity].
    apply (SFleb_SFltb_absurd d (of_Z 480)); [ | exact E].
    apply (SFleb_trans _ n0); [exact H' | reflexivity]. }
  assert (T : truthy d = true).
  { destruct d as [ [ | ] | [ | ] | | [ | ] m e ]; try discriminate H;
      reflexivity. }
  destruct (android_negative_dpi d V H) as [E1 E2].
  split; [ | split].
  - unfold generateExplanation, deviceSection.
    cbn [withDpi platform dpi]. rewrite P, T.
    unfold dpiLevelOf. rewrite G, L.
    eexists. cbn [dpiCommentary String.eqb Ascii.eqb Bool.eqb].
    rewrite !append_assoc. reflexivity.
  - rewrite P. destruct (useCustomDpi input); assumption.
  - apply result_le_platformModifier; try reflexivity; try assumption;
      try exact I.
    cbn [withDpi platform dpi useCustomDpi]. rewrite P.
    destruct (useCustomDpi input); [rewrite E1 | rewrite E2]; reflexivity.
Qed.

Lemma negative_dpi_never_raises_witness :
  wf_number (of_Z (-300)) /\ lt (of_Z (-300)) n0 = true /\
  platform input_android = android /\
  platformModifierOf (platform input_android) (Some (of_Z (-300)))
                     (useCustomDpi input_android)
  = (if useCustomDpi input_android then n0_85 else n1_0) /\
  result_le (calculateSensitivity (withDpi input_android (Some (of_Z (-300)))))
            (calculateSensitivity (withDpi input_android None)).
Proof.
  assert (H1 : wf_number (of_Z (-300))) by (vm_compute; reflexivity).
  assert (H2 : lt (of_Z (-300)) n0 = true) by (vm_compute; reflexivity).
  assert (H3 : platform input_android = android) by reflexivity.
  split; [exact H1 | split; [exact H2 | split; [exact H3 | ]]].
  exact (proj2 (negative_dpi_never_raises (fun _ => EmptyString) input_android
                  (calculateSensitivity input_android) (of_Z (-300)) H1 H2 H3)).
Defined.

(** *** From the form to the result and the saved preset *)

Lemma or_number_truthy (a b : number) :
  truthy b = true -> truthy (or_number a b) = true.
Proof. intros H. unfold or_number. destruct (truthy a) eqn:E; assumption. Qed.

Lemma or_number_wf (a b : number) :
  wf_number a -> wf_number b -> wf_number (or_number a b).
Proof. intros Ha Hb. unfold or_number. destruct (truthy a); assumption. Qed.

(** X18: whatever the texts of the form are, the input of the calculation has
    a screen size and a refresh rate that are neither 0 nor NaN, no DPI off
    Android, and on Android a DPI that is neither 0 nor NaN. *)
Theorem form_input_is_never_falsy (parseFloat parseInt : string -> number)
    (toString : number -> string) (formData : FormData) :
  let input := gen_input (generated parseFloat parseInt toString formData) in
  truthy (screenSize input) = true /\ truthy (refreshRate input) = true /\
  match platform input with
  | android => exists d, dpi input = Some d /\ truthy d = true
  | _ => dpi input = None
  end.
Proof.
  cbn [generated handleSubmit handleGenerate gen_input screenSize refreshRate
       platform dpi data_screenSize data_refreshRate data_platform data_dpi].
  split; [apply or_number_truthy; reflexivity | ].
  split; [apply or_number_truthy; reflexivity | ].
  destruct (form_platform formData); try reflexivity.
  eexists. split; [reflexivity | apply or_number_truthy; reflexivity].
Qed.

(** X19: the preset sent to the store after a submission has strictly
    descending scope channels that stay away from the floor, and a DPI on
    Android only. *)
Theorem saved_preset_is_strictly_descending
    (parseFloat parseInt : string -> number) (toString : number -> string)
    (formData : FormData) (name : string) :
  wf_number (parseInt (form_dpi formData)) ->
  exists req,
    handleSavePreset (Some (generated parseFloat parseInt toString formData)) name
    = Some req /\
    req_name req = name /\
    (req_dpi req = None \/ req_platform req = android) /\
    let r := req_sensitivities req in
    gt (general r) (redDot r) = true /\ gt (redDot r) (scope2x r) = true /\
    gt (scope2x r) (scope4x r) = true /\ gt (scope4x r) (awmScope r) = true /\
    int_in 12 200 (awmScope r) /\ int_in 16 200 (freeLook r).
Proof.
  intros V. eexists. split; [reflexivity | ].
  cbn [generated handleSubmit handleGenerate gen_result gen_deviceInfo
       req_name req_dpi req_platform req_sensitivities info_dpi info_platform
       data_platform data_dpi].
  split; [reflexivity | ]. split.
  - destruct (form_platform formData); auto.
  - apply calculateSensitivity_descending. cbn [dpi data_dpi].
    destruct (form_platform formData); try exact I.
    apply or_number_wf; [exact V | reflexivity].
Qed.

Lemma saved_preset_is_strictly_descending_witness :
  wf_number (parse_constant (of_Z 440) (form_dpi form_android)) /\
  exists req,
    handleSavePreset
      (Some (generated (parse_constant (lit 65 10)) (parse_constant (of_Z 440))
                       (fun _ => EmptyString) form_android))
      "Preset" = Some req /\
    req_name req = "Preset".
Proof.
  assert (H : wf_number (parse_constant (of_Z 440) (form_dpi form_android)))
    by (vm_compute; reflexivity).
  split; [exact H | ].
  destruct (saved_preset_is_strictly_descending
              (parse_constant (lit 65 10)) (parse_constant (of_Z 440))
              (fun _ => EmptyString) form_android "Preset" H)
    as (req & E & N & _).
  exists req. split; [exact E | exact N].
Defined.

(** X20: on Android the explanation made from the form always starts with the
    DPI paragraph. *)
Theorem android_form_explains_dpi (parseFloat parseInt : string -> number)
    (toString : number -> string) (formData : FormData) :
  form_platform formData = android ->
  let g := generated parseFloat parseInt toString formData in
  exists d rest,
    dpi (gen_input g) = Some d /\
    gen_explanation g
    = "**Android DPI Adjustment:** Your device runs at " ++ toString d ++ rest.
Proof.
  intros P. cbv zeta.
  cbn [generated handleSubmit handleGenerate gen_input gen_explanation dpi
       data_dpi data_platform].
  rewrite P. eexists. eexists. split; [reflexivity | ].
  unfold generateExplanation, deviceSection. cbn [platform dpi].
  rewrite (or_number_truthy (parseInt (form_dpi formData)) (of_Z 440) eq_refl).
  rewrite !append_assoc. reflexivity.
Qed.

Lemma android_form_explains_dpi_witness :
  form_platform form_android = android /\
  exists d rest,
    dpi (gen_input (generated (parse_constant (lit 65 10))
                              (parse_constant (of_Z 440))
                              (fun _ => EmptyString) form_android)) = Some d /\
    gen_explanation (generated (parse_constant (lit 65 10))
                               (parse_constant (of_Z 440))
                               (fun _ => EmptyString) form_android)
    = "**Android DPI Adjustment:** Your device runs at " ++ EmptyString ++ rest.
Proof.
  assert (H : form_platform form_android = android) by reflexivity.
  split; [exact H | ].
  exact (android_form_explains_dpi (parse_constant (lit 65 10))
           (parse_constant (of_Z 440)) (fun _ => EmptyString) form_android H).
Defined.

Lemma truthy_not_negative (d : number) :
  truthy d = true -> lt d n0 = false -> gt d n0 = true.
Proof.
  destruct d as [ [ | ] | [ | ] | | [ | ] m e ]; try discriminate;
    reflexivity.
Qed.

(** X21: the flag [useCustomDpi] of the form changes the result only when the
    DPI text reads as a negative number. *)
Theorem form_flag_matters_only_for_negative_dpi
    (parseFloat parseInt : string -> number) (toString : number -> string)
    (formData : FormData) (u1 u2 : bool) :
  lt (parseInt (form_dpi formData)) n0 = false ->
  gen_result (generated parseFloat parseInt toString
                (withFormUseCustomDpi formData u1))
  = gen_result (generated parseFloat parseInt toString
                  (withFormUseCustomDpi formData u2)).
Proof.
  intros H.
  cbn [generated handleSubmit handleGenerate gen_result withFormUseCustomDpi
       form_deviceName form_platform form_playstyle form_pingLevel
       form_screenSize form_refreshRate form_dpi form_useCustomDpi
       data_platform data_playstyle data_pingLevel data_screenSize
       data_refreshRate data_dpi data_useCustomDpi].
  unfold calculateSensitivity, computed.
  cbn [platform playstyle pingLevel screenSize refreshRate dpi useCustomDpi].
  assert (E : forall u,
            platformModifierOf (form_platform formData)
              match form_platform formData with
              | android => Some (or_number (parseInt (form_dpi formData)) (of_Z 440))
              | _ => None
              end u
            = platformModifierOf (form_platform formData)
              match form_platform formData with
              | android => Some (or_number (parseInt (form_dpi formData)) (of_Z 440))
              | _ => None
              end true).
  { intros u. destruct (form_platform formData); try reflexivity.
    assert (G : gt (or_number (parseInt (form_dpi formData)) (of_Z 440)) n0 = true).
    { unfold or_number. destruct (truthy (parseInt (form_dpi formData))) eqn:T.
      - apply truthy_not_negative; assumption.
      - reflexivity. }
    rewrite !platformModifierOf_android_positive by exact G. reflexivity. }
  rewrite (E u1), (E u2). reflexivity.
Qed.

Lemma form_flag_matters_only_for_negative_dpi_witness :
  lt (parse_constant (of_Z 440) (form_dpi form_android)) n0 = false /\
  gen_result (generated (parse_constant (lit 65 10)) (parse_constant (of_Z 440))
                        (fun _ => EmptyString)
                        (withFormUseCustomDpi form_android true))
  = gen_result (generated (parse_constant (lit 65 10)) (parse_constant (of_Z 440))
                          (fun _ => EmptyString)
                          (withFormUseCustomDpi form_android false)).
Proof.
  assert (H : lt (parse_constant (of_Z 440) (form_dpi form_android)) n0 = false)
    by (vm_compute; reflexivity).
  split; [exact H | ].
  exact (form_flag_matters_only_for_negative_dpi (parse_constant (lit 65 10))
           (parse_constant (of_Z 440)) (fun _ => EmptyString) form_android
           true false H).
Defined.
